(** * setup_template.py: the template configuration script, embedded and verified

    The script prompts for the template variables, substitutes the
    [{{VARIABLE_NAME}}] placeholders in a fixed list of files, renames the
    source and test directories, and optionally runs [git init],
    [pre-commit install] and removes itself.

    Layout of this development:
    - [Str]: the operations of Python's [str] that the script uses;
    - [Py]: a state-and-exception monad over a [world] (file system,
      standard input and output, a trace of file-system calls, the outcome
      of the external commands);
    - [Fs]: the calls of [pathlib], [shutil] and [subprocess] that the script
      makes, over that world;
    - [Script]: the functions of [setup_template.py], one definition each,
      with the bodies of their loops named where a property is about them;
    - the vocabulary of the properties: templates, plain names, [returns],
      [keeps] and [raises];
    - the properties, function by function; then what a run keeps whether
      it returns or raises, and further properties of each function and of
      the steps of [main].

    Modelling conventions.
    - A character is one of the first 256 code points (Rocq's [ascii]); a
      Python [str] is a [string].
    - A file is identified with the text [read_text] returns for it: what
      it holds on disk with the line ends decoded ([Newline.decode]).
      [write_text s] stores [s]; on disk it leaves [Newline.encode sep s]
      for the line separator [sep] of the platform, which [read_text]
      returns as [s] when [s] holds no carriage return.  The line ends that
      a file has on disk are not part of the world.
    - A path is the list of its components below the project root, which
      exists and is a directory.  A string joined to the project root is
      split at the slashes, empty and [.] components dropped, as [pathlib]
      does.  Absolute strings and [..] components leave the modelled tree:
      the theorems that depend on where such a string leads carry the
      hypothesis that it is a plain name ([is_name]).
    - There are no symbolic links. *)

From Stdlib Require Import Ascii String DecimalString.
From stdpp Require Import gmap strings list fin_maps.

(** ** Python's [str] *)

Module Str.

(** [s.startswith(pre)] *)
Definition startswith (s pre : string) : bool := String.prefix pre s.

(** [s[n:]] *)
Fixpoint drop (n : nat) (s : string) : string :=
  match n, s with
  | O, _ => s
  | S _, "" => ""
  | S k, String _ s' => drop k s'
  end.

(** [sub in s] *)
Fixpoint contains (s sub : string) : bool :=
  String.prefix sub s ||
  match s with
  | "" => false
  | String _ s' => contains s' sub
  end.

(** The scan of [str.replace] for a non-empty [old]: left to right, an
    occurrence found at the current position is replaced and its characters
    are skipped, so that occurrences do not overlap; [skip] counts the
    characters of the current occurrence still to pass. *)
Fixpoint replace_go (old new : string) (skip : nat) (s : string) : string :=
  match s with
  | "" => ""
  | String c s' =>
      match skip with
      | S k => replace_go old new k s'
      | O =>
          if String.prefix old s
          then new +:+ replace_go old new (String.length old - 1) s'
          else String c (replace_go old new 0 s')
      end
  end.

(** [s.replace("", new)] puts [new] before every character and at the end. *)
Fixpoint replace_empty (new : string) (s : string) : string :=
  match s with
  | "" => new
  | String c s' => new +:+ String c (replace_empty new s')
  end.

(** [s.replace(old, new)] *)
Definition replace (s old new : string) : string :=
  match old with
  | "" => replace_empty new s
  | _ => replace_go old new 0 s
  end.

(** [s.replace(old, new, 1)]: the first occurrence only. *)
Fixpoint replace_first (s old new : string) : string :=
  if String.prefix old s then new +:+ drop (String.length old) s
  else match s with
       | "" => ""
       | String c s' => String c (replace_first s' old new)
       end.

(** [c.isspace()] on the first 256 code points. *)
Definition isspace (c : ascii) : bool :=
  let n := N_of_ascii c in
  ((9 <=? n) && (n <=? 13) || (28 <=? n) && (n <=? 32)
   || (n =? 133) || (n =? 160))%N.

Fixpoint lstrip (s : string) : string :=
  match s with
  | "" => ""
  | String c s' => if isspace c then lstrip s' else s
  end.

Fixpoint rstrip (s : string) : string :=
  match s with
  | "" => ""
  | String c s' =>
      match rstrip s' with
      | "" => if isspace c then "" else String c ""
      | r => String c r
      end
  end.

(** [s.strip()] *)
Definition strip (s : string) : string := rstrip (lstrip s).

(** [c.lower()] on the first 256 code points: the letters A-Z and the
    capital letters of Latin-1 (192-222 but the multiplication sign 215). *)
Definition lower_char (c : ascii) : ascii :=
  let n := N_of_ascii c in
  if ((65 <=? n) && (n <=? 90)
      || (192 <=? n) && (n <=? 222) && negb (n =? 215))%N
  then ascii_of_N (n + 32) else c.

(** [s.lower()] *)
Fixpoint lower (s : string) : string :=
  match s with
  | "" => ""
  | String c s' => String (lower_char c) (lower s')
  end.

(** [c * n] for a one-character string [c] *)
Fixpoint repeat (c : ascii) (n : nat) : string :=
  match n with
  | O => ""
  | S k => String c (repeat c k)
  end.

(** [str(n)] for a natural number *)
Definition of_nat (n : nat) : string := NilEmpty.string_of_uint (Nat.to_uint n).

(** [s.split(sep)] for a one-character separator *)
Fixpoint split (sep : ascii) (s : string) : list string :=
  match s with
  | "" => [""]
  | String c s' =>
      if Ascii.eqb c sep then "" :: split sep s'
      else match split sep s' with
           | hd :: tl => String c hd :: tl
           | [] => [String c ""]
           end
  end.

End Str.

(** ** The world the script runs in *)

(** A path below the project root, as the list of its components. *)
Abbreviation path := (list string).

(** What a file holds: a text, or bytes that do not decode as UTF-8. *)
Inductive fdata :=
  | Text (s : string)
  | Undecodable (raw : string).

Record file := File {
  f_data : fdata;
  f_readable : bool;
  f_writable : bool }.

Inductive entry :=
  | EFile (f : file)
  | EDir.

(** How a run of an external command ends: exit status zero, another exit
    status, the program not found, or the launch refused by the system. *)
Inductive tool_outcome :=
  | ExitZero
  | ExitNonZero
  | ToolNotFound
  | ToolDenied.

(** The calls that change the file system or leave the process. *)
Inductive event :=
  | EvWriteText (p : path) (s : string)
  | EvMove (src dst : path)
  | EvUnlink (p : path)
  | EvRun (cmd : list string).

Record world := World {
  w_fs : gmap path entry;
  w_stdin : list string;
  w_stdout : list string;
  w_trace : list event;
  w_tool : list string → tool_outcome }.

Definition set_fs (fs : gmap path entry) (w : world) : world :=
  World fs (w_stdin w) (w_stdout w) (w_trace w) (w_tool w).
Definition set_stdin (i : list string) (w : world) : world :=
  World (w_fs w) i (w_stdout w) (w_trace w) (w_tool w).
Definition add_stdout (s : string) (w : world) : world :=
  World (w_fs w) (w_stdin w) (w_stdout w ++ [s]) (w_trace w) (w_tool w).
Definition add_event (e : event) (w : world) : world :=
  World (w_fs w) (w_stdin w) (w_stdout w) (w_trace w ++ [e]) (w_tool w).

(** The exceptions the modelled calls raise. *)
Inductive exn :=
  | UnicodeDecodeError
  | PermissionError
  | FileNotFoundError
  | IsADirectoryError
  | NotADirectoryError
  | EOFError
  | KeyError (k : string)
  | CalledProcessError.

Global Instance exn_eq_dec : EqDecision exn.
Proof. solve_decision. Defined.

(** [str(e)]; the wording of the messages is schematic. *)
Definition exn_str (e : exn) : string :=
  match e with
  | UnicodeDecodeError => "'utf-8' codec can't decode byte"
  | PermissionError => "[Errno 13] Permission denied"
  | FileNotFoundError => "[Errno 2] No such file or directory"
  | IsADirectoryError => "[Errno 21] Is a directory"
  | NotADirectoryError => "[Errno 20] Not a directory"
  | EOFError => "EOF when reading a line"
  | KeyError k => "'" +:+ k +:+ "'"
  | CalledProcessError => "Command returned non-zero exit status"
  end.

(** ** State and exceptions *)

Module Py.

Inductive result (A : Type) :=
  | Ok (a : A) (w : world)
  | Raise (e : exn) (w : world).
Global Arguments Ok {A} a w.
Global Arguments Raise {A} e w.

Definition t (A : Type) : Type := world → result A.

Definition ret {A} (a : A) : t A := λ w, Ok a w.

Definition bind {A B} (m : t A) (k : A → t B) : t B :=
  λ w, match m w with
       | Ok a w' => k a w'
       | Raise e w' => Raise e w'
       end.

Definition raise {A} (e : exn) : t A := λ w, Raise e w.

(** [try: m  except <classes>: h]: an exception of [m] that [catches]
    accepts is handled by [h] in the world as [m] left it; another one
    propagates. *)
Definition try_except {A} (m : t A) (catches : exn → bool) (h : exn → t A) : t A :=
  λ w, match m w with
       | Ok a w' => Ok a w'
       | Raise e w' => if catches e then h e w' else Raise e w'
       end.

(** [for x in l: body x] *)
Fixpoint for_ {A} (l : list A) (body : A → t unit) : t unit :=
  match l with
  | [] => ret ()
  | x :: l' => bind (body x) (λ _, for_ l' body)
  end.

(** A [for] loop that carries a local variable. *)
Fixpoint for_acc {A S} (l : list A) (acc : S) (body : S → A → t S) : t S :=
  match l with
  | [] => ret acc
  | x :: l' => bind (body acc x) (λ acc', for_acc l' acc' body)
  end.

(** [print(s)] *)
Definition print (s : string) : t unit :=
  λ w, Ok () (add_stdout (s +:+ String "010" EmptyString) w).

(** [input(prompt)]: the prompt is written and a line is read, without its
    line end; at end of input [EOFError] is raised. *)
Definition input (prompt : string) : t string :=
  λ w, let w := add_stdout prompt w in
       match w_stdin w with
       | [] => Raise EOFError w
       | line :: rest => Ok line (set_stdin rest w)
       end.

End Py.

Notation "x <- m ;; k" := (Py.bind m (λ x, k))
  (at level 100, m at next level, right associativity, only parsing).
Notation "m ;;; k" := (Py.bind m (λ _, k))
  (at level 100, right associativity, only parsing).

(** ** The library calls of the script *)

Module Fs.
Import Py.

(** [project_root / s] *)
Definition path_of (s : string) : path :=
  filter (λ c, c ≠ EmptyString ∧ c ≠ ".") (Str.split "/" s).

(** [str(p)], without the prefix of the project root *)
Definition str (p : path) : string := String.concat "/" p.

(** [p.name] *)
Definition name (p : path) : string := default EmptyString (last p).

(** [p.parent] *)
Definition parent (p : path) : path := removelast p.

(** The entry a path leads to; the empty path is the project root. *)
Definition entry_at (fs : gmap path entry) (p : path) : option entry :=
  match p with
  | [] => Some EDir
  | _ => fs !! p
  end.

(** [p.exists()] *)
Definition exists_ (p : path) : t bool :=
  λ w, Ok (match entry_at (w_fs w) p with Some _ => true | None => false end) w.

(** [p.is_file()] *)
Definition is_file (p : path) : t bool :=
  λ w, Ok (match entry_at (w_fs w) p with Some (EFile _) => true | _ => false end) w.

(** [p.read_text(encoding="utf-8")] *)
Definition read_text (p : path) : t string :=
  λ w, match entry_at (w_fs w) p with
       | None => Raise FileNotFoundError w
       | Some EDir => Raise IsADirectoryError w
       | Some (EFile f) =>
           if f_readable f then
             match f_data f with
             | Text s => Ok s w
             | Undecodable _ => Raise UnicodeDecodeError w
             end
           else Raise PermissionError w
       end.

(** [p.write_text(s, encoding="utf-8")]; the call is recorded in the trace
    whether or not it succeeds. *)
Definition write_text (p : path) (s : string) : t unit :=
  λ w, let w := add_event (EvWriteText p s) w in
       match entry_at (w_fs w) p with
       | Some (EFile f) =>
           if f_writable f
           then Ok () (set_fs (<[p := EFile (File (Text s) (f_readable f) true)]> (w_fs w)) w)
           else Raise PermissionError w
       | Some EDir => Raise IsADirectoryError w
       | None =>
           match entry_at (w_fs w) (parent p) with
           | Some EDir => Ok () (set_fs (<[p := EFile (File (Text s) true true)]> (w_fs w)) w)
           | Some (EFile _) => Raise NotADirectoryError w
           | None => Raise FileNotFoundError w
           end
       end.

(** Where an entry at [p] lies after [src] has become [dst]. *)
Definition rekey (src dst p : path) : path :=
  if bool_decide (src `prefix_of` p) then dst ++ drop (length src) p else p.

Definition move_fs (src dst : path) (fs : gmap path entry) : gmap path entry :=
  list_to_map (prod_map (rekey src dst) id <$> map_to_list fs).

(** [shutil.move(src, dst)] where [src] exists, [dst] does not and the
    parent of [dst] is a directory: the entry at [src] and everything below
    it is found at [dst] afterwards. *)
Definition move (src dst : path) : t unit :=
  λ w, Ok () (set_fs (move_fs src dst (w_fs w)) (add_event (EvMove src dst) w)).

(** [p.unlink()] *)
Definition unlink (p : path) : t unit :=
  λ w, match entry_at (w_fs w) p with
       | Some (EFile _) => Ok () (set_fs (delete p (w_fs w)) (add_event (EvUnlink p) w))
       | Some EDir => Raise IsADirectoryError w
       | None => Raise FileNotFoundError w
       end.

(** [project_root.rglob("*")]: every entry below the project root, hidden
    ones included.  The order is that of the directory scans and is not
    specified. *)
Definition rglob : t (list path) :=
  λ w, Ok (map_to_list (w_fs w)).*1 w.

(** [subprocess.run(cmd, cwd=project_root, capture_output=True, check=True)].
    What the command itself does to the tree is outside the model. *)
Definition run (cmd : list string) : t unit :=
  λ w, let w' := add_event (EvRun cmd) w in
       match w_tool w cmd with
       | ExitZero => Ok () w'
       | ExitNonZero => Raise CalledProcessError w'
       | ToolNotFound => Raise FileNotFoundError w'
       | ToolDenied => Raise PermissionError w'
       end.

End Fs.

(** ** Line ends in text mode

    [read_text] and [write_text] open the file in text mode with the default
    [newline=None].  On reading, the line ends [\n], [\r] and [\r\n] all
    become [\n]; on writing, every [\n] becomes the line separator of the
    platform, [\n] on POSIX and [\r\n] on Windows. *)

Module Newline.

Definition LF : string := String "010" EmptyString.
Definition CRLF : string := String "013" (String "010" EmptyString).

(** The text that reading gives for what a file holds on disk. *)
Fixpoint decode (raw : string) : string :=
  match raw with
  | EmptyString => EmptyString
  | String c rest =>
      if Ascii.eqb c "013" then
        String "010"
          match rest with
          | String c' rest' => if Ascii.eqb c' "010" then decode rest' else decode rest
          | EmptyString => EmptyString
          end
      else String c (decode rest)
  end.

(** What writing the text [s] leaves on disk where the line separator is
    [sep]. *)
Fixpoint encode (sep s : string) : string :=
  match s with
  | EmptyString => EmptyString
  | String c s' =>
      if Ascii.eqb c "010" then sep +:+ encode sep s' else String c (encode sep s')
  end.

End Newline.

(** ** The script *)

(** A Python [dict] from [str] to [str]: the items in insertion order. *)
Abbreviation dict := (list (string * string)).

(** [d[k]] *)
Fixpoint dict_get (d : dict) (k : string) : option string :=
  match d with
  | [] => None
  | (k', v) :: d' => if String.eqb k' k then Some v else dict_get d' k
  end.

(** [d[k] = v]: a key already present keeps its place. *)
Fixpoint dict_set (d : dict) (k v : string) : dict :=
  match d with
  | [] => [(k, v)]
  | (k', v') :: d' =>
      if String.eqb k' k then (k, v) :: d' else (k', v') :: dict_set d' k v
  end.

Definition getitem (d : dict) (k : string) : Py.t string :=
  match dict_get d k with
  | Some v => Py.ret v
  | None => Py.raise (KeyError k)
  end.

Definition NL : string := String "010" EmptyString.
Definition DQUOTE : string := String "034" EmptyString.

Module Script.
Import Py.

Record var_info := VarInfo { default : string; description : string }.

Definition TEMPLATE_VARS : list (string * var_info) :=
  [ ("PROJECT_NAME",
      VarInfo "my-python-project" "Project name (used for repository and package)");
    ("PROJECT_DESCRIPTION",
      VarInfo "A Python project" "Short project description (one line)");
    ("GITHUB_OWNER",
      VarInfo "your-username" "GitHub username or organization");
    ("MIN_PYTHON_VERSION",
      VarInfo "3.10" "Minimum Python version supported");
    ("PYTHON_VERSIONS",
      VarInfo "3.10, 3.11, 3.12" "Python versions for CI matrix (comma-separated)");
    ("MAX_LINE_LENGTH",
      VarInfo "127" "Maximum line length for code");
    ("MAX_COMPLEXITY",
      VarInfo "10" "Maximum cyclomatic complexity");
    ("COVERAGE_THRESHOLD",
      VarInfo "95" "Minimum test coverage percentage");
    ("SOURCE_DIR",
      VarInfo "src" "Source code directory name");
    ("TEST_DIR",
      VarInfo "tests" "Test directory name");
    ("MAIN_BRANCH",
      VarInfo "main" "Main branch name");
    ("DEV_BRANCH",
      VarInfo "develop" "Development branch name") ].

Definition FILES_TO_PROCESS : list string :=
  [ ".github/workflows/ci.yml";
    ".github/workflows/claude.yml";
    ".github/workflows/claude-code-review.yml";
    ".github/dependabot.yml";
    ".pre-commit-config.yaml";
    "pyproject.toml";
    ".flake8";
    ".pylintrc";
    "CLAUDE.md";
    "README.md";
    "docs/INDEX.md";
    "docs/CI.md";
    "docs/SETUP.md";
    "docs/ARCHITECTURE.md";
    "docs/planning/TASK_MANAGEMENT.md";
    "config/config.example.yaml";
    "src/__init__.py";
    "src/main.py";
    "tests/__init__.py";
    "tests/conftest.py";
    "tests/test_main.py" ].

Definition DIRECTORIES_TO_RENAME : list string := ["src"; "tests"].

(** [get_input(prompt, default)] *)
Definition get_input (prompt default : string) : t string :=
  line <- input (prompt +:+ " [" +:+ default +:+ "]: ") ;;
  let result := Str.strip line in
  ret (match result with EmptyString => default | _ => result end).

(** The loop of [collect_variables] over a catalog. *)
Definition collect_loop (catalog : list (string * var_info)) (values : dict) : t dict :=
  for_acc catalog values (λ values item,
    let '(var_name, info) := item in
    print (NL +:+ description info) ;;;
    v <- get_input ("  " +:+ var_name) (default info) ;;
    ret (dict_set values var_name v)).

(** [collect_variables()] *)
Definition collect_variables : t dict :=
  print (NL +:+ Str.repeat "=" 60) ;;;
  print "Python Project Template Setup" ;;;
  print (Str.repeat "=" 60) ;;;
  print (NL +:+ "Please provide values for the following settings.") ;;;
  print ("Press Enter to accept the default value shown in brackets." +:+ NL) ;;;
  collect_loop TEMPLATE_VARS [].

(** The placeholder of a variable: ["{{" + var_name + "}}"]. *)
Definition token (var_name : string) : string := "{{" +:+ var_name +:+ "}}".

(** The loop of [replace_in_file] over the items of [replacements]. *)
Definition substitute (replacements : dict) (content : string) : string :=
  fold_left (λ content item,
    let '(var_name, value) := item in
    let pattern := token var_name in
    Str.replace content pattern value) replacements content.

(** [replace_in_file(file_path, replacements)] *)
Definition replace_in_file (file_path : path) (replacements : dict) : t bool :=
  try_except
    (content <- Fs.read_text file_path ;;
     let original_content := content in
     let content := substitute replacements content in
     if bool_decide (content ≠ original_content) then
       Fs.write_text file_path content ;;;
       ret true
     else ret false)
    (λ _, true)
    (λ e,
       print ("  Warning: Could not process " +:+ Fs.str file_path +:+ ": " +:+ exn_str e) ;;;
       ret false).

(** [rename_directory(project_root, old_name, new_name)]; [None] stands for
    Python's [None]. *)
Definition rename_directory (old_name new_name : string) : t (option path) :=
  if bool_decide (old_name = new_name) then ret None
  else
    let old_path := Fs.path_of old_name in
    let new_path := Fs.path_of new_name in
    old_exists <- Fs.exists_ old_path ;;
    if old_exists : bool then
      new_exists <- Fs.exists_ new_path ;;
      if new_exists : bool then
        print ("  Warning: Cannot rename " +:+ old_name +:+ " to " +:+ new_name
               +:+ ": target exists") ;;;
        ret None
      else
        Fs.move old_path new_path ;;;
        ret (Some new_path)
    else ret None.

(** The list [patterns] of [update_file_references]. *)
Definition patterns (old_name new_name : string) : list (string * string) :=
  [ (old_name +:+ "/", new_name +:+ "/");
    ("^" +:+ old_name +:+ "/", new_name +:+ "/");
    (DQUOTE +:+ old_name +:+ DQUOTE, DQUOTE +:+ new_name +:+ DQUOTE);
    ("'" +:+ old_name +:+ "'", "'" +:+ new_name +:+ "'") ].

(** The inner loop of [update_file_references]: the new content and the
    flag [modified]. *)
Definition apply_patterns (pats : list (string * string)) (content : string)
    : string * bool :=
  fold_left (λ st pat,
    let '(content, modified) := st in
    let '(old_pattern, new_pattern) := pat in
    if Str.contains content old_pattern
    then (Str.replace content old_pattern new_pattern, true)
    else (content, modified)) pats (content, false).

(** The body of the loop of [update_file_references] for one path. *)
Definition update_file (pats : list (string * string)) (file_path : path) : t unit :=
  is_file <- Fs.is_file file_path ;;
  if (is_file : bool) && negb (Str.startswith (Fs.name file_path) ".") then
    try_except
      (content <- Fs.read_text file_path ;;
       let '(content, modified) := apply_patterns pats content in
       if modified : bool then Fs.write_text file_path content else ret ())
      (λ e, bool_decide (e = UnicodeDecodeError ∨ e = PermissionError))
      (λ _, ret ())
  else ret ().

(** [update_file_references(project_root, old_name, new_name)] *)
Definition update_file_references (old_name new_name : string) : t unit :=
  if bool_decide (old_name = new_name) then ret ()
  else
    paths <- Fs.rglob ;;
    for_ paths (update_file (patterns old_name new_name)).

(** [init_git_repo(project_root)] *)
Definition init_git_repo : t bool :=
  try_except
    (Fs.run ["git"; "init"] ;;; ret true)
    (λ e, bool_decide (e = CalledProcessError ∨ e = FileNotFoundError))
    (λ _, ret false).

(** [install_pre_commit(project_root)] *)
Definition install_pre_commit : t bool :=
  try_except
    (Fs.run ["pre-commit"; "install"] ;;; ret true)
    (λ e, bool_decide (e = CalledProcessError ∨ e = FileNotFoundError))
    (λ _, ret false).

(** [s.lower() in ("yes", "y")] *)
Definition affirmative (s : string) : bool :=
  bool_decide (Str.lower s ∈ ["yes"; "y"]).

(** The path under which a listed file is tried when it does not exist under
    its listed name: the [else] branch of the first loop of [main]. *)
Definition fallback_path (values : dict) (file_rel_path : string) : t string :=
  if Str.startswith file_rel_path "src/" then
    source_dir <- getitem values "SOURCE_DIR" ;;
    ret (Str.replace_first file_rel_path "src/" (source_dir +:+ "/"))
  else if Str.startswith file_rel_path "tests/" then
    test_dir <- getitem values "TEST_DIR" ;;
    ret (Str.replace_first file_rel_path "tests/" (test_dir +:+ "/"))
  else ret file_rel_path.

(** The body of the loop [for file_rel_path in FILES_TO_PROCESS] of [main];
    it returns the new value of [modified_count]. *)
Definition process_target (values : dict) (modified_count : nat)
    (file_rel_path : string) : t nat :=
  let file_path := Fs.path_of file_rel_path in
  found <- Fs.exists_ file_path ;;
  if found : bool then
    modified <- replace_in_file file_path values ;;
    if modified : bool then
      print ("  Updated: " +:+ file_rel_path) ;;;
      ret (modified_count + 1)
    else ret modified_count
  else
    new_path <- fallback_path values file_rel_path ;;
    let file_path := Fs.path_of new_path in
    found <- Fs.exists_ file_path ;;
    if found : bool then
      modified <- replace_in_file file_path values ;;
      if modified : bool then
        print ("  Updated: " +:+ new_path) ;;;
        ret (modified_count + 1)
      else ret modified_count
    else ret modified_count.

(** The first loop of [main] with the line that reports its count. *)
Definition process_files (values : dict) : t nat :=
  modified_count <- for_acc FILES_TO_PROCESS 0 (process_target values) ;;
  print (NL +:+ "  Modified " +:+ Str.of_nat modified_count +:+ " files") ;;;
  ret modified_count.

(** One of the two renaming steps of [main]. *)
Definition rename_step (values : dict) (old_name key : string) : t unit :=
  new_name <- getitem values key ;;
  if bool_decide (new_name ≠ old_name) then
    renamed <- rename_directory old_name new_name ;;
    match renamed with
    | Some _ =>
        print ("  Renamed: " +:+ old_name +:+ " -> " +:+ new_name) ;;;
        update_file_references old_name new_name
    | None => ret ()
    end
  else ret ().

(** [main()]; [script] is the name of the running file, [__file__], which
    lies in the project root. *)
Definition main (script : string) : t Z :=
  values <- collect_variables ;;
  print (NL +:+ Str.repeat "=" 60) ;;;
  print "Applying configuration..." ;;;
  print (Str.repeat "=" 60) ;;;
  _ <- process_files values ;;
  rename_step values "src" "SOURCE_DIR" ;;;
  rename_step values "tests" "TEST_DIR" ;;;
  print (NL +:+ Str.repeat "-" 60) ;;;
  init_git <- get_input "Initialize git repository?" "yes" ;;
  (if affirmative init_git then
     ok <- init_git_repo ;;
     if ok : bool then print "  Initialized git repository"
     else print "  Warning: Could not initialize git repository"
   else ret ()) ;;;
  install_hooks <- get_input "Install pre-commit hooks?" "yes" ;;
  (if affirmative install_hooks then
     ok <- install_pre_commit ;;
     if ok : bool then print "  Installed pre-commit hooks"
     else
       print "  Warning: Could not install pre-commit hooks" ;;;
       print "  Run 'pip install pre-commit && pre-commit install' manually"
   else ret ()) ;;;
  print (NL +:+ Str.repeat "-" 60) ;;;
  remove_script <- get_input "Remove this setup script?" "yes" ;;
  (if affirmative remove_script then
     Fs.unlink (Fs.path_of script) ;;;
     print "  Removed setup_template.py"
   else ret ()) ;;;
  print (NL +:+ Str.repeat "=" 60) ;;;
  print "Setup complete!" ;;;
  print (Str.repeat "=" 60) ;;;
  project_name <- getitem values "PROJECT_NAME" ;;
  print (NL +:+ "Your project '" +:+ project_name +:+ "' is ready.") ;;;
  print (NL +:+ "Next steps:") ;;;
  print "  1. Review the generated files" ;;;
  print "  2. Install dependencies: pip install -r requirements-dev.txt" ;;;
  print "  3. Run tests: pytest" ;;;
  print "  4. Start coding!" ;;;
  print EmptyString ;;;
  ret 0%Z.

End Script.

(** ** Templates

    The vocabulary in which the properties of the substitution are stated: a
    template is a sequence of literal text and placeholders, [render] gives
    its text and [expand] the text in which every placeholder of a
    configured variable stands replaced by the value of the variable.  A
    placeholder whose name is not configured, such as the expression
    [${{ matrix.python-version }}] of a workflow file, is a placeholder all
    the same, and [expand] leaves it as it is. *)

Fixpoint has_char (a : ascii) (s : string) : bool :=
  match s with
  | EmptyString => false
  | String c s' => Ascii.eqb c a || has_char a s'
  end.

(** No opening and no closing brace occurs in [s]. *)
Definition brace_free (s : string) : bool :=
  negb (has_char "{" s) && negb (has_char "}" s).

Inductive item :=
  | Lit (s : string)
  | Tok (var_name : string).

Definition item_text (i : item) : string :=
  match i with
  | Lit s => s
  | Tok n => Script.token n
  end.

Definition render (tpl : list item) : string :=
  foldr (λ i acc, item_text i +:+ acc) EmptyString tpl.

Definition expand_item (d : dict) (i : item) : string :=
  match i with
  | Lit s => s
  | Tok n => default (Script.token n) (dict_get d n)
  end.

Definition expand (d : dict) (tpl : list item) : string :=
  foldr (λ i acc, expand_item d i +:+ acc) EmptyString tpl.

(** One step of the substitution, on the template: the placeholders of
    [k] become the literal text [v]. *)
Definition subst_item (k v : string) (i : item) : item :=
  match i with
  | Lit s => Lit s
  | Tok n => if bool_decide (n = k) then Lit v else Tok n
  end.

(** All steps at once: every placeholder of a configured variable becomes
    the literal text of its value. *)
Definition resolve_item (d : dict) (i : item) : item :=
  match i with
  | Lit s => Lit s
  | Tok n => match dict_get d n with Some v => Lit v | None => Tok n end
  end.

(** The text of a template outside its placeholders. *)
Definition literal_text (tpl : list item) : string :=
  foldr (λ i acc, match i with Lit s => s +:+ acc | Tok _ => acc end)
    EmptyString tpl.

(** The names of the placeholders of a template hold no brace. *)
Definition names_plain (tpl : list item) : bool :=
  forallb (λ i, match i with Lit _ => true | Tok n => brace_free n end) tpl.

(** A plain template: the names of its placeholders hold no brace, and its
    text outside the placeholders holds no two opening braces in a row. *)
Definition plain_template (tpl : list item) : bool :=
  names_plain tpl && negb (Str.contains (literal_text tpl) "{{").

(** A map on items that turns some placeholders into brace-free literal
    text and leaves everything else. *)
Definition gentle (g : item → item) : Prop :=
  ∀ i, match i with
       | Lit s => g i = Lit s
       | Tok n => g i = Tok n ∨ ∃ v, g i = Lit v ∧ brace_free v = true
       end.

(** The names and the values of a configuration hold no brace. *)
Definition plain_config (d : dict) : bool :=
  forallb (λ kv, brace_free kv.1 && brace_free kv.2) d.

(** No carriage return occurs in [s], as in every text that [read_text]
    returns. *)
Definition cr_free (s : string) : bool := negb (has_char "013" s).

(** No value of a configuration holds a carriage return. *)
Definition cr_free_config (d : dict) : bool := forallb (λ kv, cr_free kv.2) d.

(** A plain name of a directory entry: one path component. *)
Definition is_name (s : string) : bool :=
  bool_decide (s ≠ EmptyString ∧ s ≠ "." ∧ s ≠ "..") && negb (has_char "/" s).

(** Every entry below the root lies in a directory. *)
Definition ancestors (p : path) : list path :=
  (λ n, take n p) <$> seq 1 (length p - 1).

Definition parents_closed (fs : gmap path entry) : Prop :=
  map_Forall (λ p _, Forall (λ q, fs !! q = Some EDir) (ancestors p)) fs.

(** The configuration in which every variable of a catalog has its default
    value. *)
Definition defaults_of (catalog : list (string * Script.var_info)) : dict :=
  (λ item : string * Script.var_info, (item.1, Script.default item.2)) <$> catalog.

(** What the loop of [update_file_references] makes of the entry with the
    name [nm]: a readable and writable text file whose name does not start
    with a dot and in which a pattern is found holds the rewritten text;
    every other entry is as it was. *)
Definition rewritten (pats : list (string * string)) (nm : string) (e : entry) : entry :=
  match e with
  | EFile (File (Text t) true true) =>
      if Str.startswith nm "." then e
      else if (Script.apply_patterns pats t).2
           then EFile (File (Text (Script.apply_patterns pats t).1) true true)
           else e
  | _ => e
  end.

(** The world after one round of the loop of [update_file_references]. *)
Definition after_update (pats : list (string * string)) (p : path) (w : world) : world :=
  match Fs.entry_at (w_fs w) p with
  | Some (EFile (File (Text t) true wr)) =>
      if Str.startswith (Fs.name p) "." then w
      else if (Script.apply_patterns pats t).2 then
        let t' := (Script.apply_patterns pats t).1 in
        let w1 := add_event (EvWriteText p t') w in
        if wr then set_fs (<[p := EFile (File (Text t') true true)]> (w_fs w)) w1
        else w1
      else w
  | _ => w
  end.

(** What [get_input] makes of a line that was read. *)
Definition answer (line dflt : string) : string :=
  match Str.strip line with
  | EmptyString => dflt
  | r => r
  end.

(** The configuration that the answers [ins] to the prompts of a catalog
    give, added to [values]. *)
Definition answers_of (catalog : list (string * Script.var_info)) (ins : list string)
    (values : dict) : dict :=
  fold_left (λ vs p, dict_set vs p.1.1 (answer p.2 (Script.default p.1.2)))
    (zip catalog ins) values.

(** An answer that leaves the default or gives a plain name. *)
Definition plain_answer (line : string) : Prop :=
  Str.strip line = EmptyString ∨ is_name (Str.strip line) = true.

(** The answers to the prompts for [SOURCE_DIR] and [TEST_DIR], the ninth
    and the tenth line read, are plain. *)
Definition names_answered (w : world) : Prop :=
  ∀ i line, w_stdin w !! i = Some line → i = 8 ∨ i = 9 → plain_answer line.

(** A configuration that names the two directories plainly and has a
    project name. *)
Definition configured (values : dict) : Prop :=
  (∃ sd, dict_get values "SOURCE_DIR" = Some sd ∧ is_name sd = true)
  ∧ (∃ td, dict_get values "TEST_DIR" = Some td ∧ is_name td = true)
  ∧ is_Some (dict_get values "PROJECT_NAME").

(** Total correctness in the monad: from a world that satisfies [P], [m]
    returns, with a value and a world that satisfy [Q]. *)
Definition returns {A} (P : world → Prop) (m : Py.t A) (Q : A → world → Prop) : Prop :=
  ∀ w, P w → ∃ a w', m w = Py.Ok a w' ∧ Q a w'.

(** What a run of [main] needs to reach its end: [k] lines of input left to
    read, no external command whose launch the system refuses, and the
    running script a regular file in the project root. *)
Definition ready (script : string) (k : nat) (w : world) : Prop :=
  k ≤ length (w_stdin w)
  ∧ (∀ cmd, w_tool w cmd ≠ ToolDenied)
  ∧ ∃ f, w_fs w !! [script] = Some (EFile f).

(** The entry of the configuration that an answer to the prompt of a
    catalog item gives. *)
Definition resolved (item : string * Script.var_info) (line : string) : string * string :=
  (item.1, answer line (Script.default item.2)).

(** The world in which a run has ended, whether it returned or raised. *)
Definition outcome_world {A} (r : Py.result A) : world :=
  match r with
  | Py.Ok _ w => w
  | Py.Raise _ w => w
  end.

(** [I] holds where [m] ends, whether it returns or raises, when it holds
    where [m] starts. *)
Definition keeps {A} (I : world → Prop) (m : Py.t A) : Prop :=
  ∀ w, I w → I (outcome_world (m w)).

(** The trace has grown from [t0] by events that are all [good]. *)
Definition grows (good : event → Prop) (t0 : list event) (w : world) : Prop :=
  ∃ evs, w_trace w = t0 ++ evs ∧ Forall good evs.

(** The calls on the file system and the launches that a run of the script
    named [script] may make. *)
Definition allowed (script : string) (e : event) : Prop :=
  match e with
  | EvWriteText _ _ => True
  | EvMove src _ => src = ["src"] ∨ src = ["tests"]
  | EvUnlink p => p = Fs.path_of script
  | EvRun cmd => cmd = ["git"; "init"] ∨ cmd = ["pre-commit"; "install"]
  end.

(** An answer to one of the three questions of [main] that stands for yes:
    nothing but white space, or [yes] or [y] in any case. *)
Definition consents (line : string) : bool :=
  bool_decide (Str.strip line = EmptyString
               ∨ Str.lower (Str.strip line) = "yes"
               ∨ Str.lower (Str.strip line) = "y").

(** The events that change files: writes and moves. *)
Definition file_change (e : event) : Prop :=
  match e with
  | EvWriteText _ _ | EvMove _ _ => True
  | _ => False
  end.

(** The trace [t] is [t0], then changes of files, then the events [G]. *)
Definition traced (t0 G t : list event) : Prop :=
  ∃ evs, t = t0 ++ evs ++ G ∧ Forall file_change evs.

(** The state of a run of [main] between two of its steps: the lines still
    to read, no external command that the system refuses, what the trace
    holds and what lies at the place of the running script. *)
Definition poised (script : string) (l : list string) (T : list event → Prop)
    (F : option entry → Prop) (w : world) : Prop :=
  w_stdin w = l ∧ (∀ cmd, w_tool w cmd ≠ ToolDenied)
  ∧ T (w_trace w) ∧ F (w_fs w !! [script]).

(** The place of the running script holds a regular file. *)
Definition a_file (o : option entry) : Prop := ∃ f, o = Some (EFile f).

(** From a world that satisfies [P], [m] raises an exception, with an
    exception and a world that satisfy [E]. *)
Definition raises {A} (P : world → Prop) (m : Py.t A) (E : exn → world → Prop) : Prop :=
  ∀ w, P w → ∃ e w', m w = Py.Raise e w' ∧ E e w'.

(** The number of lines that report an updated file. *)
Definition updates (out : list string) : nat :=
  length (List.filter (λ s, Str.startswith s "  Updated: ") out).

(** The entry at [q] is [o]. *)
Definition lies_at (q : path) (o : option entry) (w : world) : Prop :=
  w_fs w !! q = o.

(** ** Sample inputs *)

Definition text_file (s : string) : entry := EFile (File (Text s) true true).

Definition no_tools : list string → tool_outcome := λ _, ToolNotFound.

(** A configuration in which the value given for the description mentions
    the placeholder of the project name. *)
Definition quoting_config : dict :=
  [ ("PROJECT_NAME", "my-app");
    ("PROJECT_DESCRIPTION", "About {{PROJECT_NAME}}") ].

Definition readme_template : list item :=
  [ Lit "# "; Tok "PROJECT_NAME"; Lit ": "; Tok "PROJECT_DESCRIPTION" ].

Definition readme_world : world :=
  World {[ ["README.md"] := text_file (render readme_template) ]} [] [] [] no_tools.

(** A project root with the two directories [src] and [tests]. *)
Definition project_fs : gmap path entry :=
  list_to_map
    [ (["src"], EDir);
      (["src"; "main.py"], text_file "print('hello')");
      (["tests"], EDir);
      (["tests"; "test_main.py"], text_file "from src.main import main");
      (["README.md"], text_file "See src/main.py") ].

Definition project_world : world := World project_fs [] [] [] no_tools.

Definition empty_world : world := World ∅ [] [] [] no_tools.

(** A project in which a workflow file below the hidden directory [.github]
    and a hidden file both mention the source directory. *)
Definition workflow_fs : gmap path entry :=
  list_to_map
    [ ([".github"], EDir);
      ([".github"; "workflows"], EDir);
      ([".github"; "workflows"; "ci.yml"], text_file "run: pytest src/");
      ([".flake8"], text_file "exclude = src/") ].

Definition workflow_world : world := World workflow_fs [] [] [] no_tools.

(** A project in which a document mentions the source directory behind a
    caret. *)
Definition caret_fs : gmap path entry :=
  list_to_map
    [ (["docs"], EDir);
      (["docs"; "SETUP.md"], text_file "^src/main.py") ].

Definition caret_world : world := World caret_fs [] [] [] no_tools.

(** A project whose source directory has already become [app], and the
    configuration that names it so. *)
Definition moved_fs : gmap path entry :=
  list_to_map
    [ (["app"], EDir);
      (["app"; "main.py"], text_file "print('{{PROJECT_NAME}}')") ].

Definition moved_world : world := World moved_fs [] [] [] no_tools.

Definition moved_config : dict :=
  dict_set (defaults_of Script.TEMPLATE_VARS) "SOURCE_DIR" "app".

(** A run in which much goes wrong: [pyproject.toml] cannot be read, the
    name chosen for the source directory is taken, and neither [git] nor
    [pre-commit] is installed.  The user renames the source directory to
    [lib] and accepts every other default. *)
Definition troubled_fs : gmap path entry :=
  list_to_map
    [ (["setup_template.py"], text_file "#!/usr/bin/env python3");
      (["pyproject.toml"], EFile (File (Text "name = '{{PROJECT_NAME}}'") false true));
      (["README.md"], text_file "# {{PROJECT_NAME}}");
      (["src"], EDir);
      (["src"; "main.py"], text_file "print('{{PROJECT_NAME}}')");
      (["lib"], EDir) ].

Definition troubled_world : world :=
  World troubled_fs
    (replicate 8 EmptyString ++ ["lib"] ++ replicate 6 EmptyString)
    [] [] no_tools.

(** The text of a workflow file: an expression of the workflow language, a
    pair of single braces and a placeholder of the template. *)
Definition ci_template : list item :=
  [ Lit "python: $"; Tok " matrix.python "; Lit " {ok} # "; Tok "PROJECT_NAME" ].

Definition ci_world : world :=
  World {[ ["ci.yml"] := text_file (render ci_template) ]} [] [] [] no_tools.

Definition plain_sample_config : dict :=
  [ ("PROJECT_NAME", "my-app");
    ("PROJECT_DESCRIPTION", "A small tool") ].

(** A run in which the user accepts every default, declines the first and
    the third question and accepts the second; one more line is left. *)
Definition answered_world : world :=
  World troubled_fs (replicate 12 EmptyString ++ ["n"; " Y "; "no"; "more"])
    [] [] no_tools.

(** A run whose input ends after the answer to the first question. *)
Definition cut_short_world : world :=
  World troubled_fs (replicate 12 EmptyString ++ ["y"]) [] [] no_tools.

(** A project with a file that is not in the list of the files to process;
    the user accepts every default. *)
Definition licensed_world : world :=
  World (<[ ["LICENSE"] := text_file "Copyright {{GITHUB_OWNER}}" ]> troubled_fs)
    (replicate 15 EmptyString) [] [] no_tools.

(** A project root in which [src] is a regular file, not a directory. *)
Definition src_file_world : world :=
  World {[ ["src"] := text_file "print('hello')" ]} [] [] [] no_tools.

(** * Examples *)

Example replace_ex1 : Str.replace "src/a src/b" "src/" "app/" = "app/a app/b".
Proof. reflexivity. Qed.
Example replace_ex2 : Str.replace "aaaa" "aa" "b" = "bb".
Proof. reflexivity. Qed.
Example replace_ex3 : Str.replace "abc" "" "-" = "-a-b-c-".
Proof. reflexivity. Qed.
Example replace_ex4 : Str.replace "{{{A}}{A}}" "{{A}}" "" = "{{A}}".
Proof. reflexivity. Qed.
Example replace_nested_ex :
  Str.replace "{{PROJECT_NAM{{PROJECT_NAME}}}}" (Script.token "PROJECT_NAME") "E"
  = "{{PROJECT_NAME}}".
Proof. reflexivity. Qed.
Example plain_template_ex :
  plain_template ci_template = true
  ∧ render ci_template = "python: ${{ matrix.python }} {ok} # {{PROJECT_NAME}}"
  ∧ plain_template [Lit "{{PROJECT_NAM"; Tok "PROJECT_NAME"; Lit "}}"] = false.
Proof. repeat split; reflexivity. Qed.
Example apply_patterns_ex :
  Script.apply_patterns (Script.patterns "src" "app")
    ("src/x " +:+ DQUOTE +:+ "src" +:+ DQUOTE +:+ " 'src'")
  = ("app/x " +:+ DQUOTE +:+ "app" +:+ DQUOTE +:+ " 'app'", true).
Proof. reflexivity. Qed.
Example replace_first_ex : Str.replace_first "src/src/x" "src/" "app/" = "app/src/x".
Proof. reflexivity. Qed.
Example strip_ex : Str.strip "  a b  " = "a b" /\ Str.strip "   " = "".
Proof. split; reflexivity. Qed.
Example lower_ex : Str.lower "YeS" = "yes".
Proof. reflexivity. Qed.
Example of_nat_ex : Str.of_nat 0 = "0" /\ Str.of_nat 21 = "21".
Proof. split; reflexivity. Qed.
Example split_ex : Str.split "/" "a//b/" = ["a"; ""; "b"; ""].
Proof. reflexivity. Qed.

Example path_of_ex :
  Fs.path_of ".github/workflows/ci.yml" = [".github"; "workflows"; "ci.yml"]
  ∧ Fs.path_of "app//./main.py" = ["app"; "main.py"]
  ∧ Fs.path_of "src" = ["src"].
Proof. repeat split; reflexivity. Qed.

(** * Facts about strings *)

Section string_facts.
Implicit Types (s t u old new : string) (a b c : ascii).

Lemma str_app_cons c s t : String c s +:+ t = String c (s +:+ t).
Proof. reflexivity. Qed.

Lemma str_app_nil_l s : EmptyString +:+ s = s.
Proof. reflexivity. Qed.

Lemma str_app_assoc s t u : (s +:+ t) +:+ u = s +:+ (t +:+ u).
Proof. induction s as [|c s IH]; [done|]. by rewrite !str_app_cons, IH. Qed.

Lemma str_prefix_nil s : String.prefix EmptyString s = true.
Proof. by destruct s. Qed.

Lemma str_prefix_cons_eq a s t : String.prefix (String a s) (String a t) = String.prefix s t.
Proof. simpl. by destruct (ascii_dec a a). Qed.

Lemma str_prefix_cons_ne a b s t : a ≠ b → String.prefix (String a s) (String b t) = false.
Proof. intros. simpl. by destruct (ascii_dec a b). Qed.

Lemma str_prefix_app s t : String.prefix s (s +:+ t) = true.
Proof.
  induction s as [|c s IH]; [apply str_prefix_nil|].
  by rewrite str_app_cons, str_prefix_cons_eq.
Qed.

(** A string in which [old] does not occur has no occurrence to replace. *)
Lemma replace_go_absent old new s :
  Str.contains s old = false → Str.replace_go old new 0 s = s.
Proof.
  induction s as [|c s IH]; [done|].
  intros [Hp Hc]%orb_false_iff. cbn [Str.replace_go]. by rewrite Hp, IH.
Qed.

Lemma replace_absent s old new :
  Str.contains s old = false → Str.replace s old new = s.
Proof.
  destruct old as [|o old]; [|apply replace_go_absent].
  intros H. destruct s; discriminate H.
Qed.

(** The characters of an occurrence just replaced are passed over. *)
Lemma replace_go_skip old new u s :
  Str.replace_go old new (String.length u) (u +:+ s) = Str.replace_go old new 0 s.
Proof.
  induction u as [|c u IH]; [by destruct s|].
  rewrite str_app_cons. simpl. apply IH.
Qed.

Lemma replace_go_here old new s :
  old ≠ EmptyString →
  Str.replace_go old new 0 (old +:+ s) = new +:+ Str.replace_go old new 0 s.
Proof.
  destruct old as [|o old]; [done|]. intros _.
  rewrite str_app_cons. cbn [Str.replace_go].
  rewrite <-str_app_cons, str_prefix_app. f_equal.
  replace (String.length (String o old) - 1) with (String.length old)
    by (simpl; lia).
  apply replace_go_skip.
Qed.

End string_facts.

(** * The substitution on templates *)

Section template_facts.
Implicit Types (s t u k v : string) (a c : ascii) (tpl : list item) (d : dict).

Lemma has_char_app a s t : has_char a (s +:+ t) = has_char a s || has_char a t.
Proof.
  induction s as [|c s IH]; [done|].
  rewrite str_app_cons. simpl. by rewrite IH, orb_assoc.
Qed.

Lemma brace_free_cons c s :
  brace_free (String c s) = true → c ≠ "{"%char ∧ c ≠ "}"%char ∧ brace_free s = true.
Proof.
  unfold brace_free. simpl.
  destruct (Ascii.eqb_spec c "{"), (Ascii.eqb_spec c "}"); simpl; try done.
  by rewrite andb_false_r.
Qed.

Lemma brace_free_open s : brace_free s = true → has_char "{" s = false.
Proof. unfold brace_free. by intros [?%negb_true_iff _]%andb_true_iff. Qed.

Lemma token_unfold k : Script.token k = String "{" (String "{" (k +:+ "}}")).
Proof. reflexivity. Qed.

(** Text without the first character of [old] holds no start of an
    occurrence: the scan copies it. *)
Lemma replace_go_pass a old new u s :
  has_char a u = false →
  Str.replace_go (String a old) new 0 (u +:+ s)
  = u +:+ Str.replace_go (String a old) new 0 s.
Proof.
  induction u as [|c u IH]; [done|]. cbn [has_char].
  intros [Hc Hu]%orb_false_iff. apply Ascii.eqb_neq in Hc.
  rewrite !str_app_cons. cbn [Str.replace_go].
  rewrite str_prefix_cons_ne by done. by rewrite IH.
Qed.

Lemma contains_pass a old u s :
  has_char a u = false →
  Str.contains (u +:+ s) (String a old) = Str.contains s (String a old).
Proof.
  induction u as [|c u IH]; [done|]. cbn [has_char].
  intros [Hc Hu]%orb_false_iff. apply Ascii.eqb_neq in Hc.
  rewrite !str_app_cons. cbn [Str.contains].
  rewrite str_prefix_cons_ne by done. by rewrite IH.
Qed.

Lemma replace_go_pass_token k new u s :
  has_char "{" u = false →
  Str.replace_go (Script.token k) new 0 (u +:+ s)
  = u +:+ Str.replace_go (Script.token k) new 0 s.
Proof. apply (replace_go_pass "{" (String "{" (k +:+ "}}"))). Qed.

Lemma contains_pass_token k u s :
  has_char "{" u = false →
  Str.contains (u +:+ s) (Script.token k) = Str.contains s (Script.token k).
Proof. apply (contains_pass "{" (String "{" (k +:+ "}}"))). Qed.

(** Between brace-free names, one placeholder starts with another only if
    the names are equal. *)
Lemma token_body_prefix k n s :
  brace_free k = true → brace_free n = true →
  String.prefix (k +:+ "}}") (n +:+ "}}" +:+ s) = true → k = n.
Proof.
  revert n; induction k as [|a k IH]; intros [|b n] Hk Hn.
  - done.
  - apply brace_free_cons in Hn as (_ & Hb & _).
    rewrite str_app_nil_l, str_app_cons.
    change "}}" with (String "}" "}"). by rewrite str_prefix_cons_ne by congruence.
  - apply brace_free_cons in Hk as (_ & Ha & _).
    rewrite str_app_nil_l, str_app_cons.
    change ("}}" +:+ s) with (String "}" (String "}" s)).
    by rewrite str_prefix_cons_ne by congruence.
  - apply brace_free_cons in Hk as (_ & _ & Hk).
    apply brace_free_cons in Hn as (_ & _ & Hn).
    rewrite !str_app_cons. simpl. destruct (ascii_dec a b) as [->|]; [|done].
    intros ?%IH; by subst.
Qed.

Lemma token_prefix k n s :
  brace_free k = true → brace_free n = true →
  String.prefix (Script.token k) (Script.token n +:+ s) = true → k = n.
Proof.
  intros Hk Hn. rewrite !token_unfold, !str_app_cons, !str_prefix_cons_eq, str_app_assoc.
  by apply token_body_prefix.
Qed.

(** The text of a placeholder, past its first brace, does not start a
    placeholder. *)
Lemma token_tail_no_prefix k n s :
  brace_free n = true →
  String.prefix (Script.token k) (String "{" (n +:+ "}}" +:+ s)) = false.
Proof.
  intros Hn. rewrite token_unfold, str_prefix_cons_eq.
  destruct n as [|b n].
  - rewrite str_app_nil_l. by apply str_prefix_cons_ne.
  - apply brace_free_cons in Hn as (Hb & _ & _).
    rewrite str_app_cons. apply str_prefix_cons_ne. congruence.
Qed.

End template_facts.

Section substitution.
Implicit Types (s t u k v n : string) (tpl : list item) (d : dict) (i : item).

Lemma render_cons i tpl : render (i :: tpl) = item_text i +:+ render tpl.
Proof. reflexivity. Qed.

Lemma render_token_cons n tpl :
  render (Tok n :: tpl) = String "{" (String "{" (n +:+ "}}" +:+ render tpl)).
Proof.
  rewrite render_cons. cbn [item_text].
  by rewrite token_unfold, !str_app_cons, str_app_assoc.
Qed.

Lemma literal_text_lit s tpl : literal_text (Lit s :: tpl) = s +:+ literal_text tpl.
Proof. reflexivity. Qed.

Lemma literal_text_tok n tpl : literal_text (Tok n :: tpl) = literal_text tpl.
Proof. reflexivity. Qed.

Lemma token_prefix_ne k n s :
  brace_free k = true → brace_free n = true → n ≠ k →
  String.prefix (Script.token k) (String "{" (String "{" (n +:+ "}}" +:+ s))) = false.
Proof.
  intros Hk Hn Hnk. apply not_true_is_false. intros Hp. apply Hnk. symmetry.
  apply (token_prefix k n s); [done..|].
  by rewrite (token_unfold n), !str_app_cons, str_app_assoc.
Qed.

Lemma contains_cons_false c s u :
  Str.contains (String c s) u = false → Str.contains s u = false.
Proof. cbn [Str.contains]. by intros [_ ?]%orb_false_iff. Qed.

Lemma contains_app_false s t u :
  Str.contains (s +:+ t) u = false → Str.contains t u = false.
Proof.
  induction s as [|c s IH]; [done|]. rewrite str_app_cons.
  intros ?%contains_cons_false. auto.
Qed.

(** Where no two opening braces stand in a row, an opening brace is not
    followed by another. *)
Lemma double_open_head s :
  Str.contains (String "{" s) "{{" = false → String.prefix "{" s = false.
Proof.
  cbn [Str.contains]. intros [H _]%orb_false_iff.
  change "{{" with (String "{" "{") in H. by rewrite str_prefix_cons_eq in H.
Qed.

(** A placeholder does not start at an opening brace of the literal text
    that is the last before the text of a template. *)
Lemma open_not_token k tpl :
  brace_free k = true → names_plain tpl = true →
  String.prefix "{" (literal_text tpl) = false →
  String.prefix (String "{" (k +:+ "}}")) (render tpl) = false.
Proof.
  intros Hk. induction tpl as [|[s|n] tpl IH]; cbn [names_plain forallb].
  - done.
  - intros Hn Hl. rewrite render_cons. cbn [item_text].
    rewrite literal_text_lit in Hl. destruct s as [|c s]; [by apply IH|].
    rewrite str_app_cons in *. apply str_prefix_cons_ne. intros <-.
    by rewrite str_prefix_cons_eq, str_prefix_nil in Hl.
  - intros _ _. rewrite render_token_cons, str_prefix_cons_eq.
    destruct k as [|a k]; [by apply str_prefix_cons_ne|].
    apply brace_free_cons in Hk as (Ha & _ & _).
    rewrite str_app_cons. by apply str_prefix_cons_ne.
Qed.

(** The scan of [str.replace] passes over literal text in which no two
    opening braces stand in a row; [L] is the literal text that follows. *)
Lemma replace_go_literal k v s R L :
  Str.contains (s +:+ L) "{{" = false →
  (String.prefix "{" L = false →
   String.prefix (String "{" (k +:+ "}}")) R = false) →
  Str.replace_go (Script.token k) v 0 (s +:+ R)
  = s +:+ Str.replace_go (Script.token k) v 0 R.
Proof.
  intros Hc HR. induction s as [|c s IH]; [done|].
  rewrite !str_app_cons in *. cbn [Str.replace_go].
  assert (String.prefix (Script.token k) (String c (s +:+ R)) = false) as ->.
  { rewrite token_unfold. destruct (decide (c = "{"%char)) as [->|Hne];
      [|by apply str_prefix_cons_ne].
    rewrite str_prefix_cons_eq. apply double_open_head in Hc.
    destruct s as [|c' s]; [by apply HR|].
    rewrite str_app_cons in *. apply str_prefix_cons_ne. intros <-.
    by rewrite str_prefix_cons_eq, str_prefix_nil in Hc. }
  by rewrite IH by by apply contains_cons_false in Hc.
Qed.

Lemma contains_literal k s R L :
  Str.contains (s +:+ L) "{{" = false →
  (String.prefix "{" L = false →
   String.prefix (String "{" (k +:+ "}}")) R = false) →
  Str.contains (s +:+ R) (Script.token k) = Str.contains R (Script.token k).
Proof.
  intros Hc HR. induction s as [|c s IH]; [done|].
  rewrite !str_app_cons in *. cbn [Str.contains].
  assert (String.prefix (Script.token k) (String c (s +:+ R)) = false) as ->.
  { rewrite token_unfold. destruct (decide (c = "{"%char)) as [->|Hne];
      [|by apply str_prefix_cons_ne].
    rewrite str_prefix_cons_eq. apply double_open_head in Hc.
    destruct s as [|c' s]; [by apply HR|].
    rewrite str_app_cons in *. apply str_prefix_cons_ne. intros <-.
    by rewrite str_prefix_cons_eq, str_prefix_nil in Hc. }
  by rewrite IH by by apply contains_cons_false in Hc.
Qed.

(** One replacement of [str.replace] on the text of a plain template is the
    step [subst_item] on the template. *)
Lemma replace_render k v tpl :
  brace_free k = true → names_plain tpl = true →
  Str.contains (literal_text tpl) "{{" = false →
  Str.replace (render tpl) (Script.token k) v = render (subst_item k v <$> tpl).
Proof.
  intros Hk. unfold Str.replace. rewrite token_unfold, <-token_unfold.
  induction tpl as [|[s|n] tpl IH]; cbn [names_plain forallb].
  - done.
  - intros Hn Hl. rewrite fmap_cons, !render_cons. cbn [subst_item item_text].
    rewrite literal_text_lit in Hl.
    rewrite (replace_go_literal k v s (render tpl) (literal_text tpl))
      by auto using open_not_token.
    rewrite IH by eauto using contains_app_false. done.
  - intros [Hn Htpl]%andb_true_iff Hl. rewrite fmap_cons. cbn [subst_item].
    rewrite literal_text_tok in Hl.
    case_bool_decide as Hnk.
    + subst n. rewrite !render_cons. cbn [item_text].
      rewrite replace_go_here by done. by rewrite IH.
    + rewrite !render_token_cons. cbn [Str.replace_go].
      rewrite token_prefix_ne, token_tail_no_prefix by done.
      do 2 f_equal. rewrite <-!str_app_assoc.
      rewrite replace_go_pass_token; [by rewrite IH|].
      rewrite has_char_app, (brace_free_open n) by done. done.
Qed.

(** In the text of a plain template a placeholder occurs only where the
    template has it. *)
Lemma contains_render k tpl :
  brace_free k = true → names_plain tpl = true →
  Str.contains (literal_text tpl) "{{" = false → Tok k ∉ tpl →
  Str.contains (render tpl) (Script.token k) = false.
Proof.
  intros Hk.
  induction tpl as [|[s|n] tpl IH]; cbn [names_plain forallb].
  - done.
  - intros Hn Hl Hin. rewrite render_cons. cbn [item_text].
    rewrite literal_text_lit in Hl.
    rewrite (contains_literal k s (render tpl) (literal_text tpl))
      by auto using open_not_token.
    apply IH; eauto using contains_app_false.
    rewrite not_elem_of_cons in Hin. by destruct Hin.
  - intros [Hn Htpl]%andb_true_iff Hl Hin. rewrite render_token_cons.
    rewrite literal_text_tok in Hl. rewrite not_elem_of_cons in Hin.
    destruct Hin as [Hnk Hin].
    cbn [Str.contains].
    rewrite token_prefix_ne, token_tail_no_prefix by (done || congruence).
    rewrite <-!str_app_assoc. cbn [orb].
    rewrite contains_pass_token.
    + by apply IH.
    + rewrite has_char_app, (brace_free_open n) by done. done.
Qed.

Lemma substitute_cons k v d s :
  Script.substitute ((k, v) :: d) s
  = Script.substitute d (Str.replace s (Script.token k) v).
Proof. reflexivity. Qed.

(** A text without placeholders of the configured variables is left as it
    is. *)
Lemma substitute_absent d s :
  (∀ k, k ∈ d.*1 → Str.contains s (Script.token k) = false) →
  Script.substitute d s = s.
Proof.
  induction d as [|[k v] d IH]; [done|]. intros H.
  rewrite substitute_cons, replace_absent by (apply H, list_elem_of_here).
  apply IH. intros k' ?. by apply H, list_elem_of_further.
Qed.

Lemma dict_get_None d k : dict_get d k = None ↔ k ∉ d.*1.
Proof.
  induction d as [|[k' v] d IH]; simpl.
  - split; [intros _; apply not_elem_of_nil|done].
  - rewrite not_elem_of_cons.
    destruct (String.eqb_spec k' k) as [->|Hne]; [by split; [|intros []]|].
    rewrite IH. split; [by split|by intros []].
Qed.

Lemma dict_get_Some d k v : dict_get d k = Some v → (k, v) ∈ d.
Proof.
  induction d as [|[k' v'] d IH]; simpl; [done|].
  destruct (String.eqb_spec k' k); [|set_solver].
  intros [= ->]. set_solver.
Qed.

Lemma plain_config_elem d k v :
  plain_config d = true → (k, v) ∈ d → brace_free k = true ∧ brace_free v = true.
Proof.
  unfold plain_config. rewrite forallb_forall. intros H Hin.
  apply list_elem_of_In, H, andb_true_iff in Hin. done.
Qed.

Lemma gentle_open g tpl :
  gentle g →
  String.prefix "{" (literal_text (g <$> tpl)) = true →
  String.prefix "{" (literal_text tpl) = true.
Proof.
  intros Hg. induction tpl as [|[s|n] tpl IH]; [done|..]; rewrite fmap_cons.
  - rewrite (Hg (Lit s)), !literal_text_lit. destruct s as [|c s]; [done|].
    rewrite !str_app_cons. destruct (decide (c = "{"%char)) as [->|Hne].
    + by rewrite !str_prefix_cons_eq, !str_prefix_nil.
    + by rewrite str_prefix_cons_ne by congruence.
  - destruct (Hg (Tok n)) as [->|(v & -> & Hv)]; [done|].
    rewrite literal_text_lit, literal_text_tok. destruct v as [|a v]; [done|].
    apply brace_free_cons in Hv as (Ha & _ & _).
    rewrite str_app_cons, str_prefix_cons_ne by congruence. done.
Qed.

Lemma gentle_literal g tpl :
  gentle g →
  Str.contains (literal_text tpl) "{{" = false →
  Str.contains (literal_text (g <$> tpl)) "{{" = false.
Proof.
  intros Hg. induction tpl as [|[s|n] tpl IH]; [done|..]; rewrite fmap_cons.
  - rewrite (Hg (Lit s)), !literal_text_lit. intros Hl.
    pose proof (IH (contains_app_false _ _ _ Hl)) as IH'.
    pose proof (gentle_open g tpl Hg) as Hopen. clear IH.
    induction s as [|c s IHs]; [done|].
    rewrite !str_app_cons in *. cbn [Str.contains] in *.
    apply orb_false_iff in Hl as [Hp Hl]. rewrite (IHs Hl), orb_false_r.
    change "{{" with (String "{" "{") in *.
    destruct (decide (c = "{"%char)) as [->|Hne];
      [|by apply str_prefix_cons_ne].
    rewrite str_prefix_cons_eq in *. destruct s as [|c' s].
    + rewrite !str_app_nil_l in *.
      apply not_true_is_false. intros Ht%Hopen. congruence.
    + rewrite str_app_cons in *. destruct (decide (c' = "{"%char)) as [->|Hne].
      * by rewrite str_prefix_cons_eq, str_prefix_nil in Hp.
      * by rewrite str_prefix_cons_ne by congruence.
  - rewrite literal_text_tok. intros Hl.
    destruct (Hg (Tok n)) as [->|(v & -> & Hv)]; [by apply IH|].
    rewrite literal_text_lit.
    change "{{" with (String "{" "{").
    rewrite contains_pass by by apply brace_free_open. by apply IH.
Qed.

Lemma gentle_names g tpl :
  gentle g → names_plain tpl = true → names_plain (g <$> tpl) = true.
Proof.
  intros Hg. unfold names_plain. rewrite !forallb_forall.
  intros H i [j [-> Hj]]%list_elem_of_In%list_elem_of_fmap.
  apply list_elem_of_In, H in Hj. destruct j as [s|n].
  - by rewrite (Hg (Lit s)).
  - by destruct (Hg (Tok n)) as [->|(v & -> & Hv)].
Qed.

Lemma plain_template_split tpl :
  plain_template tpl = true ↔
  names_plain tpl = true ∧ Str.contains (literal_text tpl) "{{" = false.
Proof. unfold plain_template. by rewrite andb_true_iff, negb_true_iff. Qed.

Lemma gentle_plain g tpl :
  gentle g → plain_template tpl = true → plain_template (g <$> tpl) = true.
Proof.
  rewrite !plain_template_split. intros Hg [? ?].
  auto using gentle_names, gentle_literal.
Qed.

Lemma gentle_subst k v : brace_free v = true → gentle (subst_item k v).
Proof.
  intros Hv [s|n]; simpl; [done|]. case_bool_decide; eauto.
Qed.

Lemma gentle_resolve d : plain_config d = true → gentle (resolve_item d).
Proof.
  intros Hd [s|n]; simpl; [done|].
  destruct (dict_get d n) as [v|] eqn:Hg; [|by left].
  right. exists v. split; [done|].
  apply dict_get_Some in Hg. by apply (plain_config_elem d n v).
Qed.

Lemma resolve_item_cons k v d i :
  resolve_item ((k, v) :: d) i = resolve_item d (subst_item k v i).
Proof.
  destruct i as [s|n]; [done|]. simpl.
  destruct (String.eqb_spec k n) as [->|Hne].
  - by rewrite bool_decide_true.
  - by rewrite bool_decide_false by congruence.
Qed.

(** The loop of [replace_in_file] on the text of a plain template resolves
    the placeholders of the configured variables and nothing else. *)
Lemma substitute_render d tpl :
  plain_config d = true → plain_template tpl = true →
  Script.substitute d (render tpl) = render (resolve_item d <$> tpl).
Proof.
  revert tpl; induction d as [|[k v] d IH]; intros tpl Hd Htpl.
  - f_equal. clear. induction tpl as [|[s|n] tpl IHt]; [done|..];
      rewrite fmap_cons; simpl; by rewrite <-IHt.
  - cbn [plain_config forallb] in Hd.
    apply andb_true_iff in Hd as [[Hk Hv]%andb_true_iff Hd]. simpl in Hk, Hv.
    pose proof (gentle_plain _ tpl (gentle_subst k v Hv) Htpl) as Htpl'.
    apply plain_template_split in Htpl as [? ?].
    rewrite substitute_cons, replace_render, IH by done.
    f_equal. rewrite <-list_fmap_compose. apply list_fmap_ext.
    intros _ i _. simpl. by rewrite resolve_item_cons.
Qed.

Lemma render_resolve d tpl : render (resolve_item d <$> tpl) = expand d tpl.
Proof.
  induction tpl as [|[s|n] tpl IH]; [done|..]; rewrite fmap_cons.
  - rewrite render_cons. simpl. by rewrite IH.
  - rewrite render_cons. cbn [expand foldr]. fold (expand d tpl).
    rewrite <-IH. simpl. by destruct (dict_get d n).
Qed.

Lemma resolve_no_token d tpl k : k ∈ d.*1 → Tok k ∉ resolve_item d <$> tpl.
Proof.
  intros Hk [j [Hj _]]%list_elem_of_fmap. destruct j as [s|n]; [done|].
  simpl in Hj. destruct (dict_get d n) eqn:Hg; [done|].
  injection Hj as ->. by apply dict_get_None in Hg.
Qed.

(** After the loop no placeholder of a configured variable occurs. *)
Lemma expand_no_token d tpl k :
  plain_config d = true → plain_template tpl = true → k ∈ d.*1 →
  Str.contains (expand d tpl) (Script.token k) = false.
Proof.
  intros Hd Htpl Hk. rewrite <-render_resolve.
  pose proof (gentle_plain _ tpl (gentle_resolve d Hd) Htpl) as Hres.
  apply plain_template_split in Hres as [? ?].
  apply contains_render; [|done..|by apply resolve_no_token].
  apply list_elem_of_fmap in Hk as [[k' v] [-> Hin]].
  by apply (plain_config_elem d k' v).
Qed.

End substitution.

(** * Line ends *)

Section newline_facts.
Implicit Types (s sep : string) (d : dict) (tpl : list item).

Lemma cr_free_cons c s :
  cr_free (String c s) = true ↔ c ≠ "013"%char ∧ cr_free s = true.
Proof.
  unfold cr_free. simpl. destruct (Ascii.eqb_spec c "013") as [->|Hc]; simpl.
  - split; [done|]. by intros [? _].
  - split; [done|]. by intros [_ ?].
Qed.

Lemma cr_free_app s t : cr_free (s +:+ t) = cr_free s && cr_free t.
Proof. unfold cr_free. by rewrite has_char_app, negb_orb. Qed.

(** A text that was read holds no carriage return. *)
Lemma decode_cr_free raw : cr_free (Newline.decode raw) = true.
Proof.
  enough (cr_free (Newline.decode raw) = true
          ∧ ∀ c, cr_free (Newline.decode (String c raw)) = true) as [? _]; [done|].
  induction raw as [|a raw [IH1 IH2]].
  - split; [done|]. intros c. simpl. by destruct (Ascii.eqb_spec c "013"); apply cr_free_cons.
  - split; [apply IH2|]. intros c. cbn [Newline.decode].
    destruct (Ascii.eqb_spec c "013") as [->|Hc]; apply cr_free_cons; (split; [done|]).
    + destruct (Ascii.eqb a "010"); [done|apply IH2].
    + apply IH2.
Qed.

(** A text without carriage returns is read as it stands on disk. *)
Lemma decode_id s : cr_free s = true → Newline.decode s = s.
Proof.
  induction s as [|c s IH]; [done|]. intros [Hc Hs]%cr_free_cons. simpl.
  destruct (Ascii.eqb_spec c "013"); [done|]. by rewrite IH.
Qed.

(** Written with the line separator of POSIX or of Windows, a text without
    carriage returns is read back as it was. *)
Lemma decode_encode sep s :
  sep = Newline.LF ∨ sep = Newline.CRLF → cr_free s = true →
  Newline.decode (Newline.encode sep s) = s.
Proof.
  intros Hsep. induction s as [|c s IH]; [done|].
  intros [Hc Hs]%cr_free_cons. specialize (IH Hs). cbn [Newline.encode].
  destruct (Ascii.eqb_spec c "010") as [->|Hlf].
  - destruct Hsep as [->| ->]; unfold Newline.LF, Newline.CRLF in *;
      rewrite ?str_app_cons, str_app_nil_l; simpl; by rewrite IH.
  - cbn [Newline.decode]. destruct (Ascii.eqb_spec c "013"); [done|]. by rewrite IH.
Qed.

Lemma dict_get_cr_free d k v :
  cr_free_config d = true → dict_get d k = Some v → cr_free v = true.
Proof.
  induction d as [|[k' v'] d IH]; [done|]. simpl.
  intros [Hv Hd]%andb_true_iff. destruct (String.eqb k' k); [|by apply IH].
  by intros [= <-].
Qed.

(** The substitution brings no carriage return into a text that has none
    when no value holds one. *)
Lemma expand_cr_free d tpl :
  cr_free_config d = true → cr_free (render tpl) = true →
  cr_free (expand d tpl) = true.
Proof.
  intros Hd. induction tpl as [|i tpl IH]; [done|].
  rewrite render_cons. change (expand d (i :: tpl)) with (expand_item d i +:+ expand d tpl).
  rewrite !cr_free_app. intros [Hi Htpl]%andb_true_iff.
  apply andb_true_iff. split; [|by apply IH].
  destruct i as [t|n]; [done|]. simpl in *.
  destruct (dict_get d n) as [v|] eqn:Hn; [|done].
  simpl. eauto using dict_get_cr_free.
Qed.

End newline_facts.

(** * [replace_in_file] *)

Section replace_in_file_facts.
Import Py Script.
Implicit Types (w : world) (p : path) (d : dict) (f : file).

Ltac unfold_py :=
  unfold replace_in_file, try_except, bind, ret, print,
    Fs.read_text, Fs.write_text in *.

(** What [replace_in_file] does to a readable text file. *)
Lemma replace_in_file_text p d w f t :
  Fs.entry_at (w_fs w) p = Some (EFile f) →
  f_readable f = true → f_data f = Text t →
  replace_in_file p d w =
    if bool_decide (substitute d t ≠ t) then
      let w1 := add_event (EvWriteText p (substitute d t)) w in
      if f_writable f then
        Ok true (set_fs (<[p := EFile (File (Text (substitute d t)) true true)]> (w_fs w)) w1)
      else
        Ok false (add_stdout (("  Warning: Could not process " +:+ Fs.str p +:+ ": "
                               +:+ exn_str PermissionError) +:+ NL) w1)
    else Ok false w.
Proof.
  intros He Hr Ht. unfold_py. rewrite He, Hr, Ht.
  case_bool_decide; [|done]. simpl. rewrite He.
  destruct (f_writable f); [|done]. by rewrite Hr.
Qed.

(** [replace_in_file] always returns. *)
Lemma replace_in_file_returns p d w :
  ∃ b w', replace_in_file p d w = Ok b w'.
Proof.
  unfold_py.
  destruct (Fs.entry_at (w_fs w) p) as [[f|]|]; [|eauto..].
  destruct (f_readable f); [|eauto].
  destruct (f_data f); [|eauto].
  case_bool_decide; [|eauto]. simpl.
  destruct (Fs.entry_at (w_fs w) p) as [[f'|]|]; [|eauto|].
  - destruct (f_writable f'); eauto.
  - destruct (Fs.entry_at (w_fs w) (Fs.parent p)) as [[|]|]; eauto.
Qed.

(** C1, as amended.  The property is one of the text of the file, which is
    what [read_text] returns for it, with the line ends read as [\n]; it
    is not one of the bytes on disk.  For a readable and writable file
    whose text is a plain template (placeholders with brace-free names, and
    literal text in which, the placeholders taken out, no two opening
    braces stand in a row) and a configuration whose names and values hold
    no brace and whose values hold no carriage return: after
    [replace_in_file] the text of the file is the template with every
    placeholder of a configured variable replaced by the value of the
    variable and the literal text as it was, no placeholder of a configured
    variable occurs in it, and it is the text that [read_text] returns for
    what [write_text] leaves on disk, with the line separator of POSIX or
    of Windows. *)
Theorem replace_in_file_expands w p f d tpl :
  Fs.entry_at (w_fs w) p = Some (EFile f) →
  f_readable f = true → f_writable f = true → f_data f = Text (render tpl) →
  plain_config d = true → plain_template tpl = true →
  cr_free (render tpl) = true → cr_free_config d = true →
  ∃ b w', replace_in_file p d w = Ok b w'
    ∧ Fs.read_text p w' = Ok (expand d tpl) w'
    ∧ (∀ k, k ∈ d.*1 → Str.contains (expand d tpl) (token k) = false)
    ∧ (∀ sep, sep = Newline.LF ∨ sep = Newline.CRLF →
         Newline.decode (Newline.encode sep (expand d tpl)) = expand d tpl).
Proof.
  intros He Hr Hw Ht Hd Htpl Hcr Hcrd.
  assert (∀ sep, sep = Newline.LF ∨ sep = Newline.CRLF →
            Newline.decode (Newline.encode sep (expand d tpl)) = expand d tpl) as Hdisk.
  { intros sep Hsep. apply decode_encode; [done|]. by apply expand_cr_free. }
  rewrite (replace_in_file_text p d w f (render tpl)) by done.
  rewrite substitute_render, render_resolve, Hw by done.
  case_bool_decide as Hch.
  - eexists _, _. split; [done|].
    split; [|split; [eauto using expand_no_token|done]].
    unfold Fs.read_text. destruct p as [|c p]; [done|].
    simpl. by rewrite lookup_insert_eq.
  - eexists _, _. split; [done|].
    split; [|split; [eauto using expand_no_token|done]].
    unfold Fs.read_text. by rewrite He, Hr, Ht, Hch.
Qed.

Lemma replace_in_file_expands_witness :
  ∃ b w', replace_in_file ["ci.yml"] plain_sample_config ci_world = Ok b w'
    ∧ Fs.read_text ["ci.yml"] w' = Ok "python: ${{ matrix.python }} {ok} # my-app" w'
    ∧ (∀ k, k ∈ plain_sample_config.*1 →
         Str.contains "python: ${{ matrix.python }} {ok} # my-app" (token k) = false)
    ∧ (∀ sep, sep = Newline.LF ∨ sep = Newline.CRLF →
         Newline.decode (Newline.encode sep "python: ${{ matrix.python }} {ok} # my-app")
         = "python: ${{ matrix.python }} {ok} # my-app").
Proof.
  exact (replace_in_file_expands ci_world ["ci.yml"]
           (File (Text (render ci_template)) true true)
           plain_sample_config ci_template
           eq_refl eq_refl eq_refl eq_refl eq_refl eq_refl eq_refl eq_refl).
Defined.

(** On disk the line ends of a rewritten file are those of the platform,
    whatever they were before: a file with the line ends of Windows that is
    rewritten on POSIX has those of POSIX afterwards, and the other way
    round, also outside the placeholders. *)
Example replace_in_file_line_ends :
  Newline.encode Newline.LF
    (substitute [("PROJECT_NAME", "x")]
       (Newline.decode ("a" +:+ Newline.CRLF +:+ "{{PROJECT_NAME}}" +:+ Newline.CRLF)))
  = "a" +:+ Newline.LF +:+ "x" +:+ Newline.LF
  ∧ Newline.encode Newline.CRLF
      (substitute [("PROJECT_NAME", "x")]
         (Newline.decode ("a" +:+ Newline.LF +:+ "{{PROJECT_NAME}}" +:+ Newline.LF)))
    = "a" +:+ Newline.CRLF +:+ "x" +:+ Newline.CRLF.
Proof. split; reflexivity. Qed.

(** C1 as stated fails: the value of a later variable may hold the
    placeholder of an earlier one, which then stays in the text. *)
Lemma replace_in_file_token_remains :
  ∃ w', replace_in_file ["README.md"] quoting_config readme_world = Ok true w'
    ∧ Fs.read_text ["README.md"] w' = Ok "# my-app: About {{PROJECT_NAME}}" w'
    ∧ "PROJECT_NAME" ∈ quoting_config.*1
    ∧ Str.contains "# my-app: About {{PROJECT_NAME}}" (token "PROJECT_NAME") = true.
Proof.
  eexists. split; [vm_compute; reflexivity|].
  split; [vm_compute; reflexivity|]. split; [set_solver|reflexivity].
Qed.

(** C2, as amended.  For a readable and writable file whose text is a
    plain template and a configuration whose names and values hold no
    brace: a second run of [replace_in_file] with the same configuration
    returns [False] and leaves the world as the first run left it. *)
Theorem replace_in_file_twice w p f d tpl :
  Fs.entry_at (w_fs w) p = Some (EFile f) →
  f_readable f = true → f_writable f = true → f_data f = Text (render tpl) →
  plain_config d = true → plain_template tpl = true →
  ∃ b w', replace_in_file p d w = Ok b w'
    ∧ replace_in_file p d w' = Ok false w'.
Proof.
  intros He Hr Hw Ht Hd Htpl.
  assert (substitute d (expand d tpl) = expand d tpl) as Hfix.
  { apply substitute_absent. eauto using expand_no_token. }
  rewrite (replace_in_file_text p d w f (render tpl)) by done.
  rewrite substitute_render, render_resolve, Hw by done.
  case_bool_decide as Hch.
  - eexists _, _. split; [done|].
    rewrite (replace_in_file_text p d _ (File (Text (expand d tpl)) true true)
               (expand d tpl)); [|clear Hfix Hch|reflexivity|reflexivity].
    + rewrite bool_decide_false; [reflexivity|]. intros Hne. apply Hne, Hfix.
    + destruct p as [|c p]; [discriminate He|]. simpl. apply lookup_insert_eq.
  - eexists _, _. split; [done|].
    rewrite (replace_in_file_text p d w f (render tpl)) by done.
    rewrite <-Hch, Hfix. rewrite bool_decide_false; [reflexivity|].
    intros Hne. by apply Hne.
Qed.

Lemma replace_in_file_twice_witness :
  ∃ b w', replace_in_file ["README.md"] plain_sample_config readme_world = Ok b w'
    ∧ replace_in_file ["README.md"] plain_sample_config w' = Ok false w'.
Proof.
  exact (replace_in_file_twice readme_world ["README.md"]
           (File (Text (render readme_template)) true true)
           plain_sample_config readme_template
           eq_refl eq_refl eq_refl eq_refl eq_refl eq_refl).
Defined.

(** C2 as stated fails: with a value that holds a placeholder the second
    run finds that placeholder, rewrites the file and returns [True]. *)
Lemma replace_in_file_second_run_modifies :
  ∃ w' w'', replace_in_file ["README.md"] quoting_config readme_world = Ok true w'
    ∧ replace_in_file ["README.md"] quoting_config w' = Ok true w''
    ∧ Fs.read_text ["README.md"] w' = Ok "# my-app: About {{PROJECT_NAME}}" w'
    ∧ Fs.read_text ["README.md"] w'' = Ok "# my-app: About my-app" w''.
Proof.
  eexists _, _. split; [vm_compute; reflexivity|].
  split; [vm_compute; reflexivity|].
  split; vm_compute; reflexivity.
Qed.

(** C3.  [replace_in_file] always returns, and it calls [write_text] at most
    once, with a text that differs from the one it read: either the trace
    and the files are as before and the result is [False], or the trace has
    grown by one call that writes the substituted text, which differs from
    the text read.  A file in whose text no placeholder of a configured
    variable occurs yields [False] and the world is left as it was. *)
Theorem replace_in_file_writes_once p d w :
  ∃ b w', replace_in_file p d w = Ok b w'
    ∧ ((b = false ∧ w_fs w' = w_fs w ∧ w_trace w' = w_trace w)
       ∨ (∃ t, Fs.read_text p w = Ok t w ∧ substitute d t ≠ t
            ∧ w_trace w' = w_trace w ++ [EvWriteText p (substitute d t)]))
    ∧ (∀ t, Fs.read_text p w = Ok t w →
         (∀ k, k ∈ d.*1 → Str.contains t (token k) = false) →
         b = false ∧ w' = w).
Proof.
  destruct (Fs.read_text p w) as [t w1|e w1] eqn:Hread.
  - unfold Fs.read_text in Hread.
    destruct (Fs.entry_at (w_fs w) p) as [[f|]|] eqn:He; try done.
    destruct (f_readable f) eqn:Hr; [|done].
    destruct (f_data f) as [t'|] eqn:Ht; [|done].
    injection Hread as -> <-.
    rewrite (replace_in_file_text p d w f t) by done.
    case_bool_decide as Hch.
    + destruct (f_writable f); simpl; eexists _, _; (split; [done|]);
        (split; [right; by exists t|]);
        intros ? [= <-] ?%substitute_absent; done.
    + eexists _, _. split; [done|]. split; [by left|]. by intros.
  - unfold replace_in_file, try_except, bind. rewrite Hread. simpl.
    unfold Fs.read_text in Hread.
    destruct (Fs.entry_at (w_fs w) p) as [[f|]|]; [|injection Hread as <- <-..].
    + destruct (f_readable f); [destruct (f_data f); [done|]|];
        injection Hread as <- <-; eexists _, _;
        (split; [done|]); (split; [by left|done]).
    + eexists _, _. split; [done|]. split; [by left|done].
    + eexists _, _. split; [done|]. split; [by left|done].
Qed.

End replace_in_file_facts.

(** * [collect_variables] *)

Section collect_variables_facts.
Import Py Script.
Implicit Types (w : world) (d values : dict) (catalog : list (string * var_info)).

Lemma for_acc_cons {A S} (x : A) l (acc : S) body w :
  for_acc (x :: l) acc body w
  = match body acc x w with
    | Ok acc' w' => for_acc l acc' body w'
    | Raise e w' => Raise e w'
    end.
Proof. reflexivity. Qed.

Lemma for_cons {A} (x : A) l body w :
  for_ (x :: l) body w
  = match body x w with
    | Ok _ w' => for_ l body w'
    | Raise e w' => Raise e w'
    end.
Proof. reflexivity. Qed.

(** An answer that is empty once stripped resolves to the default. *)
Lemma get_input_empty prompt dflt line rest w :
  w_stdin w = line :: rest → Str.strip line = EmptyString →
  get_input prompt dflt w
  = Ok dflt (set_stdin rest (add_stdout (prompt +:+ " [" +:+ dflt +:+ "]: ") w)).
Proof.
  intros Hin Hs. unfold get_input, bind, input, ret. simpl.
  by rewrite Hin, Hs.
Qed.

(** A line read resolves to the default when it is empty once stripped, and
    to itself, stripped, otherwise. *)
Lemma get_input_run prompt dflt line rest w :
  w_stdin w = line :: rest →
  get_input prompt dflt w
  = Ok (answer line dflt)
       (set_stdin rest (add_stdout (prompt +:+ " [" +:+ dflt +:+ "]: ") w)).
Proof.
  intros Hin. unfold get_input, bind, input, ret, answer. simpl.
  rewrite Hin. by destruct (Str.strip line).
Qed.

(** [get_input] returns as soon as a line is there to read. *)
Lemma get_input_returns prompt dflt line rest w :
  w_stdin w = line :: rest →
  ∃ v w', get_input prompt dflt w = Ok v w'
    ∧ w_stdin w' = rest ∧ w_fs w' = w_fs w ∧ w_trace w' = w_trace w
    ∧ w_tool w' = w_tool w.
Proof.
  intros Hin. unfold get_input, bind, input, ret. simpl. rewrite Hin. eauto 10.
Qed.

Lemma collect_loop_empty catalog : ∀ values ins rest w,
  w_stdin w = ins ++ rest → length ins = length catalog →
  Forall (λ line, Str.strip line = EmptyString) ins →
  ∃ w', collect_loop catalog values w
        = Ok (fold_left (λ vs item, dict_set vs item.1 item.2) (defaults_of catalog) values) w'
    ∧ w_stdin w' = rest ∧ w_fs w' = w_fs w ∧ w_trace w' = w_trace w.
Proof.
  unfold collect_loop. set (body := λ (values : dict) (item : string * var_info), _).
  induction catalog as [|[k info] catalog IH]; intros values ins rest w Hin Hlen Hall.
  - destruct ins; [|done]. by exists w.
  - destruct ins as [|line ins]; [done|].
    apply Forall_cons in Hall as [Hline Hall].
    rewrite for_acc_cons.
    assert (∃ w1, body values (k, info) w = Ok (dict_set values k (default info)) w1
              ∧ w_stdin w1 = ins ++ rest ∧ w_fs w1 = w_fs w ∧ w_trace w1 = w_trace w)
      as (w1 & -> & Hin1 & Hfs1 & Htr1).
    { unfold body, bind, print. erewrite get_input_empty by done. by eexists. }
    destruct (IH (dict_set values k (default info)) ins rest w1)
      as (w' & -> & ? & ? & ?); [done|by injection Hlen|done|].
    exists w'. by rewrite <-Hfs1, <-Htr1.
Qed.

Lemma collect_loop_answers catalog : ∀ values ins rest w,
  w_stdin w = ins ++ rest → length ins = length catalog →
  ∃ w', collect_loop catalog values w = Ok (answers_of catalog ins values) w'
    ∧ w_stdin w' = rest ∧ w_fs w' = w_fs w ∧ w_tool w' = w_tool w.
Proof.
  unfold collect_loop. set (body := λ (values : dict) (item : string * var_info), _).
  induction catalog as [|[k info] catalog IH]; intros values ins rest w Hin Hlen.
  - destruct ins; [|done]. by exists w.
  - destruct ins as [|line ins]; [done|].
    rewrite for_acc_cons.
    assert (∃ w1, body values (k, info) w
                  = Ok (dict_set values k (answer line (default info))) w1
              ∧ w_stdin w1 = ins ++ rest ∧ w_fs w1 = w_fs w ∧ w_tool w1 = w_tool w)
      as (w1 & -> & Hin1 & Hfs1 & Htool1).
    { unfold body, bind, print. erewrite get_input_run by done. by eexists. }
    destruct (IH (dict_set values k (answer line (default info))) ins rest w1)
      as (w' & -> & ? & ? & ?); [done|by injection Hlen|].
    exists w'. by rewrite <-Hfs1, <-Htool1.
Qed.

Lemma collect_variables_answers ins rest w :
  w_stdin w = ins ++ rest → length ins = length TEMPLATE_VARS →
  ∃ w', collect_variables w = Ok (answers_of TEMPLATE_VARS ins []) w'
    ∧ w_stdin w' = rest ∧ w_fs w' = w_fs w ∧ w_tool w' = w_tool w.
Proof.
  intros Hin Hlen. unfold collect_variables, bind, print.
  edestruct (collect_loop_answers TEMPLATE_VARS [] ins rest) as (w' & -> & ? & ? & ?);
    [|done|]; [done|].
  by exists w'.
Qed.

(** C7.  If every answer to the twelve prompts is empty (also once
    stripped of white space), [collect_variables] returns the configuration
    that has one entry for each variable of the catalog, in the order of the
    catalog, and maps each variable to its default value. *)
Theorem collect_variables_defaults w ins rest :
  w_stdin w = ins ++ rest → length ins = length TEMPLATE_VARS →
  Forall (λ line, Str.strip line = EmptyString) ins →
  ∃ w', collect_variables w = Ok (defaults_of TEMPLATE_VARS) w'
    ∧ w_stdin w' = rest
    ∧ (defaults_of TEMPLATE_VARS).*1 = TEMPLATE_VARS.*1
    ∧ NoDup TEMPLATE_VARS.*1
    ∧ ∀ k info, (k, info) ∈ TEMPLATE_VARS →
        dict_get (defaults_of TEMPLATE_VARS) k = Some (default info).
Proof.
  intros Hin Hlen Hall. unfold collect_variables, bind, print.
  edestruct (collect_loop_empty TEMPLATE_VARS [] ins rest) as (w' & -> & ? & _);
    [|done..|]; [done|].
  exists w'. split; [reflexivity|]. split; [done|]. split; [reflexivity|].
  split; [apply (bool_decide_unpack _); by vm_compute|].
  assert (Forall (λ item : string * var_info,
            dict_get (defaults_of TEMPLATE_VARS) item.1 = Some (default item.2))
            TEMPLATE_VARS) as Hall' by (repeat constructor).
  intros k info Hk. by apply (proj1 (Forall_forall _ _) Hall' (k, info)).
Qed.

Lemma collect_variables_defaults_witness :
  ∃ w', collect_variables (World ∅ (replicate 12 EmptyString) [] [] no_tools)
        = Ok (defaults_of TEMPLATE_VARS) w'
    ∧ w_stdin w' = []
    ∧ (defaults_of TEMPLATE_VARS).*1 = TEMPLATE_VARS.*1
    ∧ NoDup TEMPLATE_VARS.*1
    ∧ ∀ k info, (k, info) ∈ TEMPLATE_VARS →
        dict_get (defaults_of TEMPLATE_VARS) k = Some (default info).
Proof.
  apply (collect_variables_defaults
           (World ∅ (replicate 12 EmptyString) [] [] no_tools)
           (replicate 12 EmptyString) []).
  - reflexivity.
  - reflexivity.
  - repeat constructor.
Defined.

End collect_variables_facts.

(** * Paths and [shutil.move] *)

Section move_facts.
Implicit Types (fs : gmap path entry) (p q : path) (old new c s : string).

Lemma split_no_sep a s : has_char a s = false → Str.split a s = [s].
Proof.
  induction s as [|c s IH]; [done|]. cbn [has_char Str.split].
  intros [Hc Hs]%orb_false_iff. by rewrite Hc, IH.
Qed.

(** A plain name joined to the project root is the path of one component. *)
Lemma path_of_name s : is_name s = true → Fs.path_of s = [s].
Proof.
  unfold is_name. intros [Hs Hsep]%andb_true_iff.
  apply bool_decide_eq_true in Hs as (? & ? & ?). apply negb_true_iff in Hsep.
  unfold Fs.path_of. rewrite split_no_sep by done.
  rewrite filter_cons_True by done. done.
Qed.

Lemma rekey_name old new p :
  Fs.rekey [old] [new] p
  = match p with
    | c :: q => if decide (c = old) then new :: q else p
    | [] => []
    end.
Proof.
  unfold Fs.rekey. destruct p as [|c q].
  - rewrite bool_decide_false; [done|]. by intros ?%prefix_nil_inv.
  - destruct (decide (c = old)) as [->|Hne].
    + rewrite bool_decide_true; [done|]. apply prefix_cons, prefix_nil.
    + rewrite bool_decide_false; [done|]. intros ?%prefix_cons_inv_1. congruence.
Qed.

(** The entries of the tree after [shutil.move] of one name to another that
    is free: what lay below [old] lies below [new], nothing is left below
    [old], and the rest is where it was. *)
Lemma lookup_move_fs fs old new p :
  old ≠ new → (∀ q, fs !! (new :: q) = None) →
  Fs.move_fs [old] [new] fs !! p
  = match p with
    | c :: q =>
        if decide (c = new) then fs !! (old :: q)
        else if decide (c = old) then None else fs !! p
    | [] => fs !! []
    end.
Proof.
  intros Hne Hfree. unfold Fs.move_fs.
  set (l := prod_map (Fs.rekey [old] [new]) id <$> map_to_list fs).
  assert (∀ k e, (k, e) ∈ l ↔ ∃ p', Fs.rekey [old] [new] p' = k ∧ fs !! p' = Some e)
    as Hl.
  { intros k e. unfold l. rewrite list_elem_of_fmap. split.
    - intros ([p' e'] & [= -> ->] & Hin%elem_of_map_to_list). eauto.
    - intros (p' & <- & Hin). exists (p', e). split; [done|].
      by apply elem_of_map_to_list. }
  assert (NoDup l.*1) as Hnd.
  { unfold l. rewrite <-list_fmap_compose.
    apply (NoDup_fmap_2_strong _).
    - intros [p1 e1] [p2 e2] Hin1%elem_of_map_to_list Hin2%elem_of_map_to_list.
      simpl. rewrite !rekey_name. intros Heq.
      assert (p1 = p2) as ->.
      { destruct p1 as [|c1 q1], p2 as [|c2 q2]; try done.
        - by destruct (decide (c2 = old)).
        - by destruct (decide (c1 = old)).
        - destruct (decide (c1 = old)) as [->|], (decide (c2 = old)) as [->|];
            simplify_eq; try done.
          + by rewrite Hfree in Hin2.
          + by rewrite Hfree in Hin1. }
      congruence.
    - apply NoDup_map_to_list. }
  apply option_eq. intros e. rewrite <-(elem_of_list_to_map _ _ _ Hnd), Hl.
  split.
  - intros (p' & <- & Hin). rewrite rekey_name.
    destruct p' as [|c q]; [done|].
    destruct (decide (c = old)) as [->|Hc].
    + by rewrite decide_True.
    + destruct (decide (c = new)) as [->|]; [by rewrite Hfree in Hin|].
      by rewrite decide_False.
  - destruct p as [|c q].
    + intros Hin. exists []. by rewrite rekey_name.
    + destruct (decide (c = new)) as [->|Hc].
      * intros Hin. exists (old :: q). rewrite rekey_name. by rewrite decide_True.
      * destruct (decide (c = old)) as [->|Hc']; [done|].
        intros Hin. exists (c :: q). rewrite rekey_name. by rewrite decide_False.
Qed.

(** In a tree whose entries all lie in directories, nothing lies below a
    name that does not exist. *)
Lemma parents_closed_free fs new :
  parents_closed fs → fs !! [new] = None → ∀ q, fs !! (new :: q) = None.
Proof.
  intros Hpc Hnone q. destruct q as [|c q]; [done|].
  destruct (fs !! (new :: c :: q)) as [e|] eqn:He; [|done].
  apply Hpc in He. unfold ancestors in He. rewrite Forall_fmap, Forall_forall in He.
  specialize (He 1). simpl in He. rewrite He in Hnone; [done|].
  apply list_elem_of_here.
Qed.

End move_facts.

(** * [rename_directory] *)

Section rename_directory_facts.
Import Py Script.
Implicit Types (w : world) (old new : string).

(** What [rename_directory] does, by cases on the two names. *)
Lemma rename_directory_cases old new w :
  is_name old = true → is_name new = true →
  rename_directory old new w =
    if bool_decide (old = new) then Ok None w
    else match w_fs w !! [old] with
         | None => Ok None w
         | Some _ =>
             match w_fs w !! [new] with
             | Some _ =>
                 Ok None (add_stdout (("  Warning: Cannot rename " +:+ old +:+ " to "
                                       +:+ new +:+ ": target exists") +:+ NL) w)
             | None =>
                 Ok (Some [new])
                    (set_fs (Fs.move_fs [old] [new] (w_fs w))
                            (add_event (EvMove [old] [new]) w))
             end
         end.
Proof.
  intros Hold Hnew. unfold rename_directory.
  case_bool_decide; [done|].
  rewrite !path_of_name by done.
  unfold bind, Fs.exists_, Fs.entry_at, ret, print, Fs.move.
  destruct (w_fs w !! [old]); [|done].
  by destruct (w_fs w !! [new]).
Qed.

(** C4, as amended.  For plain names, in a tree whose entries all lie in
    directories: [rename_directory] returns [None] and leaves the files and
    the trace of file-system calls as they were when the names are equal,
    when no entry with the old name exists, directory or file, or when an
    entry with the new name exists; otherwise it returns the new path, and
    the entry of the old name, a directory or a regular file, with
    everything below it is found under the new name, nothing is left under
    the old name, and every other entry is where it was. *)
Theorem rename_directory_spec old new w :
  is_name old = true → is_name new = true → parents_closed (w_fs w) →
  (old = new ∨ w_fs w !! [old] = None ∨ is_Some (w_fs w !! [new]) →
     ∃ w', rename_directory old new w = Ok None w'
       ∧ w_fs w' = w_fs w ∧ w_trace w' = w_trace w)
  ∧ (old ≠ new → is_Some (w_fs w !! [old]) → w_fs w !! [new] = None →
     ∃ w', rename_directory old new w = Ok (Some [new]) w'
       ∧ (∀ q, w_fs w' !! (new :: q) = w_fs w !! (old :: q))
       ∧ (∀ q, w_fs w' !! (old :: q) = None)
       ∧ (∀ c q, c ≠ old → c ≠ new → w_fs w' !! (c :: q) = w_fs w !! (c :: q))).
Proof.
  intros Hold Hnew Hpc. rewrite rename_directory_cases by done. split.
  - intros Hcase. case_bool_decide; [by eexists|].
    destruct (w_fs w !! [old]) eqn:Ho; [|by eexists].
    destruct (w_fs w !! [new]) eqn:Hn; [by eexists|].
    destruct Hcase as [?|[?|[? ?]]]; done.
  - intros Hne [e Ho] Hn. rewrite bool_decide_false, Ho, Hn by done.
    eexists. split; [done|]. simpl.
    pose proof (parents_closed_free _ _ Hpc Hn) as Hfree.
    split; [|split].
    + intros q. rewrite lookup_move_fs by done. by rewrite decide_True.
    + intros q. rewrite lookup_move_fs by done.
      by rewrite decide_False, decide_True.
    + intros c q ? ?. rewrite lookup_move_fs by done.
      by rewrite !decide_False.
Qed.

Lemma project_fs_parents_closed : parents_closed project_fs.
Proof.
  apply map_Forall_to_list. vm_compute. repeat constructor.
Defined.

Lemma rename_directory_spec_witness :
  ∃ w', rename_directory "src" "app" project_world = Ok (Some ["app"]) w'
    ∧ (∀ q, w_fs w' !! ("app" :: q) = project_fs !! ("src" :: q))
    ∧ (∀ q, w_fs w' !! ("src" :: q) = None)
    ∧ (∀ c q, c ≠ "src" → c ≠ "app" → w_fs w' !! (c :: q) = project_fs !! (c :: q)).
Proof.
  apply (rename_directory_spec "src" "app" project_world
           eq_refl eq_refl project_fs_parents_closed).
  - discriminate.
  - exists EDir. reflexivity.
  - reflexivity.
Defined.

(** C4 as stated fails: where the old name is that of a regular file, no
    directory of the old name exists, and yet the file is moved to the new
    name and the new path is returned. *)
Lemma rename_directory_moves_regular_file :
  w_fs src_file_world !! ["src"] = Some (text_file "print('hello')")
  ∧ ∃ w', rename_directory "src" "app" src_file_world = Ok (Some ["app"]) w'
      ∧ w_fs w' !! ["src"] = None
      ∧ w_fs w' !! ["app"] = Some (text_file "print('hello')")
      ∧ w_trace w' = [EvMove ["src"] ["app"]].
Proof.
  split; [reflexivity|]. eexists. split; [vm_compute; reflexivity|].
  repeat split; vm_compute; reflexivity.
Qed.

(** C5, as amended.  When the names differ and the rename does not happen,
    [rename_directory] returns [None] and the files and the trace of
    file-system calls stay as they were; a warning is printed when the old
    and the new name both exist, and nothing is printed when no entry with
    the old name exists. *)
Theorem rename_directory_refused old new w :
  is_name old = true → is_name new = true → old ≠ new →
  (is_Some (w_fs w !! [old]) → is_Some (w_fs w !! [new]) →
     rename_directory old new w
     = Ok None (add_stdout (("  Warning: Cannot rename " +:+ old +:+ " to "
                             +:+ new +:+ ": target exists") +:+ NL) w))
  ∧ (w_fs w !! [old] = None → rename_directory old new w = Ok None w).
Proof.
  intros Hold Hnew Hne. rewrite rename_directory_cases by done.
  rewrite bool_decide_false by done. split.
  - by intros [? ->] [? ->].
  - by intros ->.
Qed.

Lemma rename_directory_refused_witness :
  rename_directory "src" "tests" project_world
  = Ok None (add_stdout "  Warning: Cannot rename src to tests: target exists
" project_world)
  ∧ rename_directory "src" "app" empty_world = Ok None empty_world.
Proof.
  split.
  - apply (rename_directory_refused "src" "tests" project_world
             eq_refl eq_refl); [discriminate|exists EDir; reflexivity..].
  - apply (rename_directory_refused "src" "app" empty_world
             eq_refl eq_refl); [discriminate|reflexivity].
Defined.

(** C5 as stated fails: when the source directory is missing the rename is
    skipped without a warning, nothing is printed. *)
Lemma rename_directory_missing_source_silent :
  ∃ w', rename_directory "src" "app" empty_world = Ok None w'
    ∧ w_stdout w' = [].
Proof. eexists. split; [vm_compute; reflexivity|reflexivity]. Qed.

End rename_directory_facts.

(** * [update_file_references] *)

Section update_file_references_facts.
Import Py Script.
Implicit Types (w : world) (p q : path) (pats : list (string * string)).

(** Once set, the flag [modified] stays set. *)
Lemma apply_patterns_stay pats : ∀ c,
  (fold_left (λ st pat,
     let '(content, modified) := st in
     let '(old_pattern, new_pattern) := pat in
     if Str.contains content old_pattern
     then (Str.replace content old_pattern new_pattern, true)
     else (content, modified)) pats (c, true)).2 = true.
Proof.
  induction pats as [|[a b] pats IH]; intros c; [done|]. simpl.
  destruct (Str.contains c a); apply IH.
Qed.

(** The flag [modified] is set as soon as a pattern occurs in the text read. *)
Lemma apply_patterns_modified pats t :
  (∃ pat, pat ∈ pats.*1 ∧ Str.contains t pat = true) →
  (apply_patterns pats t).2 = true.
Proof.
  unfold apply_patterns.
  induction pats as [|[a b] pats IH]; intros (pat & Hin & Hc).
  - by apply elem_of_nil in Hin.
  - simpl. destruct (Str.contains t a) eqn:Ha; [apply apply_patterns_stay|].
    apply IH. exists pat. split; [|done].
    simpl in Hin. apply elem_of_cons in Hin as [->|]; [congruence|done].
Qed.

(** One round of the loop always returns. *)
Lemma update_file_run pats p w :
  update_file pats p w = Ok () (after_update pats p w).
Proof.
  unfold update_file, after_update, bind, Fs.is_file, try_except,
    Fs.read_text, Fs.write_text, ret.
  destruct (Fs.entry_at (w_fs w) p) as [[[[t|raw] rd wr]|]|] eqn:He; simpl; try done.
  - destruct (Str.startswith (Fs.name p) "."); simpl; [by destruct rd|].
    rewrite He. simpl. destruct rd; [|done].
    destruct (apply_patterns pats t) as [t' m]. destruct m; simpl; [|done].
    rewrite He. simpl. by destruct wr.
  - destruct (Str.startswith (Fs.name p) "."); simpl; [done|].
    rewrite He. simpl. by destruct rd.
Qed.

(** Only the entry at its path may have changed, into what [rewritten]
    makes of it. *)
Lemma after_update_fs pats p w :
  (∀ q, q ≠ p → w_fs (after_update pats p w) !! q = w_fs w !! q)
  ∧ (p ≠ [] →
     w_fs (after_update pats p w) !! p = rewritten pats (Fs.name p) <$> w_fs w !! p).
Proof.
  unfold after_update, rewritten. destruct p as [|c p']; [done|]. cbn [Fs.entry_at].
  destruct (w_fs w !! (c :: p')) as [[[[t|raw] rd wr]|]|] eqn:He;
    [|by rewrite He..].
  destruct rd; [|by rewrite He].
  destruct (Str.startswith (Fs.name (c :: p')) ".") eqn:Hh;
    [by rewrite He; simpl; rewrite ?Hh; destruct wr|].
  destruct (apply_patterns pats t).2 eqn:Hm;
    [|by rewrite He; simpl; rewrite ?Hh, ?Hm; destruct wr].
  destruct wr; [|by cbn [w_fs add_event]; rewrite He].
  cbn [set_fs w_fs add_event]. split.
  - intros q Hq. by rewrite lookup_insert_ne.
  - intros _. rewrite lookup_insert_eq. simpl. by rewrite Hm.
Qed.

Lemma after_update_io pats p w :
  w_stdin (after_update pats p w) = w_stdin w
  ∧ w_tool (after_update pats p w) = w_tool w.
Proof.
  unfold after_update.
  destruct (Fs.entry_at (w_fs w) p) as [[[[t|raw] [] wr]|]|]; try done.
  destruct (Str.startswith (Fs.name p) "."); [done|].
  destruct (apply_patterns pats t).2; [|done]. by destruct wr.
Qed.

Lemma update_file_fs pats p w :
  ∃ w', update_file pats p w = Ok () w'
    ∧ (w_stdin w' = w_stdin w ∧ w_tool w' = w_tool w)
    ∧ (∀ q, q ≠ p → w_fs w' !! q = w_fs w !! q)
    ∧ (p ≠ [] → w_fs w' !! p = rewritten pats (Fs.name p) <$> w_fs w !! p).
Proof.
  exists (after_update pats p w). split; [apply update_file_run|].
  split; [apply after_update_io|apply after_update_fs].
Qed.

(** The loop over a list of distinct paths. *)
Lemma for_update_file_fs pats l : ∀ w, NoDup l →
  ∃ w', for_ l (update_file pats) w = Ok () w'
    ∧ (w_stdin w' = w_stdin w ∧ w_tool w' = w_tool w)
    ∧ ∀ q, q ≠ [] →
        w_fs w' !! q
        = if decide (q ∈ l) then rewritten pats (Fs.name q) <$> w_fs w !! q
          else w_fs w !! q.
Proof.
  induction l as [|p l IH]; intros w Hnd.
  - exists w. split; [done|]. split; [done|].
    intros q _. by rewrite decide_False by set_solver.
  - apply NoDup_cons in Hnd as [Hp Hnd]. rewrite for_cons.
    destruct (update_file_fs pats p w) as (w1 & -> & [Hin1 Htool1] & Hother & Hself).
    destruct (IH w1 Hnd) as (w' & -> & [Hin' Htool'] & Hw'). exists w'.
    split; [done|]. split; [by rewrite Hin', Htool'|].
    intros q Hq. rewrite Hw' by done.
    destruct (decide (q = p)) as [->|Hqp].
    + rewrite decide_False, decide_True by (done || apply list_elem_of_here).
      by apply Hself.
    + rewrite Hother by done.
      destruct (decide (q ∈ l)).
      * by rewrite decide_True by by apply list_elem_of_further.
      * by rewrite decide_False by (rewrite elem_of_cons; by intros [|]).
Qed.

(** [update_file_references] returns, and every entry is afterwards what
    [rewritten] makes of it. *)
Lemma update_file_references_fs old new w :
  old ≠ new →
  ∃ w', update_file_references old new w = Ok () w'
    ∧ (w_stdin w' = w_stdin w ∧ w_tool w' = w_tool w)
    ∧ ∀ q, q ≠ [] →
        w_fs w' !! q = rewritten (patterns old new) (Fs.name q) <$> w_fs w !! q.
Proof.
  intros Hne. unfold update_file_references. rewrite bool_decide_false by done.
  unfold bind, Fs.rglob.
  destruct (for_update_file_fs (patterns old new) (map_to_list (w_fs w)).*1 w)
    as (w' & -> & Hio & Hw'); [apply NoDup_fst_map_to_list|].
  exists w'. split; [done|]. split; [done|]. intros q Hq. rewrite Hw' by done.
  destruct (w_fs w !! q) as [e|] eqn:He.
  - rewrite decide_True; [done|].
    apply list_elem_of_fmap. exists (q, e). split; [done|].
    by apply elem_of_map_to_list.
  - by destruct (decide _).
Qed.

(** A file whose own name starts with a dot is left as it is. *)
Lemma update_file_references_hidden_file old new w p :
  old ≠ new → Str.startswith (Fs.name p) "." = true →
  ∃ w', update_file_references old new w = Ok () w'
    ∧ w_fs w' !! p = w_fs w !! p.
Proof.
  intros Hne Hh.
  destruct (update_file_references_fs old new w Hne) as (w' & Hrun & _ & Hfs).
  exists w'. split; [done|].
  destruct p as [|c p']; [done|]. rewrite Hfs by done.
  destruct (w_fs w !! (c :: p')) as [[[[t|raw] [] []]|]|]; simpl; try done.
  by rewrite Hh.
Qed.

(** C10.  The test for hidden files looks at the name of the file alone: a
    readable and writable text file whose own name does not start with a
    dot, in a directory whose name does, is rewritten by
    [update_file_references] when one of the patterns occurs in it. *)
Theorem update_file_references_hidden_dir old new w p t :
  old ≠ new →
  (∃ d, d ∈ Fs.parent p ∧ Str.startswith d "." = true) →
  Str.startswith (Fs.name p) "." = false →
  w_fs w !! p = Some (EFile (File (Text t) true true)) →
  (∃ pat, pat ∈ (patterns old new).*1 ∧ Str.contains t pat = true) →
  ∃ w', update_file_references old new w = Ok () w'
    ∧ w_fs w' !! p
      = Some (EFile (File (Text (apply_patterns (patterns old new) t).1) true true)).
Proof.
  intros Hne (d & Hd & _) Hname He Hpat.
  destruct (update_file_references_fs old new w Hne) as (w' & Hrun & _ & Hfs).
  exists w'. split; [done|].
  rewrite Hfs by (intros ->; by apply elem_of_nil in Hd).
  rewrite He. simpl. by rewrite Hname, apply_patterns_modified.
Qed.

Lemma update_file_references_hidden_dir_witness :
  ∃ w', update_file_references "src" "app" workflow_world = Ok () w'
    ∧ w_fs w' !! [".github"; "workflows"; "ci.yml"]
      = Some (text_file "run: pytest app/").
Proof.
  apply (update_file_references_hidden_dir "src" "app" workflow_world
           [".github"; "workflows"; "ci.yml"] "run: pytest src/").
  - discriminate.
  - exists ".github". split; [apply list_elem_of_here|reflexivity].
  - reflexivity.
  - reflexivity.
  - exists "src/". split; [apply list_elem_of_here|reflexivity].
Defined.

(** C6, the code at the failing input: in a text that holds [^src/] the
    first pattern rewrites the [src/] inside it, the second pattern then
    finds nothing, and the caret stays. *)
Lemma update_file_references_caret :
  ∃ w', update_file_references "src" "app" caret_world = Ok () w'
    ∧ Fs.read_text ["docs"; "SETUP.md"] w' = Ok "^app/main.py" w'
    ∧ apply_patterns (patterns "src" "app") "^src/main.py" = ("^app/main.py", true).
Proof.
  eexists. split; [vm_compute; reflexivity|].
  split; vm_compute; reflexivity.
Qed.

End update_file_references_facts.

(** * The first loop of [main] *)

Section process_target_facts.
Import Py Script.
Implicit Types (w : world) (values : dict) (s rel rest sd td : string).

Lemma replace_first_prefix s old new :
  String.prefix old s = true →
  Str.replace_first s old new = new +:+ Str.drop (String.length old) s.
Proof. intros H. destruct s; simpl in *; by rewrite H. Qed.

(** The name under which a listed file is tried again. *)
Lemma fallback_path_run values sd td rel w :
  dict_get values "SOURCE_DIR" = Some sd → dict_get values "TEST_DIR" = Some td →
  fallback_path values rel w
  = Ok (if Str.startswith rel "src/" then (sd +:+ "/") +:+ Str.drop 4 rel
        else if Str.startswith rel "tests/" then (td +:+ "/") +:+ Str.drop 6 rel
        else rel) w.
Proof.
  intros Hsd Htd. unfold fallback_path, getitem, bind, ret.
  destruct (Str.startswith rel "src/") eqn:Hs.
  - rewrite Hsd. by rewrite replace_first_prefix.
  - destruct (Str.startswith rel "tests/") eqn:Ht; [|done].
    rewrite Htd. by rewrite replace_first_prefix.
Qed.

(** C8.  A listed path that does not exist under its listed name is tried
    once more, under the name [alt]: the path with its leading [src/]
    replaced by the resolved [SOURCE_DIR], or its leading [tests/] by the
    resolved [TEST_DIR], and the listed path itself otherwise.  If nothing
    exists under [alt] either, the round leaves the world and the count as
    they were, so nothing is printed and nothing is counted; if something
    does, the round is one run of [replace_in_file] on it, counted and
    reported exactly when that run returns [True]. *)
Theorem process_target_fallback values sd td n rel w :
  dict_get values "SOURCE_DIR" = Some sd → dict_get values "TEST_DIR" = Some td →
  is_name sd = true → is_name td = true →
  Fs.entry_at (w_fs w) (Fs.path_of rel) = None →
  ∃ alt,
    ((∀ rest, rel = "src/" +:+ rest → alt = (sd +:+ "/") +:+ rest)
     ∧ (∀ rest, rel = "tests/" +:+ rest → alt = (td +:+ "/") +:+ rest)
     ∧ (Str.startswith rel "src/" = false → Str.startswith rel "tests/" = false →
        alt = rel))
    ∧ (Fs.entry_at (w_fs w) (Fs.path_of alt) = None →
       process_target values n rel w = Ok n w)
    ∧ (is_Some (Fs.entry_at (w_fs w) (Fs.path_of alt)) →
       ∃ b w', replace_in_file (Fs.path_of alt) values w = Ok b w'
         ∧ process_target values n rel w
           = Ok (if b then n + 1 else n)
                (if b then add_stdout (("  Updated: " +:+ alt) +:+ NL) w' else w')).
Proof.
  intros Hsd Htd _ _ Hmiss.
  pose proof (fallback_path_run values sd td rel w Hsd Htd) as Hfb.
  exists (if Str.startswith rel "src/" then (sd +:+ "/") +:+ Str.drop 4 rel
          else if Str.startswith rel "tests/" then (td +:+ "/") +:+ Str.drop 6 rel
          else rel).
  split; [|split].
  - split; [|split].
    + intros rest ->. unfold Str.startswith.
      rewrite (str_prefix_app "src/" rest). reflexivity.
    + intros rest ->. unfold Str.startswith.
      assert (String.prefix "src/" ("tests/" +:+ rest) = false) as -> by done.
      rewrite (str_prefix_app "tests/" rest). reflexivity.
    + by intros -> ->.
  - intros Halt. unfold process_target, bind, Fs.exists_, ret.
    by rewrite Hmiss, Hfb, Halt.
  - intros [e Halt]. unfold process_target, bind, Fs.exists_, ret.
    rewrite Hmiss, Hfb, Halt.
    destruct (replace_in_file_returns
                (Fs.path_of (if Str.startswith rel "src/"
                             then (sd +:+ "/") +:+ Str.drop 4 rel
                             else if Str.startswith rel "tests/"
                                  then (td +:+ "/") +:+ Str.drop 6 rel
                                  else rel)) values w) as (b & w' & Hrun).
    exists b, w'. split; [done|]. rewrite Hrun. by destruct b.
Qed.

Lemma process_target_fallback_witness :
  ∃ alt,
    ((∀ rest, "src/main.py" = "src/" +:+ rest → alt = ("app" +:+ "/") +:+ rest)
     ∧ (∀ rest, "src/main.py" = "tests/" +:+ rest → alt = ("tests" +:+ "/") +:+ rest)
     ∧ (Str.startswith "src/main.py" "src/" = false →
        Str.startswith "src/main.py" "tests/" = false → alt = "src/main.py"))
    ∧ (Fs.entry_at moved_fs (Fs.path_of alt) = None →
       process_target moved_config 0 "src/main.py" moved_world = Ok 0 moved_world)
    ∧ (is_Some (Fs.entry_at moved_fs (Fs.path_of alt)) →
       ∃ b w', replace_in_file (Fs.path_of alt) moved_config moved_world = Ok b w'
         ∧ process_target moved_config 0 "src/main.py" moved_world
           = Ok (if b then 0 + 1 else 0)
                (if b then add_stdout (("  Updated: " +:+ alt) +:+ NL) w' else w')).
Proof.
  exact (process_target_fallback moved_config "app" "tests" 0 "src/main.py"
           moved_world eq_refl eq_refl eq_refl eq_refl eq_refl).
Defined.

(** The two outcomes of the second try, on a project whose source directory
    is [app] already: [src/main.py] is found as [app/main.py], rewritten and
    counted; [tests/conftest.py] exists under no name and is passed over. *)
Example process_target_found_and_skipped :
  (∃ w', process_target moved_config 0 "src/main.py" moved_world = Ok 1 w'
     ∧ w_fs w' !! ["app"; "main.py"] = Some (text_file "print('my-python-project')")
     ∧ w_stdout w' = ["  Updated: app/main.py" +:+ NL])
  ∧ process_target moved_config 0 "tests/conftest.py" moved_world = Ok 0 moved_world.
Proof.
  split; [eexists; split; [vm_compute; reflexivity|split; reflexivity]|].
  vm_compute; reflexivity.
Qed.

End process_target_facts.

(** * [main] *)

Section returns_rules.
Import Py.
Context {A B : Type}.
Implicit Types (P : world → Prop) (w : world).

Lemma returns_ret P (a : A) (Q : A → world → Prop) :
  (∀ w, P w → Q a w) → returns P (ret a) Q.
Proof. intros H w Hw. exists a, w. auto. Qed.

Lemma returns_bind P (m : t A) (k : A → t B) Q R :
  returns P m Q → (∀ a, returns (Q a) (k a) R) → returns P (bind m k) R.
Proof.
  intros Hm Hk w Hw. destruct (Hm w Hw) as (a & w1 & Hrun & Hq).
  destruct (Hk a w1 Hq) as (b & w2 & Hrun2 & Hr).
  exists b, w2. unfold bind. by rewrite Hrun.
Qed.

Lemma returns_pure P (φ : Prop) (m : t A) (Q : A → world → Prop) :
  (φ → returns P m Q) → returns (λ w, P w ∧ φ) m Q.
Proof. intros H w [Hw Hφ]. by apply H. Qed.

End returns_rules.

Lemma returns_for_acc {A S} (P : world → Prop) (l : list A) (body : S → A → Py.t S) :
  (∀ acc x, returns P (body acc x) (λ _, P)) →
  ∀ acc, returns P (Py.for_acc l acc body) (λ _, P).
Proof.
  intros Hbody. induction l as [|x l IH]; intros acc.
  - by apply returns_ret.
  - cbn [Py.for_acc]. eapply returns_bind; [apply Hbody|]. intros acc'. apply IH.
Qed.

Section main_facts.
Import Py Script.
Variable script : string.
Hypothesis script_name : is_name script = true.
Hypothesis script_not_src : script ≠ "src".
Hypothesis script_not_tests : script ≠ "tests".
Implicit Types (w : world) (k n : nat) (values d : dict).

Lemma ready_frame k w w' :
  w_stdin w' = w_stdin w → w_tool w' = w_tool w →
  (∀ f, w_fs w !! [script] = Some (EFile f) →
        ∃ f', w_fs w' !! [script] = Some (EFile f')) →
  ready script k w → ready script k w'.
Proof.
  intros Hin Htool Hfs (Hk & Ht & f & Hf). unfold ready.
  rewrite Hin, Htool. eauto.
Qed.

Lemma returns_print k s :
  returns (ready script k) (print s) (λ _, ready script k).
Proof. intros w Hw. by eexists _, _. Qed.

Lemma returns_get_input k prompt dflt :
  returns (ready script (S k)) (get_input prompt dflt) (λ _, ready script k).
Proof.
  intros w (Hk & Ht & Hf).
  destruct (w_stdin w) as [|line rest] eqn:Hin; [simpl in Hk; lia|].
  destruct (get_input_returns prompt dflt line rest w Hin)
    as (v & w' & Hrun & Hin' & Hfs' & _ & Htool').
  exists v, w'. split; [done|]. unfold ready.
  rewrite Hin', Hfs', Htool'. simpl in Hk. split; [lia|done].
Qed.

(** With fifteen lines to read, [collect_variables] returns; plain answers
    for the two directories give a configuration that names them plainly. *)
Lemma returns_collect_variables :
  returns (λ w, ready script 15 w ∧ names_answered w) collect_variables
    (λ vs w, ready script 3 w ∧ configured vs).
Proof.
  intros w [(Hk & Htool & Hf) Hnames].
  destruct (w_stdin w) as [|a0 l] eqn:Hin; [simpl in Hk; lia|].
  do 11 (destruct l as [|? l]; [simpl in Hk; lia|]).
  unfold names_answered in Hnames. rewrite Hin in Hnames.
  match type of Hin with
  | _ = ?x0 :: ?x1 :: ?x2 :: ?x3 :: ?x4 :: ?x5 :: ?x6 :: ?x7
        :: ?x8 :: ?x9 :: ?x10 :: ?x11 :: l =>
      destruct (collect_variables_answers
                  [x0; x1; x2; x3; x4; x5; x6; x7; x8; x9; x10; x11] l w Hin eq_refl)
        as (w' & Hrun & Hin' & Hfs' & Htool');
      pose proof (Hnames 8 x8 eq_refl (or_introl eq_refl)) as Hsd;
      pose proof (Hnames 9 x9 eq_refl (or_intror eq_refl)) as Htd
  end.
  eexists _, w'. split; [exact Hrun|]. split.
  - unfold ready. rewrite Hin', Hfs', Htool'. simpl in Hk. split; [lia|done].
  - assert (∀ line dflt, plain_answer line → is_name dflt = true →
              is_name (answer line dflt) = true) as Hans.
    { intros line dflt [Hs|Hs] Hd; unfold answer.
      - by rewrite Hs.
      - destruct (Str.strip line); [done|]. done. }
    split; [|split].
    + eexists. split; [reflexivity|]. by apply Hans.
    + eexists. split; [reflexivity|]. by apply Hans.
    + by eexists.
Qed.

(** [replace_in_file] returns, reads no input, and leaves files files. *)
Lemma replace_in_file_frame p d w :
  ∃ b w', replace_in_file p d w = Ok b w'
    ∧ w_stdin w' = w_stdin w ∧ w_tool w' = w_tool w
    ∧ ∀ q f, w_fs w !! q = Some (EFile f) → ∃ f', w_fs w' !! q = Some (EFile f').
Proof.
  unfold replace_in_file, try_except, bind, ret, print, Fs.read_text, Fs.write_text.
  destruct (Fs.entry_at (w_fs w) p) as [[f|]|] eqn:He;
    [|eexists _, _; split; [done|]; eauto..].
  destruct (f_readable f); [|eexists _, _; split; [done|]; eauto].
  destruct (f_data f); [|eexists _, _; split; [done|]; eauto].
  case_bool_decide; [|eexists _, _; split; [done|]; eauto]. simpl.
  rewrite He.
  destruct (f_writable f); [|eexists _, _; split; [done|]; eauto].
  eexists _, _. split; [done|]. simpl. split; [done|]. split; [done|].
  intros q f' Hq. destruct (decide (p = q)) as [->|Hne].
  - rewrite lookup_insert_eq. eauto.
  - rewrite lookup_insert_ne by done. eauto.
Qed.

Lemma returns_replace_in_file k p d :
  returns (ready script k) (replace_in_file p d) (λ _, ready script k).
Proof.
  intros w Hw.
  destruct (replace_in_file_frame p d w) as (b & w' & Hrun & Hin & Htool & Hfs).
  exists b, w'. split; [done|]. eapply ready_frame; eauto.
Qed.

Lemma returns_process_target k values n rel :
  is_Some (dict_get values "SOURCE_DIR") → is_Some (dict_get values "TEST_DIR") →
  returns (ready script k) (process_target values n rel) (λ _, ready script k).
Proof.
  intros [sd Hsd] [td Htd].
  assert (∀ p (shown : string),
    returns (ready script k)
      (modified <- replace_in_file p values ;;
       if modified : bool then print ("  Updated: " +:+ shown) ;;; ret (n + 1)
       else ret n)
      (λ _, ready script k)) as Hrun.
  { intros p shown. eapply returns_bind; [apply returns_replace_in_file|].
    intros [|]; cbv beta.
    - eapply returns_bind; [apply returns_print|]. intros []. by apply returns_ret.
    - by apply returns_ret. }
  intros w Hw. unfold process_target. unfold bind at 1. unfold Fs.exists_ at 1.
  destruct (Fs.entry_at (w_fs w) (Fs.path_of rel)); [by apply Hrun|].
  unfold bind at 1. rewrite (fallback_path_run values sd td rel w Hsd Htd).
  unfold bind at 1. unfold Fs.exists_ at 1.
  destruct (Fs.entry_at (w_fs w) (Fs.path_of _)); [by apply Hrun|].
  by eexists _, _.
Qed.

Lemma returns_process_files k values :
  is_Some (dict_get values "SOURCE_DIR") → is_Some (dict_get values "TEST_DIR") →
  returns (ready script k) (process_files values) (λ _, ready script k).
Proof.
  intros Hsd Htd. unfold process_files.
  eapply returns_bind.
  { apply returns_for_acc. intros acc rel. by apply returns_process_target. }
  intros count. cbv beta.
  eapply returns_bind; [apply returns_print|]. intros []. by apply returns_ret.
Qed.

(** A move of another entry to a free place leaves the script where it is. *)
Lemma move_fs_keep (fs : gmap path entry) old dst e :
  script ≠ old → dst ≠ [] → fs !! dst = None → fs !! [script] = Some e →
  Fs.move_fs [old] dst fs !! [script] = Some e.
Proof.
  intros Hold Hdst Hfree He. unfold Fs.move_fs.
  apply elem_of_list_to_map_1'.
  - intros y ([p e'] & [= Hp ->] & Hin%elem_of_map_to_list)%list_elem_of_fmap.
    unfold Fs.rekey in Hp. case_bool_decide as Hpre.
    + destruct dst as [|c dst']; [done|]. simpl in Hp.
      injection Hp as <- Hnil. symmetry in Hnil.
      apply app_eq_nil in Hnil as [-> _]. congruence.
    + rewrite <-Hp in Hin. congruence.
  - apply list_elem_of_fmap. exists ([script], e). split.
    + unfold prod_map, Fs.rekey. simpl. rewrite bool_decide_false; [done|].
      intros ?%prefix_cons_inv_1. congruence.
    + by apply elem_of_map_to_list.
Qed.

Lemma returns_rename_directory k old new :
  script ≠ old → is_name old = true → is_name new = true →
  returns (ready script k) (rename_directory old new) (λ _, ready script k).
Proof.
  intros Hold Hname Hnew w Hw. rewrite rename_directory_cases by done.
  case_bool_decide; [by eexists _, _|].
  destruct (w_fs w !! [old]); [|by eexists _, _].
  destruct (w_fs w !! [new]) eqn:Hfree; [by eexists _, _|].
  eexists _, _. split; [done|].
  apply (ready_frame k w); [done..| |done]. simpl. intros f Hf.
  exists f. by apply move_fs_keep.
Qed.

Lemma returns_update_file_references k old new :
  returns (ready script k) (update_file_references old new) (λ _, ready script k).
Proof.
  intros w Hw. destruct (decide (old = new)) as [Heq|Hne].
  - unfold update_file_references. rewrite bool_decide_true by done. by exists (), w.
  - destruct (update_file_references_fs old new w Hne) as (w' & Hrun & [Hin Htool] & Hfs).
    exists (), w'. split; [done|].
    apply (ready_frame k w); [done..| |done]. intros f Hf.
    rewrite Hfs, Hf by done. simpl.
    destruct f as [[t|raw] [] []]; simpl; eauto.
    destruct (Str.startswith _ _); [eauto|]. destruct (apply_patterns _ _).2; eauto.
Qed.

Lemma returns_rename_step k values old key new :
  script ≠ old → is_name old = true →
  dict_get values key = Some new → is_name new = true →
  returns (ready script k) (rename_step values old key) (λ _, ready script k).
Proof.
  intros Hold Hname Hget Hnew. unfold rename_step, getitem. rewrite Hget.
  eapply (returns_bind _ _ _ (λ v w, ready script k w ∧ v = new)).
  { by apply returns_ret. }
  intros new'. cbv beta. apply returns_pure. intros ->.
  case_bool_decide; [|by apply returns_ret].
  eapply returns_bind; [by apply returns_rename_directory|].
  intros [p|]; cbv beta; [|by apply returns_ret].
  eapply returns_bind; [apply returns_print|]. intros [].
  apply returns_update_file_references.
Qed.

(** An external command that fails, or is not there, is no obstacle. *)
Lemma returns_init_git_repo k :
  returns (ready script k) init_git_repo (λ _, ready script k).
Proof.
  intros w Hw. unfold init_git_repo, try_except, bind, Fs.run, ret.
  destruct Hw as (Hk & Htool & Hf).
  destruct (w_tool w ["git"; "init"]) eqn:Ht; simpl;
    [eexists _, _; split; [done|]; by repeat split..|].
  by destruct (Htool ["git"; "init"]).
Qed.

Lemma returns_install_pre_commit k :
  returns (ready script k) install_pre_commit (λ _, ready script k).
Proof.
  intros w Hw. unfold install_pre_commit, try_except, bind, Fs.run, ret.
  destruct Hw as (Hk & Htool & Hf).
  destruct (w_tool w ["pre-commit"; "install"]) eqn:Ht; simpl;
    [eexists _, _; split; [done|]; by repeat split..|].
  by destruct (Htool ["pre-commit"; "install"]).
Qed.

Lemma returns_unlink k :
  returns (ready script k) (Fs.unlink (Fs.path_of script)) (λ _ _, True).
Proof.
  intros w (_ & _ & f & Hf). rewrite path_of_name by done.
  unfold Fs.unlink. simpl. rewrite Hf. by eexists _, _.
Qed.

Lemma returns_print_any s :
  returns (λ _, True) (print s) (λ _ _, True).
Proof. intros w _. by eexists _, _. Qed.

(** With fifteen lines to read and plain names for the directories, [main]
    reaches its end and returns 0, whatever the files, the renames and the
    external commands do. *)
Lemma main_completes :
  returns (λ w, ready script 15 w ∧ names_answered w) (main script)
    (λ code _, code = 0%Z).
Proof.
  unfold main.
  eapply returns_bind; [apply returns_collect_variables|].
  intros values. cbv beta. apply returns_pure.
  intros ((sd & Hsd & Hsdn) & (td & Htd & Htdn) & Hpn).
  do 3 (eapply returns_bind; [apply returns_print|]; intros []; cbv beta).
  eapply returns_bind; [apply returns_process_files; by eexists|].
  intros count. cbv beta.
  eapply returns_bind; [by apply (returns_rename_step _ _ _ _ sd)|].
  intros []. cbv beta.
  eapply returns_bind; [by apply (returns_rename_step _ _ _ _ td)|].
  intros []. cbv beta.
  eapply returns_bind; [apply returns_print|]. intros []; cbv beta.
  eapply returns_bind; [apply returns_get_input|]. intros init_git; cbv beta.
  eapply (returns_bind _ _ _ (λ _, ready script 2)).
  { destruct (affirmative init_git); [|by apply returns_ret].
    eapply returns_bind; [apply returns_init_git_repo|].
    intros [|]; apply returns_print. }
  intros []. cbv beta.
  eapply returns_bind; [apply returns_get_input|]. intros install_hooks; cbv beta.
  eapply (returns_bind _ _ _ (λ _, ready script 1)).
  { destruct (affirmative install_hooks); [|by apply returns_ret].
    eapply returns_bind; [apply returns_install_pre_commit|].
    intros [|]; cbv beta; [apply returns_print|].
    eapply returns_bind; [apply returns_print|]. intros []. apply returns_print. }
  intros []. cbv beta.
  eapply returns_bind; [apply returns_print|]. intros []; cbv beta.
  eapply returns_bind; [apply returns_get_input|]. intros remove_script; cbv beta.
  eapply (returns_bind _ _ _ (λ _ _, True)).
  { destruct (affirmative remove_script); [|by apply returns_ret].
    eapply returns_bind; [apply returns_unlink|]. intros []. apply returns_print_any. }
  intros []. cbv beta.
  do 3 (eapply returns_bind; [apply returns_print_any|]; intros []; cbv beta).
  destruct Hpn as [name Hname].
  unfold getitem. rewrite Hname.
  eapply (returns_bind _ _ _ (λ _ _, True)); [by apply returns_ret|]. intros ?.
  do 7 (eapply returns_bind; [apply returns_print_any|]; intros []; cbv beta).
  by apply returns_ret.
Qed.

End main_facts.

Section exit_code.
Import Py Script.

(** A computation that, when it returns, returns 0. *)
Lemma zero_ret w (code : Z) w' : ret 0%Z w = Ok code w' → code = 0%Z.
Proof. by intros [= <- _]. Qed.

Lemma zero_bind {A} (m : t A) (k : A → t Z) :
  (∀ a w code w', k a w = Ok code w' → code = 0%Z) →
  ∀ w code w', bind m k w = Ok code w' → code = 0%Z.
Proof.
  intros Hk w code w'. unfold bind. destruct (m w) as [a w1|e w1]; [|done].
  apply Hk.
Qed.

(** C9.  Whenever [main] returns, it returns 0; and it does return, with 0,
    from every world in which fifteen lines can be read (the twelve values
    and the three answers), the directories are given plain names, no
    external command is refused by the system and the running script is a
    regular file of the project root: whatever the files of the list hold
    or lack, whether or not the renames happen, and whether [git] and
    [pre-commit] succeed, fail or are not found. *)
Theorem main_exit_code script w :
  (∀ code w', main script w = Ok code w' → code = 0%Z)
  ∧ (is_name script = true → script ≠ "src" → script ≠ "tests" →
     ready script 15 w → names_answered w →
     ∃ w', main script w = Ok 0%Z w').
Proof.
  split.
  - revert w. unfold main. repeat (apply zero_bind; intros ?). apply zero_ret.
  - intros Hname Hsrc Htests Hw Hnames.
    destruct (main_completes script Hname Hsrc Htests w (conj Hw Hnames))
      as (code & w' & Hrun & ->).
    by exists w'.
Qed.

Lemma troubled_world_ready :
  ready "setup_template.py" 15 troubled_world ∧ names_answered troubled_world.
Proof.
  split.
  - split; [vm_compute; lia|]. split; [done|]. by eexists.
  - intros i line Hi [->| ->]; injection Hi as <-.
    + by right.
    + by left.
Defined.

Lemma main_exit_code_witness :
  ∃ w', main "setup_template.py" troubled_world = Ok 0%Z w'.
Proof.
  apply (main_exit_code "setup_template.py" troubled_world).
  - reflexivity.
  - discriminate.
  - discriminate.
  - apply troubled_world_ready.
  - apply troubled_world_ready.
Defined.

(** The same run, step by step: the file that cannot be read and the rename
    that cannot happen are reported, both commands fail, the script removes
    itself, and the exit code is 0. *)
Example main_troubled_run :
  ∃ w', main "setup_template.py" troubled_world = Ok 0%Z w'
    ∧ w_fs w' !! ["setup_template.py"] = None
    ∧ w_fs w' !! ["src"; "main.py"] = Some (text_file "print('my-python-project')")
    ∧ ("  Warning: Could not process pyproject.toml: [Errno 13] Permission denied" +:+ NL)
        ∈ w_stdout w'
    ∧ ("  Warning: Cannot rename src to lib: target exists" +:+ NL) ∈ w_stdout w'
    ∧ ("  Warning: Could not initialize git repository" +:+ NL) ∈ w_stdout w'
    ∧ ("  Warning: Could not install pre-commit hooks" +:+ NL) ∈ w_stdout w'
    ∧ ("Setup complete!" +:+ NL) ∈ w_stdout w'.
Proof.
  eexists. split; [vm_compute; reflexivity|].
  repeat split; try reflexivity; apply (bool_decide_unpack _); by vm_compute.
Qed.

End exit_code.

Section strip_facts.
Implicit Types (s r : string) (c : ascii).

Lemma lstrip_head s :
  Str.lstrip s = EmptyString ∨ ∃ c t, Str.lstrip s = String c t ∧ Str.isspace c = false.
Proof.
  induction s as [|c s IH]; [by left|]. cbn [Str.lstrip].
  destruct (Str.isspace c) eqn:Hc; [done|]. right. eauto.
Qed.

Lemma rstrip_idem s : Str.rstrip (Str.rstrip s) = Str.rstrip s.
Proof.
  induction s as [|c s IH]; [done|]. cbn [Str.rstrip].
  destruct (Str.rstrip s) as [|d r] eqn:Hr.
  - destruct (Str.isspace c) eqn:Hc; [done|]. cbn [Str.rstrip]. by rewrite Hc.
  - change (Str.rstrip (String c (String d r)))
      with (match Str.rstrip (String d r) with
            | EmptyString => if Str.isspace c then EmptyString else String c EmptyString
            | r' => String c r'
            end).
    by rewrite IH.
Qed.

Lemma rstrip_head c s :
  Str.isspace c = false → ∃ r, Str.rstrip (String c s) = String c r.
Proof.
  intros Hc. cbn [Str.rstrip]. destruct (Str.rstrip s); [rewrite Hc|]; eauto.
Qed.

(** Stripping a stripped string changes nothing. *)
Lemma strip_idem s : Str.strip (Str.strip s) = Str.strip s.
Proof.
  unfold Str.strip. destruct (lstrip_head s) as [->|(c & t & -> & Hc)]; [done|].
  destruct (rstrip_head c t Hc) as [r Hr]. rewrite Hr.
  cbn [Str.lstrip]. rewrite Hc, <-Hr. apply rstrip_idem.
Qed.

End strip_facts.

Section get_input_facts.
Import Py Script.
Implicit Types (w : world).

(** X1.  [get_input] writes the prompt with the default in brackets and reads
    one line.  Its result is the default when the line is empty once
    stripped of white space, and the stripped line otherwise, which then
    has no white space at either end; with a default that is not empty the
    result is never empty. *)
Theorem get_input_answer prompt dflt line rest w :
  w_stdin w = line :: rest →
  ∃ v, get_input prompt dflt w
       = Ok v (set_stdin rest (add_stdout (prompt +:+ " [" +:+ dflt +:+ "]: ") w))
    ∧ (Str.strip line = EmptyString → v = dflt)
    ∧ (Str.strip line ≠ EmptyString → v = Str.strip line ∧ Str.strip v = v)
    ∧ (dflt ≠ EmptyString → v ≠ EmptyString).
Proof.
  intros Hin. unfold get_input, bind, input, ret. simpl. rewrite Hin.
  destruct (Str.strip line) as [|c r] eqn:Hs.
  - exists dflt. by repeat split.
  - exists (String c r). split; [done|]. split; [done|]. split; [|done].
    intros _. split; [done|]. rewrite <-Hs. apply strip_idem.
Qed.

Lemma get_input_answer_witness :
  ∃ v, get_input "  SOURCE_DIR" "src" (World ∅ ["  lib  "; "x"] [] [] no_tools)
       = Ok v (set_stdin ["x"] (add_stdout "  SOURCE_DIR [src]: "
                 (World ∅ ["  lib  "; "x"] [] [] no_tools)))
    ∧ (Str.strip "  lib  " = EmptyString → v = "src")
    ∧ (Str.strip "  lib  " ≠ EmptyString → v = "lib" ∧ Str.strip v = v)
    ∧ ("src" ≠ EmptyString → v ≠ EmptyString).
Proof.
  exact (get_input_answer "  SOURCE_DIR" "src" "  lib  " ["x"]
           (World ∅ ["  lib  "; "x"] [] [] no_tools) eq_refl).
Defined.

End get_input_facts.

(** * What a run keeps *)

Section keeps_rules.
Import Py.
Context {A B : Type} (I : world → Prop).

Lemma keeps_ret (a : A) : keeps I (ret a).
Proof. by intros w Hw. Qed.

Lemma keeps_raise (e : exn) : keeps I (raise (A:=A) e).
Proof. by intros w Hw. Qed.

Lemma keeps_bind (m : t A) (k : A → t B) :
  keeps I m → (∀ a, keeps I (k a)) → keeps I (bind m k).
Proof.
  intros Hm Hk w Hw. unfold bind. specialize (Hm w Hw).
  destruct (m w) as [a w'|e w']; [by apply Hk|done].
Qed.

Lemma keeps_try_except (m : t A) catches (h : exn → t A) :
  keeps I m → (∀ e, keeps I (h e)) → keeps I (try_except m catches h).
Proof.
  intros Hm Hh w Hw. unfold try_except. specialize (Hm w Hw).
  destruct (m w) as [a w'|e w']; [done|].
  destruct (catches e); [by apply Hh|done].
Qed.

End keeps_rules.

Lemma keeps_for {A} (I : world → Prop) (l : list A) (body : A → Py.t unit) :
  (∀ x, keeps I (body x)) → keeps I (Py.for_ l body).
Proof.
  intros Hbody. induction l as [|x l IH]; [apply keeps_ret|].
  cbn [Py.for_]. apply keeps_bind; [apply Hbody|]. intros _. apply IH.
Qed.

Lemma keeps_for_acc {A S} (I : world → Prop) (l : list A) (body : S → A → Py.t S) :
  (∀ acc x, keeps I (body acc x)) → ∀ acc, keeps I (Py.for_acc l acc body).
Proof.
  intros Hbody. induction l as [|x l IH]; intros acc; [apply keeps_ret|].
  cbn [Py.for_acc]. apply keeps_bind; [apply Hbody|]. intros acc'. apply IH.
Qed.

(** A property of the world that printing and changes of the files do not
    disturb, nor the events that are [good], is kept by the calls that make
    only such events; one that reading a line does not disturb either is
    kept by the whole run. *)
Section keeps_script.
Import Py Script.
Context (I : world → Prop) (good : event → Prop).
Hypothesis keep_out : ∀ s w, I w → I (add_stdout s w).
Hypothesis keep_fs : ∀ fs w, I w → I (set_fs fs w).
Hypothesis keep_event : ∀ e w, good e → I w → I (add_event e w).
Hypothesis keep_in : ∀ i w, I w → I (set_stdin i w).
Implicit Types (w : world) (p : path) (d values : dict).

Lemma keeps_print s : keeps I (print s).
Proof. intros w Hw. by apply keep_out. Qed.

Lemma keeps_input prompt : keeps I (input prompt).
Proof.
  intros w Hw. unfold input. simpl.
  destruct (w_stdin w); simpl; [by apply keep_out|].
  by apply keep_in, keep_out.
Qed.

Lemma keeps_exists p : keeps I (Fs.exists_ p).
Proof. by intros w Hw. Qed.

Lemma keeps_is_file p : keeps I (Fs.is_file p).
Proof. by intros w Hw. Qed.

Lemma keeps_rglob : keeps I Fs.rglob.
Proof. by intros w Hw. Qed.

Lemma keeps_read_text p : keeps I (Fs.read_text p).
Proof.
  intros w Hw. unfold Fs.read_text.
  destruct (Fs.entry_at (w_fs w) p) as [[f|]|]; [|done..].
  destruct (f_readable f); [|done]. by destruct (f_data f).
Qed.

Lemma keeps_write_text p s : good (EvWriteText p s) → keeps I (Fs.write_text p s).
Proof.
  intros Hg w Hw. unfold Fs.write_text. cbn [w_fs add_event].
  pose proof (keep_event _ w Hg Hw) as Hw1.
  destruct (Fs.entry_at (w_fs w) p) as [[f|]|].
  - destruct (f_writable f); [by apply keep_fs|done].
  - done.
  - destruct (Fs.entry_at (w_fs w) (Fs.parent p)) as [[f|]|]; [done| |done].
    by apply keep_fs.
Qed.

Lemma keeps_move src dst : good (EvMove src dst) → keeps I (Fs.move src dst).
Proof. intros Hg w Hw. unfold Fs.move. simpl. by apply keep_fs, keep_event. Qed.

Lemma keeps_unlink p : good (EvUnlink p) → keeps I (Fs.unlink p).
Proof.
  intros Hg w Hw. unfold Fs.unlink.
  destruct (Fs.entry_at (w_fs w) p) as [[f|]|]; [|done..].
  simpl. by apply keep_fs, keep_event.
Qed.

Lemma keeps_run cmd : good (EvRun cmd) → keeps I (Fs.run cmd).
Proof.
  intros Hg w Hw. unfold Fs.run.
  pose proof (keep_event _ w Hg Hw). by destruct (w_tool w cmd).
Qed.

Lemma keeps_getitem d k : keeps I (getitem d k).
Proof. unfold getitem. destruct (dict_get d k); [apply keeps_ret|apply keeps_raise]. Qed.

Lemma keeps_get_input prompt dflt : keeps I (get_input prompt dflt).
Proof.
  unfold get_input. apply keeps_bind; [apply keeps_input|]. intros line.
  apply keeps_ret.
Qed.

Lemma keeps_collect_variables : keeps I collect_variables.
Proof.
  unfold collect_variables.
  do 5 (apply keeps_bind; [apply keeps_print|]; intros _).
  unfold collect_loop. apply keeps_for_acc. intros values [var_name info].
  apply keeps_bind; [apply keeps_print|]. intros _.
  apply keeps_bind; [apply keeps_get_input|]. intros v. apply keeps_ret.
Qed.

Lemma keeps_replace_in_file p d :
  (∀ s, good (EvWriteText p s)) → keeps I (replace_in_file p d).
Proof.
  intros Hg. unfold replace_in_file. apply keeps_try_except.
  - apply keeps_bind; [apply keeps_read_text|]. intros content. cbv zeta.
    case_bool_decide; [|apply keeps_ret].
    apply keeps_bind; [by apply keeps_write_text|]. intros _. apply keeps_ret.
  - intros e. apply keeps_bind; [apply keeps_print|]. intros _. apply keeps_ret.
Qed.

Lemma keeps_rename_directory old new :
  good (EvMove (Fs.path_of old) (Fs.path_of new)) →
  keeps I (rename_directory old new).
Proof.
  intros Hg. unfold rename_directory. case_bool_decide; [apply keeps_ret|].
  apply keeps_bind; [apply keeps_exists|]. intros [|]; [|apply keeps_ret].
  apply keeps_bind; [apply keeps_exists|]. intros [|].
  - apply keeps_bind; [apply keeps_print|]. intros _. apply keeps_ret.
  - apply keeps_bind; [by apply keeps_move|]. intros _. apply keeps_ret.
Qed.

Lemma keeps_update_file pats p :
  (∀ s, good (EvWriteText p s)) → keeps I (update_file pats p).
Proof.
  intros Hg. unfold update_file. apply keeps_bind; [apply keeps_is_file|].
  intros is_file. destruct (is_file && _); [|apply keeps_ret].
  apply keeps_try_except; [|intros _; apply keeps_ret].
  apply keeps_bind; [apply keeps_read_text|]. intros content.
  destruct (apply_patterns pats content) as [content' [|]]; [|apply keeps_ret].
  by apply keeps_write_text.
Qed.

Lemma keeps_update_file_references old new :
  (∀ p s, good (EvWriteText p s)) → keeps I (update_file_references old new).
Proof.
  intros Hg. unfold update_file_references. case_bool_decide; [apply keeps_ret|].
  apply keeps_bind; [apply keeps_rglob|]. intros paths.
  apply keeps_for. intros p. by apply keeps_update_file.
Qed.

Lemma keeps_init_git_repo : good (EvRun ["git"; "init"]) → keeps I init_git_repo.
Proof.
  intros Hg. unfold init_git_repo. apply keeps_try_except; [|intros _; apply keeps_ret].
  apply keeps_bind; [by apply keeps_run|]. intros _. apply keeps_ret.
Qed.

Lemma keeps_install_pre_commit :
  good (EvRun ["pre-commit"; "install"]) → keeps I install_pre_commit.
Proof.
  intros Hg. unfold install_pre_commit.
  apply keeps_try_except; [|intros _; apply keeps_ret].
  apply keeps_bind; [by apply keeps_run|]. intros _. apply keeps_ret.
Qed.

Lemma keeps_fallback_path values rel : keeps I (fallback_path values rel).
Proof.
  unfold fallback_path. destruct (Str.startswith rel "src/").
  - apply keeps_bind; [apply keeps_getitem|]. intros ?. apply keeps_ret.
  - destruct (Str.startswith rel "tests/"); [|apply keeps_ret].
    apply keeps_bind; [apply keeps_getitem|]. intros ?. apply keeps_ret.
Qed.

Lemma keeps_process_target values n rel :
  (∀ p s, good (EvWriteText p s)) → keeps I (process_target values n rel).
Proof.
  intros Hg.
  assert (∀ p (shown : string),
    keeps I (modified <- replace_in_file p values ;;
             if modified : bool then print ("  Updated: " +:+ shown) ;;; ret (n + 1)
             else ret n)) as Hrun.
  { intros p shown. apply keeps_bind; [by apply keeps_replace_in_file|].
    intros [|]; [|apply keeps_ret].
    apply keeps_bind; [apply keeps_print|]. intros _. apply keeps_ret. }
  unfold process_target. apply keeps_bind; [apply keeps_exists|].
  intros [|]; [apply Hrun|].
  apply keeps_bind; [apply keeps_fallback_path|]. intros new_path.
  apply keeps_bind; [apply keeps_exists|]. intros [|]; [apply Hrun|apply keeps_ret].
Qed.

Lemma keeps_process_files values :
  (∀ p s, good (EvWriteText p s)) → keeps I (process_files values).
Proof.
  intros Hg. unfold process_files.
  apply keeps_bind; [apply keeps_for_acc; intros; by apply keeps_process_target|].
  intros n. apply keeps_bind; [apply keeps_print|]. intros _. apply keeps_ret.
Qed.

Lemma keeps_rename_step values old key :
  (∀ p s, good (EvWriteText p s)) →
  (∀ new, good (EvMove (Fs.path_of old) (Fs.path_of new))) →
  keeps I (rename_step values old key).
Proof.
  intros Hg Hmv. unfold rename_step.
  apply keeps_bind; [apply keeps_getitem|]. intros new.
  case_bool_decide; [|apply keeps_ret].
  apply keeps_bind; [by apply keeps_rename_directory|].
  intros [p|]; [|apply keeps_ret].
  apply keeps_bind; [apply keeps_print|]. intros _.
  by apply keeps_update_file_references.
Qed.

Lemma keeps_main script :
  (∀ p s, good (EvWriteText p s)) →
  (∀ new, good (EvMove ["src"] (Fs.path_of new))) →
  (∀ new, good (EvMove ["tests"] (Fs.path_of new))) →
  good (EvRun ["git"; "init"]) → good (EvRun ["pre-commit"; "install"]) →
  good (EvUnlink (Fs.path_of script)) →
  keeps I (main script).
Proof.
  intros Hwr Hsrc Htests Hgit Hpc Hun. unfold main.
  apply keeps_bind; [apply keeps_collect_variables|]. intros values.
  do 3 (apply keeps_bind; [apply keeps_print|]; intros _).
  apply keeps_bind; [by apply keeps_process_files|]. intros _.
  apply keeps_bind; [by apply keeps_rename_step|]. intros _.
  apply keeps_bind; [by apply keeps_rename_step|]. intros _.
  apply keeps_bind; [apply keeps_print|]. intros _.
  apply keeps_bind; [apply keeps_get_input|]. intros init_git.
  apply keeps_bind.
  { destruct (affirmative init_git); [|apply keeps_ret].
    apply keeps_bind; [by apply keeps_init_git_repo|].
    intros [|]; apply keeps_print. }
  intros _.
  apply keeps_bind; [apply keeps_get_input|]. intros install_hooks.
  apply keeps_bind.
  { destruct (affirmative install_hooks); [|apply keeps_ret].
    apply keeps_bind; [by apply keeps_install_pre_commit|].
    intros [|]; [apply keeps_print|].
    apply keeps_bind; [apply keeps_print|]. intros _. apply keeps_print. }
  intros _.
  apply keeps_bind; [apply keeps_print|]. intros _.
  apply keeps_bind; [apply keeps_get_input|]. intros remove_script.
  apply keeps_bind.
  { destruct (affirmative remove_script); [|apply keeps_ret].
    apply keeps_bind; [by apply keeps_unlink|]. intros _. apply keeps_print. }
  intros _.
  do 3 (apply keeps_bind; [apply keeps_print|]; intros _).
  apply keeps_bind; [apply keeps_getitem|]. intros project_name.
  do 7 (apply keeps_bind; [apply keeps_print|]; intros _).
  apply keeps_ret.
Qed.

End keeps_script.


Section grows_facts.
Context (good : event → Prop) (t0 : list event).

Lemma grows_start w : w_trace w = t0 → grows good t0 w.
Proof. intros Ht. exists []. by rewrite app_nil_r. Qed.

Lemma grows_out s w : grows good t0 w → grows good t0 (add_stdout s w).
Proof. done. Qed.

Lemma grows_fs fs w : grows good t0 w → grows good t0 (set_fs fs w).
Proof. done. Qed.

Lemma grows_in i w : grows good t0 w → grows good t0 (set_stdin i w).
Proof. done. Qed.

Lemma grows_event e w : good e → grows good t0 w → grows good t0 (add_event e w).
Proof.
  intros He (evs & Ht & Hall). exists (evs ++ [e]). simpl.
  rewrite Ht, app_assoc. split; [done|]. apply Forall_app. by repeat constructor.
Qed.

End grows_facts.

Section main_events.
Import Py Script.

Lemma main_grows script w :
  grows (allowed script) (w_trace w) (outcome_world (main script w)).
Proof.
  apply (keeps_main (grows (allowed script) (w_trace w)) (allowed script)).
  - apply grows_out.
  - apply grows_fs.
  - apply grows_event.
  - apply grows_in.
  - done.
  - intros new. by left.
  - intros new. by right.
  - by left.
  - by right.
  - done.
  - by apply grows_start.
Qed.

(** X14.  Whatever the input and the files, and whether the run returns or
    raises: every call of [main] that changes the file system or launches a
    program is a [write_text], a move of [src] or of [tests], the removal
    of the running script, or a launch of [git init] or of
    [pre-commit install]. *)
Theorem main_events_allowed script w :
  (∀ code w', main script w = Ok code w' →
     ∃ evs, w_trace w' = w_trace w ++ evs ∧ Forall (allowed script) evs)
  ∧ (∀ e w', main script w = Raise e w' →
     ∃ evs, w_trace w' = w_trace w ++ evs ∧ Forall (allowed script) evs).
Proof.
  pose proof (main_grows script w) as H.
  split; intros ? w' Hrun; by rewrite Hrun in H.
Qed.

End main_events.

(** * More on [collect_variables] *)

Section collect_variables_more.
Import Py Script.
Implicit Types (w : world) (d values : dict) (catalog : list (string * var_info)).

Lemma dict_set_fresh d k v : k ∉ d.*1 → dict_set d k v = d ++ [(k, v)].
Proof.
  induction d as [|[k' v'] d IH]; [done|]. simpl. rewrite not_elem_of_cons.
  intros [Hne Hd]. destruct (String.eqb_spec k' k); [congruence|]. by rewrite IH.
Qed.

(** With distinct names in the catalog, each answer adds one entry. *)
Lemma answers_of_zip catalog : ∀ ins values,
  NoDup catalog.*1 → (∀ k, k ∈ catalog.*1 → k ∉ values.*1) →
  answers_of catalog ins values = values ++ zip_with resolved catalog ins.
Proof.
  unfold answers_of.
  induction catalog as [|[k info] catalog IH]; intros ins values Hnd Hfresh.
  - by rewrite app_nil_r.
  - destruct ins as [|line ins]; [by rewrite app_nil_r|].
    apply NoDup_cons in Hnd as [Hk Hnd]. cbn [zip zip_with fold_left fst snd].
    rewrite dict_set_fresh by (apply Hfresh, list_elem_of_here).
    rewrite IH; [by rewrite <-app_assoc|done|].
    intros k' Hk'. rewrite fmap_app, elem_of_app. intros [Hin|Hin].
    + by apply (Hfresh k'); [apply list_elem_of_further|].
    + apply list_elem_of_singleton in Hin. simpl in Hin, Hk. by subst k'.
Qed.

Lemma zip_with_resolved_keys catalog : ∀ ins,
  length ins = length catalog → (zip_with resolved catalog ins).*1 = catalog.*1.
Proof.
  induction catalog as [|item catalog IH]; intros [|line ins] Hlen; try done.
  cbn [zip_with fmap list_fmap]. simpl. f_equal. apply IH. by injection Hlen.
Qed.

Lemma zip_with_resolved_values catalog : ∀ ins k v,
  Forall (λ item, default item.2 ≠ EmptyString) catalog →
  (k, v) ∈ zip_with resolved catalog ins → v ≠ EmptyString.
Proof.
  induction catalog as [|item catalog IH]; intros [|line ins] k v Hall Hin;
    try by apply elem_of_nil in Hin.
  apply Forall_cons in Hall as [Hd Hall]. cbn [zip_with] in Hin.
  apply elem_of_cons in Hin as [[= -> ->]|Hin]; [|by eapply IH].
  unfold answer. by destruct (Str.strip line).
Qed.

(** X2.  With twelve lines to read, whatever they hold, [collect_variables]
    returns one entry for each variable of the catalog, in the order of the
    catalog: the name with the answer stripped of white space, or with the
    default where the stripped answer is empty.  It reads these twelve lines
    and no more, no value is empty, and neither the files nor the trace of
    file-system calls change. *)
Theorem collect_variables_resolved w ins rest :
  w_stdin w = ins ++ rest → length ins = length TEMPLATE_VARS →
  ∃ w', collect_variables w = Ok (zip_with resolved TEMPLATE_VARS ins) w'
    ∧ w_stdin w' = rest ∧ w_fs w' = w_fs w ∧ w_trace w' = w_trace w
    ∧ (zip_with resolved TEMPLATE_VARS ins).*1 = TEMPLATE_VARS.*1
    ∧ (∀ k v, (k, v) ∈ zip_with resolved TEMPLATE_VARS ins → v ≠ EmptyString).
Proof.
  intros Hin Hlen.
  destruct (collect_variables_answers ins rest w Hin Hlen) as (w' & Hrun & Hin' & Hfs' & _).
  rewrite answers_of_zip in Hrun.
  - exists w'. split; [done|]. split; [done|]. split; [done|]. split.
    + pose proof (keeps_collect_variables (λ w1, w_trace w1 = w_trace w)) as Hk.
      specialize (Hk (λ _ _ H, H) (λ _ _ H, H) w eq_refl). by rewrite Hrun in Hk.
    + split; [by apply zip_with_resolved_keys|].
      intros k v. apply zip_with_resolved_values. repeat constructor; done.
  - apply (bool_decide_unpack _). by vm_compute.
  - intros k _. apply not_elem_of_nil.
Qed.

Lemma collect_variables_resolved_witness :
  ∃ w', collect_variables
          (World ∅ (replicate 8 EmptyString ++ [" lib "; " "; "trunk"; ""; "yes"])
             [] [] no_tools)
        = Ok (zip_with resolved TEMPLATE_VARS
                (replicate 8 EmptyString ++ [" lib "; " "; "trunk"; ""])) w'
    ∧ w_stdin w' = ["yes"] ∧ w_fs w' = ∅ ∧ w_trace w' = []
    ∧ (zip_with resolved TEMPLATE_VARS
         (replicate 8 EmptyString ++ [" lib "; " "; "trunk"; ""])).*1 = TEMPLATE_VARS.*1
    ∧ (∀ k v, (k, v) ∈ zip_with resolved TEMPLATE_VARS
                         (replicate 8 EmptyString ++ [" lib "; " "; "trunk"; ""]) →
         v ≠ EmptyString).
Proof.
  exact (collect_variables_resolved
           (World ∅ (replicate 8 EmptyString ++ [" lib "; " "; "trunk"; ""; "yes"])
              [] [] no_tools)
           (replicate 8 EmptyString ++ [" lib "; " "; "trunk"; ""]) ["yes"]
           eq_refl eq_refl).
Defined.

(** At the end of the input the prompt is written and [EOFError] raised. *)
Lemma get_input_eof prompt dflt w :
  w_stdin w = [] →
  get_input prompt dflt w
  = Raise EOFError (add_stdout (prompt +:+ " [" +:+ dflt +:+ "]: ") w).
Proof.
  intros Hin. unfold get_input, bind, input. simpl. by rewrite Hin.
Qed.

(** With fewer lines to read than the catalog has variables, the loop runs
    into the end of the input. *)
Lemma collect_loop_eof catalog : ∀ values w,
  length (w_stdin w) < length catalog →
  ∃ w', collect_loop catalog values w = Raise EOFError w'
    ∧ w_fs w' = w_fs w ∧ w_trace w' = w_trace w ∧ w_stdin w' = [].
Proof.
  unfold collect_loop. set (body := λ (values : dict) (item : string * var_info), _).
  induction catalog as [|[k info] catalog IH]; intros values w Hlen; [simpl in Hlen; lia|].
  rewrite for_acc_cons.
  destruct (w_stdin w) as [|line rest] eqn:Hin.
  - unfold body, bind, print. rewrite get_input_eof by done. by eexists.
  - assert (∃ v w1, body values (k, info) w = Ok v w1
              ∧ w_stdin w1 = rest ∧ w_fs w1 = w_fs w ∧ w_trace w1 = w_trace w)
      as (v & w1 & -> & Hin1 & Hfs1 & Htr1).
    { unfold body, bind, print. erewrite get_input_run by done. by eexists _, _. }
    destruct (IH v w1) as (w' & -> & ? & ? & ?); [rewrite Hin1; simpl in Hlen; lia|].
    exists w'. by rewrite <-Hfs1, <-Htr1.
Qed.

(** X16.  With fewer than twelve lines to read, [main] raises [EOFError]
    during the prompts of [collect_variables]: the input is used up, and no
    file is changed and no file-system call made. *)
Theorem main_eof_before_files script w :
  length (w_stdin w) < length TEMPLATE_VARS →
  ∃ w', main script w = Raise EOFError w'
    ∧ w_fs w' = w_fs w ∧ w_trace w' = w_trace w ∧ w_stdin w' = [].
Proof.
  intros Hlen. unfold main, collect_variables.
  unfold bind at 1. unfold bind at 1. unfold print at 1.
  unfold bind at 1. unfold print at 1. unfold bind at 1. unfold print at 1.
  unfold bind at 1. unfold print at 1. unfold bind at 1. unfold print at 1.
  edestruct (collect_loop_eof TEMPLATE_VARS []) as (w' & -> & Hfs & Htr & Hin);
    [|by exists w'].
  done.
Qed.

Lemma main_eof_before_files_witness :
  ∃ w', main "setup_template.py"
          (World project_fs ["my-app"; "A tool"; "me"] [] [] no_tools)
        = Raise EOFError w'
    ∧ w_fs w' = project_fs ∧ w_trace w' = [] ∧ w_stdin w' = [].
Proof.
  apply (main_eof_before_files "setup_template.py"
           (World project_fs ["my-app"; "A tool"; "me"] [] [] no_tools)).
  simpl. lia.
Defined.

End collect_variables_more.

(** * More on templates and dictionaries *)

Section expand_facts.
Implicit Types (s t u n k v : string) (d : dict) (tpl : list item).

Lemma contains_here s t : Str.contains (s +:+ t) s = true.
Proof.
  pose proof (str_prefix_app s t) as H.
  destruct (s +:+ t); cbn [Str.contains]; by rewrite H.
Qed.

Lemma contains_app_r s t u : Str.contains t u = true → Str.contains (s +:+ t) u = true.
Proof.
  intros H. induction s as [|c s IH]; [done|].
  rewrite str_app_cons. cbn [Str.contains]. rewrite IH. apply orb_true_r.
Qed.

(** The placeholder of a name that is not configured stays in the text. *)
Lemma expand_keeps_token d tpl n :
  Tok n ∈ tpl → dict_get d n = None →
  Str.contains (expand d tpl) (Script.token n) = true.
Proof.
  intros Hin Hn. induction tpl as [|i tpl IH]; [by apply elem_of_nil in Hin|].
  change (expand d (i :: tpl)) with (expand_item d i +:+ expand d tpl).
  apply elem_of_cons in Hin as [<-|Hin].
  - simpl. rewrite Hn. apply contains_here.
  - by apply contains_app_r, IH.
Qed.

Lemma dict_get_elem d k v : NoDup d.*1 → (k, v) ∈ d → dict_get d k = Some v.
Proof.
  induction d as [|[k' v'] d IH]; [by intros _ ?%elem_of_nil|].
  simpl. intros [Hk Hnd]%NoDup_cons [[= -> ->]|Hin]%elem_of_cons.
  - by rewrite String.eqb_refl.
  - destruct (String.eqb_spec k' k) as [->|]; [|by apply IH].
    destruct Hk. apply list_elem_of_fmap. by exists (k, v).
Qed.

(** A dictionary is read by key: the order of its items does not matter. *)
Lemma dict_get_perm d d' k :
  NoDup d.*1 → d ≡ₚ d' → dict_get d k = dict_get d' k.
Proof.
  intros Hnd Hp.
  assert (NoDup d'.*1) as Hnd' by by rewrite <-Hp.
  apply option_eq. intros v. split; intros Hin%dict_get_Some.
  - apply dict_get_elem; [done|]. by rewrite <-Hp.
  - apply dict_get_elem; [done|]. by rewrite Hp.
Qed.

Lemma plain_config_perm d d' : d ≡ₚ d' → plain_config d = true → plain_config d' = true.
Proof.
  unfold plain_config. rewrite !forallb_forall. intros Hp H x Hx.
  apply H. apply list_elem_of_In. rewrite Hp. by apply list_elem_of_In.
Qed.

Lemma expand_ext d d' tpl :
  (∀ k, dict_get d k = dict_get d' k) → expand d tpl = expand d' tpl.
Proof.
  intros H. induction tpl as [|[s|n] tpl IH]; [done|..].
  - change (expand d (Lit s :: tpl)) with (s +:+ expand d tpl).
    change (expand d' (Lit s :: tpl)) with (s +:+ expand d' tpl). by rewrite IH.
  - change (expand d (Tok n :: tpl))
      with (default (Script.token n) (dict_get d n) +:+ expand d tpl).
    change (expand d' (Tok n :: tpl))
      with (default (Script.token n) (dict_get d' n) +:+ expand d' tpl).
    by rewrite IH, H.
Qed.

End expand_facts.

(** * More on [replace_in_file] *)

Section replace_in_file_more.
Import Py Script.
Implicit Types (w : world) (p : path) (d : dict) (f : file) (tpl : list item).




(** On a readable and writable file that holds a plain template, with a
    configuration free of braces, [replace_in_file] leaves the expansion of
    the template. *)
Lemma replace_in_file_plain w p f d tpl :
  Fs.entry_at (w_fs w) p = Some (EFile f) →
  f_readable f = true → f_writable f = true → f_data f = Text (render tpl) →
  plain_config d = true → plain_template tpl = true →
  ∃ b w', replace_in_file p d w = Ok b w'
    ∧ Fs.read_text p w' = Ok (expand d tpl) w'.
Proof.
  intros He Hr Hw Ht Hd Htpl.
  rewrite (replace_in_file_text p d w f (render tpl)) by done.
  rewrite substitute_render, render_resolve, Hw by done.
  case_bool_decide as Hch; eexists _, _; (split; [done|]).
  - unfold Fs.read_text. destruct p as [|c p]; [done|].
    simpl. by rewrite lookup_insert_eq.
  - unfold Fs.read_text. by rewrite He, Hr, Ht, Hch.
Qed.

(** X5.  A placeholder whose name is not configured stays: for a readable and
    writable file whose text is a plain template and a configuration whose
    names and values hold no brace, the text that [replace_in_file] leaves
    still holds the placeholder of every name of the template that the
    configuration does not have. *)
Theorem replace_in_file_keeps_unknown w p f d tpl n :
  Fs.entry_at (w_fs w) p = Some (EFile f) →
  f_readable f = true → f_writable f = true → f_data f = Text (render tpl) →
  plain_config d = true → plain_template tpl = true →
  Tok n ∈ tpl → dict_get d n = None →
  ∃ b w', replace_in_file p d w = Ok b w'
    ∧ Fs.read_text p w' = Ok (expand d tpl) w'
    ∧ Str.contains (expand d tpl) (token n) = true.
Proof.
  intros He Hr Hw Ht Hd Htpl Hin Hn.
  destruct (replace_in_file_plain w p f d tpl) as (b & w' & Hrun & Hread); [done..|].
  exists b, w'. auto using expand_keeps_token.
Qed.

Lemma replace_in_file_keeps_unknown_witness :
  ∃ b w', replace_in_file ["ci.yml"] plain_sample_config ci_world = Ok b w'
    ∧ Fs.read_text ["ci.yml"] w' = Ok "python: ${{ matrix.python }} {ok} # my-app" w'
    ∧ Str.contains "python: ${{ matrix.python }} {ok} # my-app" "{{ matrix.python }}" = true.
Proof.
  apply (replace_in_file_keeps_unknown ci_world ["ci.yml"]
           (File (Text (render ci_template)) true true)
           plain_sample_config ci_template " matrix.python "
           eq_refl eq_refl eq_refl eq_refl eq_refl eq_refl).
  - apply list_elem_of_further, list_elem_of_here.
  - reflexivity.
Defined.

(** X6.  For a text that is a plain template and a configuration with distinct
    names whose names and values hold no brace, the order of the variables
    in the configuration does not matter: every rearrangement of the
    configuration gives the same substituted text and the same run of
    [replace_in_file]. *)
Theorem replace_in_file_order_irrelevant w p f d d' tpl :
  Fs.entry_at (w_fs w) p = Some (EFile f) →
  f_readable f = true → f_data f = Text (render tpl) →
  plain_config d = true → plain_template tpl = true →
  NoDup d.*1 → d ≡ₚ d' →
  substitute d' (render tpl) = substitute d (render tpl)
  ∧ replace_in_file p d' w = replace_in_file p d w.
Proof.
  intros He Hr Ht Hd Htpl Hnd Hp.
  assert (substitute d' (render tpl) = substitute d (render tpl)) as Heq.
  { rewrite !substitute_render, !render_resolve by eauto using plain_config_perm.
    apply expand_ext. intros k. symmetry. by apply dict_get_perm. }
  split; [done|].
  rewrite !(replace_in_file_text p _ w f (render tpl)) by done. by rewrite Heq.
Qed.

Lemma replace_in_file_order_irrelevant_witness :
  substitute (reverse plain_sample_config) (render readme_template)
  = substitute plain_sample_config (render readme_template)
  ∧ replace_in_file ["README.md"] (reverse plain_sample_config) readme_world
    = replace_in_file ["README.md"] plain_sample_config readme_world.
Proof.
  apply (replace_in_file_order_irrelevant readme_world ["README.md"]
           (File (Text (render readme_template)) true true)
           plain_sample_config (reverse plain_sample_config) readme_template
           eq_refl eq_refl eq_refl eq_refl eq_refl).
  - apply (bool_decide_unpack _). by vm_compute.
  - apply perm_swap.
Defined.

End replace_in_file_more.

(** * More on [rename_directory] *)

Section rename_directory_more.
Import Py Script.
Implicit Types (w : world) (old new : string).

(** X7.  Renaming a directory and renaming it back restores the tree: for
    plain names, in a tree whose entries all lie in directories, where the
    old name exists and the new one does not, [rename_directory] from the
    old to the new name and then from the new to the old name each move
    the directory and return the path it has then, and the files are as
    they were. *)
Theorem rename_directory_round_trip old new w :
  is_name old = true → is_name new = true → old ≠ new →
  parents_closed (w_fs w) → is_Some (w_fs w !! [old]) → w_fs w !! [new] = None →
  ∃ w1 w2, rename_directory old new w = Ok (Some [new]) w1
    ∧ rename_directory new old w1 = Ok (Some [old]) w2
    ∧ w_fs w2 = w_fs w.
Proof.
  intros Hold Hnew Hne Hpc [e Ho] Hn.
  pose proof (parents_closed_free _ _ Hpc Hn) as Hfree.
  assert (∀ q, Fs.move_fs [old] [new] (w_fs w) !! (old :: q) = None) as Hgone.
  { intros q. rewrite lookup_move_fs by done. by rewrite decide_False, decide_True. }
  rewrite rename_directory_cases by done. rewrite bool_decide_false, Ho, Hn by done.
  eexists _, _. split; [done|].
  rewrite rename_directory_cases by done. rewrite bool_decide_false by done.
  cbn [w_fs set_fs add_event]. rewrite Hgone.
  rewrite (lookup_move_fs _ old new [new]) by done. rewrite decide_True, Ho by done.
  split; [done|]. cbn [w_fs set_fs add_event].
  apply map_eq. intros p. rewrite lookup_move_fs by done.
  destruct p as [|c q]; [by rewrite lookup_move_fs|].
  rewrite !lookup_move_fs by done.
  destruct (decide (c = old)) as [->|Hc].
  - by case_decide.
  - destruct (decide (c = new)) as [->|Hc']; [by rewrite Hfree|done].
Qed.

Lemma rename_directory_round_trip_witness :
  ∃ w1 w2, rename_directory "src" "app" project_world = Ok (Some ["app"]) w1
    ∧ rename_directory "app" "src" w1 = Ok (Some ["src"]) w2
    ∧ w_fs w2 = project_fs.
Proof.
  apply (rename_directory_round_trip "src" "app" project_world
           eq_refl eq_refl).
  - discriminate.
  - apply project_fs_parents_closed.
  - exists EDir. reflexivity.
  - reflexivity.
Defined.

End rename_directory_more.

(** * More on [update_file_references] *)

Section update_file_references_more.
Import Py Script.
Implicit Types (w : world) (p q : path) (pats : list (string * string)) (t : string).

(** A round of the loop prints nothing and leaves the root as it is. *)
Lemma after_update_quiet pats p w :
  w_stdout (after_update pats p w) = w_stdout w
  ∧ w_fs (after_update pats p w) !! [] = w_fs w !! [].
Proof.
  unfold after_update. destruct p as [|c p']; [done|]. cbn [Fs.entry_at].
  destruct (w_fs w !! (c :: p')) as [[[[t|raw] [] wr]|]|]; try done.
  destruct (Str.startswith (Fs.name (c :: p')) "."); [done|].
  destruct (apply_patterns pats t).2; [|done].
  destruct wr; [|done]. cbn [set_fs w_fs w_stdout add_event].
  by rewrite lookup_insert_ne.
Qed.

(** A round of the loop calls [write_text] at most once, on a readable text
    file with a visible name in which a pattern was found. *)
Lemma after_update_trace pats p w :
  w_trace (after_update pats p w) = w_trace w
  ∨ ∃ t wr, w_trace (after_update pats p w)
            = w_trace w ++ [EvWriteText p (apply_patterns pats t).1]
      ∧ w_fs w !! p = Some (EFile (File (Text t) true wr))
      ∧ Str.startswith (Fs.name p) "." = false
      ∧ (apply_patterns pats t).2 = true.
Proof.
  unfold after_update. destruct p as [|c p']; [by left|]. cbn [Fs.entry_at].
  destruct (w_fs w !! (c :: p')) as [[[[t|raw] [] wr]|]|] eqn:He; try by left.
  destruct (Str.startswith (Fs.name (c :: p')) ".") eqn:Hh; [by left|].
  destruct (apply_patterns pats t).2 eqn:Hm; [|by left].
  right. exists t, wr. by destruct wr.
Qed.

(** The calls of the whole loop, over distinct paths. *)
Lemma for_update_file_trace pats l : ∀ w, NoDup l →
  ∃ w' evs, for_ l (update_file pats) w = Ok () w'
    ∧ w_stdout w' = w_stdout w
    ∧ w_fs w' !! [] = w_fs w !! []
    ∧ w_trace w' = w_trace w ++ evs
    ∧ NoDup evs
    ∧ ∀ e, e ∈ evs →
        ∃ p t wr, p ∈ l ∧ e = EvWriteText p (apply_patterns pats t).1
          ∧ w_fs w !! p = Some (EFile (File (Text t) true wr))
          ∧ Str.startswith (Fs.name p) "." = false
          ∧ (apply_patterns pats t).2 = true.
Proof.
  induction l as [|p l IH]; intros w Hnd.
  - exists w, []. rewrite app_nil_r. do 4 (split; [done|]).
    split; [constructor|]. by intros e ?%elem_of_nil.
  - apply NoDup_cons in Hnd as [Hp Hnd]. rewrite for_cons, update_file_run.
    destruct (IH (after_update pats p w) Hnd)
      as (w' & evs & -> & Hout & Hroot & Htr & Hnd' & Hevs).
    destruct (after_update_quiet pats p w) as [Hout1 Hroot1].
    assert (∀ e, e ∈ evs →
              ∃ p' t wr, p' ∈ l ∧ e = EvWriteText p' (apply_patterns pats t).1
                ∧ w_fs w !! p' = Some (EFile (File (Text t) true wr))
                ∧ Str.startswith (Fs.name p') "." = false
                ∧ (apply_patterns pats t).2 = true) as Hevs'.
    { intros e (p' & t & wr & Hin & -> & He & Hh & Hm)%Hevs.
      exists p', t, wr. split; [done|]. split; [done|]. split; [|done].
      rewrite <-He. symmetry. apply after_update_fs. by intros ->. }
    destruct (after_update_trace pats p w) as [Hsame|(t & wr & Hone & He & Hh & Hm)].
    + exists w', evs. split; [done|]. split; [congruence|]. split; [congruence|].
      split; [congruence|]. split; [done|].
      intros e (p' & t & wr & Hin & ?)%Hevs'. exists p', t, wr.
      split; [by apply list_elem_of_further|done].
    + exists w', (EvWriteText p (apply_patterns pats t).1 :: evs).
      split; [done|]. split; [congruence|]. split; [congruence|].
      split; [by rewrite Htr, Hone, <-app_assoc|]. split.
      * apply NoDup_cons. split; [|done].
        intros (p' & t' & wr' & Hin & [= <- _] & _)%Hevs'. done.
      * intros e [->|Hin]%elem_of_cons.
        -- exists p, t, wr. split; [apply list_elem_of_here|done].
        -- destruct (Hevs' e Hin) as (p' & t' & wr' & Hin' & ?).
           exists p', t', wr'. split; [by apply list_elem_of_further|done].
Qed.

(** What [update_file_references] does, all in one. *)
Lemma update_file_references_run old new w :
  old ≠ new →
  ∃ w' evs, update_file_references old new w = Ok () w'
    ∧ w_stdout w' = w_stdout w ∧ w_stdin w' = w_stdin w
    ∧ w_fs w' !! [] = w_fs w !! []
    ∧ (∀ q, q ≠ [] →
         w_fs w' !! q = rewritten (patterns old new) (Fs.name q) <$> w_fs w !! q)
    ∧ w_trace w' = w_trace w ++ evs
    ∧ NoDup evs
    ∧ ∀ e, e ∈ evs →
        ∃ p t wr, e = EvWriteText p (apply_patterns (patterns old new) t).1
          ∧ w_fs w !! p = Some (EFile (File (Text t) true wr))
          ∧ Str.startswith (Fs.name p) "." = false
          ∧ (apply_patterns (patterns old new) t).2 = true.
Proof.
  intros Hne.
  destruct (update_file_references_fs old new w Hne) as (w' & Hrun & [Hin _] & Hfs).
  pose proof Hrun as Hrun'. unfold update_file_references in Hrun'.
  rewrite bool_decide_false in Hrun' by done. unfold bind, Fs.rglob in Hrun'.
  destruct (for_update_file_trace (patterns old new) (map_to_list (w_fs w)).*1 w)
    as (w'' & evs & Hrun'' & Hout & Hroot & Htr & Hnd & Hevs);
    [apply NoDup_fst_map_to_list|].
  rewrite Hrun'' in Hrun'. injection Hrun' as ->.
  exists w', evs. do 5 (split; [done|]). split; [done|]. split; [done|].
  intros e (p & t & wr & _ & ?)%Hevs. by exists p, t, wr.
Qed.

(** The flag [modified] is set exactly when a pattern occurs in the text
    read: the first pattern that is found is found in that text. *)
Lemma apply_patterns_found pats t :
  (apply_patterns pats t).2 = true →
  ∃ pat, pat ∈ pats.*1 ∧ Str.contains t pat = true.
Proof.
  unfold apply_patterns.
  induction pats as [|[a b] pats IH]; [done|]. simpl.
  destruct (Str.contains t a) eqn:Ha.
  - intros _. exists a. split; [apply list_elem_of_here|done].
  - intros (pat & Hin & Hc)%IH. exists pat. split; [by apply list_elem_of_further|done].
Qed.

Lemma apply_patterns_none pats t :
  (∀ pat, pat ∈ pats.*1 → Str.contains t pat = false) →
  apply_patterns pats t = (t, false).
Proof.
  unfold apply_patterns.
  induction pats as [|[a b] pats IH]; [done|]. intros H. simpl.
  rewrite (H a) by apply list_elem_of_here.
  apply IH. intros pat Hin. by apply H, list_elem_of_further.
Qed.

Lemma prefix_has_char a s t :
  String.prefix s t = true → has_char a s = true → has_char a t = true.
Proof.
  revert t; induction s as [|c s IH]; intros [|d t]; try done. simpl.
  destruct (ascii_dec c d) as [->|]; [|done].
  intros Hp [Hc|Hs]%orb_true_iff; [by rewrite Hc|].
  rewrite (IH t) by done. apply orb_true_r.
Qed.

(** A string occurs only in texts that hold each of its characters. *)
Lemma contains_has_char a s t :
  has_char a s = true → has_char a t = false → Str.contains t s = false.
Proof.
  intros Hs. induction t as [|c t IH]; intros Ht.
  - destruct s; [done|]. done.
  - cbn [Str.contains]. apply orb_false_iff. split.
    + apply not_true_is_false. intros Hp.
      by rewrite (prefix_has_char a s (String c t)) in Ht.
    + apply IH. cbn [has_char] in Ht. by apply orb_false_iff in Ht as [_ ?].
Qed.

(** Each of the four patterns holds a slash or a quote. *)
Lemma patterns_bare old new t :
  has_char "/" t = false → has_char "034" t = false → has_char "'" t = false →
  apply_patterns (patterns old new) t = (t, false).
Proof.
  intros Hs Hd Hq. apply apply_patterns_none. intros pat Hin.
  unfold patterns in Hin. cbn [fmap list_fmap fst] in Hin.
  repeat (apply elem_of_cons in Hin as [->|Hin]); [..|by apply elem_of_nil in Hin].
  - apply (contains_has_char "/"); [|done]. rewrite has_char_app. apply orb_true_r.
  - apply (contains_has_char "/"); [|done]. rewrite !has_char_app.
    by rewrite !orb_true_r.
  - apply (contains_has_char "034"); [|done]. unfold DQUOTE. by rewrite has_char_app.
  - apply (contains_has_char "'"); [|done]. by rewrite has_char_app.
Qed.

(** X8.  [update_file_references] always returns; it prints nothing and reads
    nothing, it creates and removes no entry, and it leaves as they are
    every directory, every file whose name starts with a dot, and every
    file that cannot be read, cannot be written or does not decode as
    text. *)
Theorem update_file_references_frame old new w :
  ∃ w', update_file_references old new w = Ok () w'
    ∧ w_stdout w' = w_stdout w ∧ w_stdin w' = w_stdin w
    ∧ (∀ q, w_fs w' !! q = None ↔ w_fs w !! q = None)
    ∧ (∀ q e, w_fs w !! q = Some e →
         e = EDir ∨ Str.startswith (Fs.name q) "." = true
         ∨ (∃ f, e = EFile f
              ∧ (f_readable f = false ∨ f_writable f = false
                 ∨ ∃ raw, f_data f = Undecodable raw)) →
         w_fs w' !! q = Some e).
Proof.
  destruct (decide (old = new)) as [Heq|Hne].
  - exists w. unfold update_file_references. by rewrite bool_decide_true by done.
  - destruct (update_file_references_run old new w Hne)
      as (w' & evs & Hrun & Hout & Hin & Hroot & Hfs & _).
    exists w'. do 3 (split; [done|]). split.
    + intros [|c q]; [by rewrite Hroot|]. rewrite Hfs by done.
      by destruct (w_fs w !! (c :: q)).
    + intros [|c q] e He Hcase; [by rewrite Hroot|]. rewrite Hfs, He by done.
      simpl. f_equal. unfold rewritten.
      destruct Hcase as [->|[Hh|(f & -> & Hf)]]; [done|..].
      * destruct e as [[[t|raw] [] []]|]; try done. by rewrite Hh.
      * destruct f as [[t|raw] [] []]; try done; simpl in Hf;
          destruct Hf as [?|[?|[? ?]]]; done.
Qed.

(** X9.  Each of the four patterns holds a slash or a quote: a text file in whose
    text no slash, no double quote and no single quote occurs, such as one
    that names the directory only as a module ([from src.main import
    main]), is left as it is by [update_file_references] and is not
    written. *)
Theorem update_file_references_bare_names old new w p f t :
  w_fs w !! p = Some (EFile f) → f_data f = Text t →
  has_char "/" t = false → has_char "034" t = false → has_char "'" t = false →
  ∃ w' evs, update_file_references old new w = Ok () w'
    ∧ w_fs w' !! p = Some (EFile f)
    ∧ w_trace w' = w_trace w ++ evs
    ∧ ∀ s, EvWriteText p s ∉ evs.
Proof.
  intros He Ht Hs Hd Hq.
  pose proof (patterns_bare old new t Hs Hd Hq) as Hbare.
  destruct (decide (old = new)) as [Heq|Hne].
  - exists w, []. unfold update_file_references. rewrite bool_decide_true by done.
    rewrite app_nil_r. do 3 (split; [done|]). intros s. apply not_elem_of_nil.
  - destruct (update_file_references_run old new w Hne)
      as (w' & evs & Hrun & _ & _ & Hroot & Hfs & Htr & _ & Hevs).
    exists w', evs. split; [done|]. split; [|split; [done|]].
    + destruct p as [|c q]; [by rewrite Hroot|]. rewrite Hfs, He by done.
      simpl. f_equal. destruct f as [d [] []]; simpl in Ht; subst d; try done.
      simpl. rewrite Hbare. by destruct (Str.startswith _ _).
    + intros s (p' & t' & wr & [= <- _] & He' & _ & Hm)%Hevs.
      rewrite He in He'. injection He' as Hf. rewrite Hf in Ht. simpl in Ht.
      injection Ht as ->. by rewrite Hbare in Hm.
Qed.

Lemma update_file_references_bare_names_witness :
  ∃ w' evs, update_file_references "src" "app" project_world = Ok () w'
    ∧ w_fs w' !! ["tests"; "test_main.py"] = Some (text_file "from src.main import main")
    ∧ w_trace w' = [] ++ evs
    ∧ ∀ s, EvWriteText ["tests"; "test_main.py"] s ∉ evs.
Proof.
  exact (update_file_references_bare_names "src" "app" project_world
           ["tests"; "test_main.py"] (File (Text "from src.main import main") true true)
           "from src.main import main" eq_refl eq_refl eq_refl eq_refl eq_refl).
Defined.

(** X10.  [update_file_references] writes back only files that it had to
    rewrite: its calls of [write_text] are all distinct, and each one is
    made on a readable text file whose name does not start with a dot, in
    whose text one of the four patterns occurs, with the text that the
    patterns make of it. *)
Theorem update_file_references_writes old new w :
  ∃ w' evs, update_file_references old new w = Ok () w'
    ∧ w_trace w' = w_trace w ++ evs
    ∧ NoDup evs
    ∧ ∀ e, e ∈ evs →
        ∃ p t wr, e = EvWriteText p (apply_patterns (patterns old new) t).1
          ∧ w_fs w !! p = Some (EFile (File (Text t) true wr))
          ∧ Str.startswith (Fs.name p) "." = false
          ∧ ∃ pat, pat ∈ (patterns old new).*1 ∧ Str.contains t pat = true.
Proof.
  destruct (decide (old = new)) as [Heq|Hne].
  - exists w, []. unfold update_file_references. rewrite bool_decide_true by done.
    rewrite app_nil_r. do 2 (split; [done|]). split; [constructor|].
    by intros e ?%elem_of_nil.
  - destruct (update_file_references_run old new w Hne)
      as (w' & evs & Hrun & _ & _ & _ & _ & Htr & Hnd & Hevs).
    exists w', evs. do 3 (split; [done|]).
    intros e (p & t & wr & -> & He & Hh & Hm)%Hevs.
    exists p, t, wr. auto using apply_patterns_found.
Qed.

End update_file_references_more.

(** * The external commands *)

Section external_commands.
Import Py Script.
Implicit Types (w : world).

(** X11.  [init_git_repo] and [install_pre_commit] launch their command once.
    They return [True] exactly when the command exits with status zero and
    [False] when it exits with another status or is not found; the only
    exception they let through is the [PermissionError] of a launch that
    the system refuses. *)
Theorem external_command_outcomes w :
  (∀ b w', init_git_repo w = Ok b w' →
     w' = add_event (EvRun ["git"; "init"]) w
     ∧ (b = true ↔ w_tool w ["git"; "init"] = ExitZero))
  ∧ (∀ e w', init_git_repo w = Raise e w' →
     e = PermissionError ∧ w_tool w ["git"; "init"] = ToolDenied)
  ∧ (∀ b w', install_pre_commit w = Ok b w' →
     w' = add_event (EvRun ["pre-commit"; "install"]) w
     ∧ (b = true ↔ w_tool w ["pre-commit"; "install"] = ExitZero))
  ∧ (∀ e w', install_pre_commit w = Raise e w' →
     e = PermissionError ∧ w_tool w ["pre-commit"; "install"] = ToolDenied).
Proof.
  unfold init_git_repo, install_pre_commit, try_except, bind, Fs.run, ret.
  split; [|split; [|split]].
  - intros b w'. destruct (w_tool w ["git"; "init"]); simpl; intros [= <- <-]; by split.
  - intros e w'. by destruct (w_tool w ["git"; "init"]); simpl; intros [= <- <-].
  - intros b w'. destruct (w_tool w ["pre-commit"; "install"]); simpl;
      intros [= <- <-]; by split.
  - intros e w'. by destruct (w_tool w ["pre-commit"; "install"]); simpl; intros [= <- <-].
Qed.

End external_commands.

(** * The renaming steps of [main] *)

Section rename_step_facts.
Import Py Script.
Implicit Types (w : world) (old new : string) (pats : list (string * string)).

(** While the flag [modified] is not set the content is the text read. *)
Lemma apply_patterns_unmodified pats t :
  (apply_patterns pats t).2 = false → (apply_patterns pats t).1 = t.
Proof.
  unfold apply_patterns.
  induction pats as [|[a b] pats IH]; [done|]. simpl.
  destruct (Str.contains t a); [|done].
  by rewrite apply_patterns_stay.
Qed.

Lemma rewritten_text pats nm t :
  Str.startswith nm "." = false →
  rewritten pats nm (EFile (File (Text t) true true))
  = EFile (File (Text (apply_patterns pats t).1) true true).
Proof.
  intros Hh. unfold rewritten. rewrite Hh.
  destruct (apply_patterns pats t).2 eqn:Hm; [done|].
  by rewrite apply_patterns_unmodified.
Qed.

(** X13.  A renaming step of [main] that succeeds moves the directory and then
    rewrites the references everywhere: for plain names, in a tree whose
    entries all lie in directories, where the old name exists and the new
    one does not, the step reports the rename, nothing is left under the
    old name, and every readable and writable text file with a visible
    name, whether it moved with the directory or lies elsewhere, holds the
    text that the four patterns make of its text. *)
Theorem rename_step_rewrites values old key new w :
  dict_get values key = Some new →
  is_name old = true → is_name new = true → old ≠ new →
  parents_closed (w_fs w) → is_Some (w_fs w !! [old]) → w_fs w !! [new] = None →
  ∃ w', rename_step values old key w = Ok () w'
    ∧ w_stdout w' = w_stdout w ++ [("  Renamed: " +:+ old +:+ " -> " +:+ new) +:+ NL]
    ∧ (∀ q, w_fs w' !! (old :: q) = None)
    ∧ (∀ q t, w_fs w !! (old :: q) = Some (EFile (File (Text t) true true)) →
         Str.startswith (Fs.name (new :: q)) "." = false →
         w_fs w' !! (new :: q)
         = Some (EFile (File (Text (apply_patterns (patterns old new) t).1) true true)))
    ∧ (∀ c q t, c ≠ old →
         w_fs w !! (c :: q) = Some (EFile (File (Text t) true true)) →
         Str.startswith (Fs.name (c :: q)) "." = false →
         w_fs w' !! (c :: q)
         = Some (EFile (File (Text (apply_patterns (patterns old new) t).1) true true))).
Proof.
  intros Hget Hold Hnew Hne Hpc [e Ho] Hn.
  pose proof (parents_closed_free _ _ Hpc Hn) as Hfree.
  unfold rename_step, getitem. rewrite Hget.
  unfold bind at 1. unfold ret at 1. rewrite bool_decide_true by done.
  unfold bind at 1. rewrite rename_directory_cases by done.
  rewrite bool_decide_false, Ho, Hn by done.
  unfold bind at 1. unfold print at 1.
  set (w2 := add_stdout _ _).
  destruct (update_file_references_run old new w2 Hne)
    as (w' & evs & -> & Hout & _ & _ & Hfs & _).
  exists w'. split; [done|]. split; [by rewrite Hout|].
  assert (∀ q, q ≠ [] →
            w_fs w' !! q
            = rewritten (patterns old new) (Fs.name q)
                <$> Fs.move_fs [old] [new] (w_fs w) !! q) as Hfs' by apply Hfs.
  split; [|split].
  - intros q. rewrite Hfs', lookup_move_fs by done.
    by rewrite decide_False, decide_True by done.
  - intros q t He Hh. rewrite Hfs', lookup_move_fs by done.
    rewrite decide_True, He by done.
    cbn [fmap option_fmap option_map]. by rewrite rewritten_text.
  - intros c q t Hc He Hh. rewrite Hfs', lookup_move_fs by done.
    rewrite decide_False; [|intros ->; by rewrite Hfree in He].
    rewrite decide_False, He by done.
    cbn [fmap option_fmap option_map]. by rewrite rewritten_text.
Qed.

Lemma rename_step_rewrites_witness :
  ∃ w', rename_step moved_config "src" "SOURCE_DIR" project_world = Ok () w'
    ∧ w_stdout w' = [] ++ [("  Renamed: " +:+ "src" +:+ " -> " +:+ "app") +:+ NL]
    ∧ (∀ q, w_fs w' !! ("src" :: q) = None)
    ∧ (∀ q t, project_fs !! ("src" :: q) = Some (EFile (File (Text t) true true)) →
         Str.startswith (Fs.name ("app" :: q)) "." = false →
         w_fs w' !! ("app" :: q)
         = Some (EFile (File (Text (apply_patterns (patterns "src" "app") t).1) true true)))
    ∧ (∀ c q t, c ≠ "src" →
         project_fs !! (c :: q) = Some (EFile (File (Text t) true true)) →
         Str.startswith (Fs.name (c :: q)) "." = false →
         w_fs w' !! (c :: q)
         = Some (EFile (File (Text (apply_patterns (patterns "src" "app") t).1) true true))).
Proof.
  apply (rename_step_rewrites moved_config "src" "SOURCE_DIR" "app" project_world
           eq_refl eq_refl eq_refl).
  - discriminate.
  - apply project_fs_parents_closed.
  - exists EDir. reflexivity.
  - reflexivity.
Defined.

(** The run of the witness: the document that mentions the directory is
    rewritten where it lies, the module that moved is found under the new
    name. *)
Example rename_step_project :
  ∃ w', rename_step moved_config "src" "SOURCE_DIR" project_world = Ok () w'
    ∧ w_fs w' !! ["README.md"] = Some (text_file "See app/main.py")
    ∧ w_fs w' !! ["app"; "main.py"] = Some (text_file "print('hello')")
    ∧ w_fs w' !! ["src"; "main.py"] = None.
Proof.
  eexists. split; [vm_compute; reflexivity|].
  split; [|split]; vm_compute; reflexivity.
Qed.

End rename_step_facts.

(** * The count of [main] *)

Section process_files_facts.
Import Py Script.
Implicit Types (w : world) (values : dict) (n : nat) (out : list string).

Lemma updates_app out1 out2 : updates (out1 ++ out2) = updates out1 + updates out2.
Proof. unfold updates. by rewrite List.filter_app, length_app. Qed.

(** What [replace_in_file] prints is at most its warning. *)
Lemma replace_in_file_out p d w :
  ∃ b w' out, replace_in_file p d w = Ok b w'
    ∧ w_stdout w' = w_stdout w ++ out ∧ updates out = 0.
Proof.
  unfold replace_in_file, try_except, bind, ret, print, Fs.read_text, Fs.write_text.
  assert (∀ e, updates [("  Warning: Could not process " +:+ Fs.str p +:+ ": "
                         +:+ exn_str e) +:+ String "010" EmptyString] = 0) as Hw by done.
  assert (∀ (b : bool) w', w_stdout w' = w_stdout w →
            ∃ b0 w0 out, Ok b w' = Ok b0 w0
              ∧ w_stdout w0 = w_stdout w ++ out ∧ updates out = 0) as Hnone.
  { intros b w' Heq. exists b, w', []. by rewrite app_nil_r. }
  assert (∀ (b : bool) w' e, w_stdout w' = w_stdout w →
            ∃ b0 w0 out,
              Ok b (add_stdout (("  Warning: Could not process " +:+ Fs.str p +:+ ": "
                                 +:+ exn_str e) +:+ String "010" EmptyString) w')
              = Ok b0 w0
              ∧ w_stdout w0 = w_stdout w ++ out ∧ updates out = 0) as Hone.
  { intros b w' e Heq. eexists _, _, _. split; [done|]. simpl. rewrite Heq. by split. }
  destruct (Fs.entry_at (w_fs w) p) as [[f|]|] eqn:He; [|by apply Hone..].
  destruct (f_readable f); [|by apply Hone].
  destruct (f_data f); [|by apply Hone].
  case_bool_decide; [|by apply Hnone]. simpl. rewrite He.
  destruct (f_writable f); [by apply Hnone|by apply Hone].
Qed.

Lemma process_target_count values sd td n rel w :
  dict_get values "SOURCE_DIR" = Some sd → dict_get values "TEST_DIR" = Some td →
  ∃ n' w' out, process_target values n rel w = Ok n' w'
    ∧ w_stdout w' = w_stdout w ++ out ∧ n' = n + updates out ∧ n' ≤ n + 1.
Proof.
  intros Hsd Htd.
  assert (∀ p (shown : string),
    ∃ n' w' out,
      (modified <- replace_in_file p values ;;
       if modified : bool then print ("  Updated: " +:+ shown) ;;; ret (n + 1)
       else ret n) w = Ok n' w'
      ∧ w_stdout w' = w_stdout w ++ out ∧ n' = n + updates out ∧ n' ≤ n + 1) as Hrun.
  { intros p shown. unfold bind at 1.
    destruct (replace_in_file_out p values w) as (b & w1 & out & -> & Hout & Hup).
    destruct b.
    - eexists _, _, (out ++ [("  Updated: " +:+ shown) +:+ String "010" EmptyString]).
      split; [done|]. simpl. rewrite Hout, <-app_assoc. split; [done|].
      rewrite updates_app, Hup.
      assert (updates [("  Updated: " +:+ shown) +:+ String "010" EmptyString] = 1)
        as ->.
      { unfold updates. cbn [List.filter]. unfold Str.startswith.
        by rewrite str_app_assoc, str_prefix_app. }
      split; lia.
    - exists n, w1, out. split; [done|]. split; [done|]. rewrite Hup. split; lia. }
  unfold process_target. unfold bind at 1. unfold Fs.exists_ at 1.
  destruct (Fs.entry_at (w_fs w) (Fs.path_of rel)); [by apply Hrun|].
  unfold bind at 1. rewrite (fallback_path_run values sd td rel w Hsd Htd).
  unfold bind at 1. unfold Fs.exists_ at 1.
  destruct (Fs.entry_at (w_fs w) (Fs.path_of _)); [by apply Hrun|].
  exists n, w, []. rewrite app_nil_r. split; [done|]. split; [done|].
  unfold updates. simpl. split; lia.
Qed.

Lemma for_process_target_count values sd td l : ∀ n w,
  dict_get values "SOURCE_DIR" = Some sd → dict_get values "TEST_DIR" = Some td →
  ∃ n' w' out, for_acc l n (process_target values) w = Ok n' w'
    ∧ w_stdout w' = w_stdout w ++ out ∧ n' = n + updates out ∧ n' ≤ n + length l.
Proof.
  induction l as [|rel l IH]; intros n w Hsd Htd.
  - exists n, w, []. rewrite app_nil_r. split; [done|]. split; [done|].
    unfold updates. simpl. split; lia.
  - rewrite for_acc_cons.
    destruct (process_target_count values sd td n rel w Hsd Htd)
      as (n1 & w1 & out1 & -> & Hout1 & Hn1 & Hle1).
    destruct (IH n1 w1 Hsd Htd) as (n' & w' & out & -> & Hout & Hn & Hle).
    exists n', w', (out1 ++ out). split; [done|].
    split; [by rewrite Hout, Hout1, <-app_assoc|].
    rewrite updates_app. simpl. split; lia.
Qed.

(** X12.  The count that the first loop of [main] reports is the number of
    files it reported as updated: with both directory names configured,
    [process_files] returns a count [n], the last line it prints is
    [Modified n files], [n] is the number of [Updated:] lines it printed
    before, and [n] is at most the number of listed files. *)
Theorem process_files_count values w :
  is_Some (dict_get values "SOURCE_DIR") → is_Some (dict_get values "TEST_DIR") →
  ∃ n w' out, process_files values w = Ok n w'
    ∧ w_stdout w'
      = w_stdout w ++ out ++ [(NL +:+ "  Modified " +:+ Str.of_nat n +:+ " files") +:+ NL]
    ∧ n = updates out
    ∧ n ≤ length FILES_TO_PROCESS.
Proof.
  intros [sd Hsd] [td Htd]. unfold process_files. unfold bind at 1.
  destruct (for_process_target_count values sd td FILES_TO_PROCESS 0 w Hsd Htd)
    as (n & w1 & out & -> & Hout & Hn & Hle).
  exists n, (add_stdout ((NL +:+ "  Modified " +:+ Str.of_nat n +:+ " files") +:+ NL) w1), out.
  split; [done|]. cbn [w_stdout add_stdout]. rewrite Hout, <-app_assoc.
  split; [done|]. split; lia.
Qed.

Lemma process_files_count_witness :
  ∃ n w' out, process_files moved_config moved_world = Ok n w'
    ∧ w_stdout w'
      = [] ++ out ++ [(NL +:+ "  Modified " +:+ Str.of_nat n +:+ " files") +:+ NL]
    ∧ n = updates out
    ∧ n ≤ length FILES_TO_PROCESS.
Proof.
  apply (process_files_count moved_config moved_world).
  - by eexists.
  - by eexists.
Defined.

End process_files_facts.

(** * The questions of [main] *)

Lemma returns_conseq {A} (P P' : world → Prop) (Q Q' : A → world → Prop) (m : Py.t A) :
  (∀ w, P' w → P w) → (∀ a w, Q a w → Q' a w) → returns P m Q → returns P' m Q'.
Proof.
  intros HP HQ Hm w Hw. destruct (Hm w (HP w Hw)) as (a & w' & Hrun & Hq).
  exists a, w'. auto.
Qed.

Section main_steps_facts.
Import Py Script.
Variable script : string.
Hypothesis script_name : is_name script = true.
Hypothesis script_not_src : script ≠ "src".
Hypothesis script_not_tests : script ≠ "tests".
Variable t0 : list event.
Implicit Types (w : world) (l : list string) (G : list event)
  (T : list event → Prop) (F : option entry → Prop).

Lemma affirmative_answer line : affirmative (answer line "yes") = consents line.
Proof.
  unfold affirmative, consents, answer.
  destruct (Str.strip line) as [|c r] eqn:Hs.
  - by rewrite bool_decide_true by by left.
  - apply bool_decide_ext. rewrite elem_of_cons, list_elem_of_singleton.
    split; [by right|]. by intros [|].
Qed.

Lemma poised_conseq l T T' F F' w :
  (∀ t, T t → T' t) → (∀ o, F o → F' o) →
  poised script l T F w → poised script l T' F' w.
Proof. intros HT HF (? & ? & ? & ?). unfold poised. auto. Qed.

Lemma traced_event G e t : traced t0 G t → traced t0 (G ++ [e]) (t ++ [e]).
Proof.
  intros (evs & -> & Hall). exists evs. split; [|done]. by rewrite <-!app_assoc.
Qed.

Lemma traced_none G t : traced t0 G t → traced t0 (G ++ []) t.
Proof. by rewrite app_nil_r. Qed.

Lemma poised_print l T F s :
  returns (poised script l T F) (print s) (λ _, poised script l T F).
Proof. intros w Hw. by eexists _, _. Qed.

Lemma poised_get_input l T F line prompt dflt :
  returns (poised script (line :: l) T F) (get_input prompt dflt)
    (λ v w, poised script l T F w ∧ v = answer line dflt).
Proof.
  intros w (Hin & Htool & Ht & Hf). rewrite (get_input_run _ _ line l) by done.
  eexists _, _. split; [done|]. by split.
Qed.

(** The steps that read no line and change files only. *)
Lemma poised_files {A} l (m : t A) :
  returns (ready script 0) m (λ _, ready script 0) →
  keeps (λ w, w_stdin w = l ∧ grows file_change t0 w) m →
  returns (poised script l (traced t0 []) a_file) m
    (λ _, poised script l (traced t0 []) a_file).
Proof.
  intros Hr Hk w (Hin & Htool & (evs & Ht & Hall) & Hf).
  destruct (Hr w) as (a & w' & Hrun & (_ & Htool' & Hf')).
  { split; [lia|]. split; [done|]. exact Hf. }
  assert (w_stdin w = l ∧ grows file_change t0 w) as HI.
  { split; [done|]. exists evs. by rewrite app_nil_r in Ht. }
  specialize (Hk w HI). rewrite Hrun in Hk. destruct Hk as (Hin' & evs' & Ht' & Hall').
  exists a, w'. split; [done|]. split; [done|]. split; [done|]. split; [|exact Hf'].
  exists evs'. by rewrite app_nil_r.
Qed.

Lemma keeps_quiet_out l s w :
  w_stdin w = l ∧ grows file_change t0 w →
  w_stdin (add_stdout s w) = l ∧ grows file_change t0 (add_stdout s w).
Proof. done. Qed.

Lemma keeps_quiet_fs l fs w :
  w_stdin w = l ∧ grows file_change t0 w →
  w_stdin (set_fs fs w) = l ∧ grows file_change t0 (set_fs fs w).
Proof. done. Qed.

Lemma keeps_quiet_event l e w :
  file_change e → w_stdin w = l ∧ grows file_change t0 w →
  w_stdin (add_event e w) = l ∧ grows file_change t0 (add_event e w).
Proof. intros He [Hin Hg]. split; [done|]. by apply grows_event. Qed.

Lemma poised_process_files l values :
  is_Some (dict_get values "SOURCE_DIR") → is_Some (dict_get values "TEST_DIR") →
  returns (poised script l (traced t0 []) a_file) (process_files values)
    (λ _, poised script l (traced t0 []) a_file).
Proof.
  intros Hsd Htd. apply poised_files.
  - by apply returns_process_files.
  - apply (keeps_process_files _ file_change);
      auto using keeps_quiet_out, keeps_quiet_fs, keeps_quiet_event.
    done.
Qed.

Lemma poised_rename_step l values old key new :
  script ≠ old → is_name old = true →
  dict_get values key = Some new → is_name new = true →
  returns (poised script l (traced t0 []) a_file) (rename_step values old key)
    (λ _, poised script l (traced t0 []) a_file).
Proof.
  intros Hold Hname Hget Hnew. apply poised_files.
  - by eapply returns_rename_step.
  - apply (keeps_rename_step _ file_change);
      auto using keeps_quiet_out, keeps_quiet_fs, keeps_quiet_event; done.
Qed.

Lemma poised_init_git_repo l G F :
  returns (poised script l (traced t0 G) F) init_git_repo
    (λ _, poised script l (traced t0 (G ++ [EvRun ["git"; "init"]])) F).
Proof.
  intros w (Hin & Htool & Ht & Hf).
  unfold init_git_repo, try_except, bind, Fs.run, ret.
  destruct (w_tool w ["git"; "init"]) eqn:Hg; simpl;
    [eexists _, _; split; [done|]; repeat split; try done; by apply traced_event..|].
  by destruct (Htool ["git"; "init"]).
Qed.

Lemma poised_install_pre_commit l G F :
  returns (poised script l (traced t0 G) F) install_pre_commit
    (λ _, poised script l (traced t0 (G ++ [EvRun ["pre-commit"; "install"]])) F).
Proof.
  intros w (Hin & Htool & Ht & Hf).
  unfold install_pre_commit, try_except, bind, Fs.run, ret.
  destruct (w_tool w ["pre-commit"; "install"]) eqn:Hg; simpl;
    [eexists _, _; split; [done|]; repeat split; try done; by apply traced_event..|].
  by destruct (Htool ["pre-commit"; "install"]).
Qed.

Lemma poised_unlink l G :
  returns (poised script l (traced t0 G) a_file) (Fs.unlink (Fs.path_of script))
    (λ _, poised script l (traced t0 (G ++ [EvUnlink [script]])) (λ o, o = None)).
Proof.
  intros w (Hin & Htool & Ht & f & Hf). rewrite path_of_name by done.
  unfold Fs.unlink. cbn [Fs.entry_at]. rewrite Hf.
  eexists _, _. split; [done|]. split; [done|]. split; [done|].
  split; [by apply traced_event|]. simpl. apply lookup_delete_eq.
Qed.

(** The prompts of [collect_variables], from a fresh start. *)
Lemma poised_collect_variables ins l :
  length ins = length TEMPLATE_VARS → 3 ≤ length l →
  returns (λ w, (w_stdin w = ins ++ l ∧ names_answered w)
                ∧ poised script (ins ++ l) (λ t, t = t0) a_file w)
    collect_variables
    (λ vs w, poised script l (traced t0 []) a_file w ∧ configured vs).
Proof.
  intros Hlen Hl w [[Hin Hnames] (_ & Htool & Ht & Hf)].
  destruct (returns_collect_variables script w) as (vs & w' & Hrun & _ & Hconf).
  { split; [|done]. split; [|by split].
    rewrite Hin, length_app, Hlen. simpl. lia. }
  destruct (collect_variables_answers ins l w Hin Hlen)
    as (w'' & Hrun' & Hin' & Hfs' & Htool').
  rewrite Hrun in Hrun'. injection Hrun' as -> <-.
  exists (answers_of TEMPLATE_VARS ins []), w'. split; [done|]. split; [|done].
  split; [done|]. split; [by rewrite Htool'|]. split; [|by rewrite Hfs'].
  exists []. split; [|done]. rewrite !app_nil_r.
  pose proof (keeps_collect_variables (λ w1, w_trace w1 = t0)) as Hk.
  specialize (Hk (λ _ _ H, H) (λ _ _ H, H) w Ht). by rewrite Hrun in Hk.
Qed.

(** The run of [main], step by step. *)
Lemma main_steps ins a b c rest :
  length ins = length TEMPLATE_VARS →
  returns (λ w, (w_stdin w = ins ++ a :: b :: c :: rest ∧ names_answered w)
                ∧ poised script (ins ++ a :: b :: c :: rest) (λ t, t = t0) a_file w)
    (main script)
    (λ code w,
       poised script rest
         (traced t0
            ((([] ++ (if consents a then [EvRun ["git"; "init"]] else []))
              ++ (if consents b then [EvRun ["pre-commit"; "install"]] else []))
             ++ (if consents c then [EvUnlink [script]] else [])))
         (λ o, if consents c then o = None else a_file o) w
       ∧ code = 0%Z).
Proof.
  intros Hlen. unfold main.
  eapply returns_bind; [apply poised_collect_variables; [done|simpl; lia]|].
  intros values. cbv beta. apply returns_pure.
  intros ((sd & Hsd & Hsdn) & (td & Htd & Htdn) & [name Hname]).
  do 3 (eapply returns_bind; [apply poised_print|]; intros []; cbv beta).
  eapply returns_bind; [apply poised_process_files; by eexists|].
  intros count. cbv beta.
  eapply returns_bind; [by apply (poised_rename_step _ _ _ _ sd)|]. intros []. cbv beta.
  eapply returns_bind; [by apply (poised_rename_step _ _ _ _ td)|]. intros []. cbv beta.
  eapply returns_bind; [apply poised_print|]. intros []; cbv beta.
  eapply returns_bind; [apply poised_get_input|]. intros init_git; cbv beta.
  apply returns_pure. intros ->. rewrite affirmative_answer.
  eapply (returns_bind _ _ _
    (λ _, poised script (b :: c :: rest)
            (traced t0 ([] ++ (if consents a then [EvRun ["git"; "init"]] else [])))
            a_file)).
  { destruct (consents a).
    - eapply returns_bind; [apply poised_init_git_repo|].
      intros [|]; apply poised_print.
    - apply returns_ret. intros w. apply poised_conseq; [|done]. apply traced_none. }
  intros []. cbv beta.
  eapply returns_bind; [apply poised_get_input|]. intros install_hooks; cbv beta.
  apply returns_pure. intros ->. rewrite affirmative_answer.
  eapply (returns_bind _ _ _
    (λ _, poised script (c :: rest)
            (traced t0 (([] ++ (if consents a then [EvRun ["git"; "init"]] else []))
                        ++ (if consents b then [EvRun ["pre-commit"; "install"]] else [])))
            a_file)).
  { destruct (consents b).
    - eapply returns_bind; [apply poised_install_pre_commit|].
      intros [|]; cbv beta; [apply poised_print|].
      eapply returns_bind; [apply poised_print|]. intros []. apply poised_print.
    - apply returns_ret. intros w. apply poised_conseq; [|done]. apply traced_none. }
  intros []. cbv beta.
  eapply returns_bind; [apply poised_print|]. intros []; cbv beta.
  eapply returns_bind; [apply poised_get_input|]. intros remove_script; cbv beta.
  apply returns_pure. intros ->. rewrite affirmative_answer.
  eapply (returns_bind _ _ _
    (λ _, poised script rest
            (traced t0
               ((([] ++ (if consents a then [EvRun ["git"; "init"]] else []))
                 ++ (if consents b then [EvRun ["pre-commit"; "install"]] else []))
                ++ (if consents c then [EvUnlink [script]] else [])))
            (λ o, if consents c then o = None else a_file o))).
  { destruct (consents c).
    - eapply returns_bind; [apply poised_unlink|]. intros []. apply poised_print.
    - apply returns_ret. intros w. apply poised_conseq; [|done]. apply traced_none. }
  intros []. cbv beta.
  do 3 (eapply returns_bind; [apply poised_print|]; intros []; cbv beta).
  unfold getitem. rewrite Hname.
  match goal with
  | |- returns ?P _ _ => eapply (returns_bind P _ _ (λ _, P)); [by apply returns_ret|]
  end.
  intros ?. cbv beta.
  do 7 (eapply returns_bind; [apply poised_print|]; intros []; cbv beta).
  by apply returns_ret.
Qed.

End main_steps_facts.

Section main_questions.
Import Py Script.

(** X15.  The three optional steps of [main] happen exactly when the user
    consents.  In a run with fifteen lines to read, plain directory names,
    no launch refused by the system and the script a regular file: [main]
    returns 0 having read exactly these lines; after the writes and moves
    of the file phase its trace holds the launch of [git init] exactly when
    the answer to the first question is empty, [yes] or [y] (in any case,
    white space aside), then the launch of [pre-commit install] under the
    same condition on the second answer, then the removal of the script
    under that condition on the third, and nothing else; the script is gone
    in the end exactly when its removal was consented to. *)
Theorem main_optional_steps script w ins a b c rest :
  is_name script = true → script ≠ "src" → script ≠ "tests" →
  w_stdin w = ins ++ a :: b :: c :: rest → length ins = length TEMPLATE_VARS →
  names_answered w → (∀ cmd, w_tool w cmd ≠ ToolDenied) →
  (∃ f, w_fs w !! [script] = Some (EFile f)) →
  ∃ w' evs, main script w = Ok 0%Z w'
    ∧ w_stdin w' = rest
    ∧ w_trace w' = w_trace w ++ evs
        ++ (if consents a then [EvRun ["git"; "init"]] else [])
        ++ (if consents b then [EvRun ["pre-commit"; "install"]] else [])
        ++ (if consents c then [EvUnlink [script]] else [])
    ∧ Forall file_change evs
    ∧ (if consents c then w_fs w' !! [script] = None
       else ∃ f, w_fs w' !! [script] = Some (EFile f)).
Proof.
  intros Hname Hsrc Htests Hin Hlen Hnames Htool Hf.
  destruct (main_steps script Hname Hsrc Htests (w_trace w) ins a b c rest Hlen w)
    as (code & w' & Hrun & (Hin' & _ & (evs & Ht & Hall) & Hf') & ->).
  { split; [done|]. split; [done|]. split; [done|]. by split. }
  exists w', evs. split; [done|]. split; [done|]. split; [|split; [done|]].
  - rewrite Ht. simpl. by rewrite <-!app_assoc.
  - by destruct (consents c).
Qed.

Lemma answered_world_names : names_answered answered_world.
Proof. intros i line Hi [->| ->]; injection Hi as <-; by left. Defined.

Lemma main_optional_steps_witness :
  ∃ w' evs, main "setup_template.py" answered_world = Ok 0%Z w'
    ∧ w_stdin w' = ["more"]
    ∧ w_trace w' = [] ++ evs ++ [] ++ [EvRun ["pre-commit"; "install"]] ++ []
    ∧ Forall file_change evs
    ∧ ∃ f, w_fs w' !! ["setup_template.py"] = Some (EFile f).
Proof.
  apply (main_optional_steps "setup_template.py" answered_world
           (replicate 12 EmptyString) "n" " Y " "no" ["more"] eq_refl).
  - discriminate.
  - discriminate.
  - reflexivity.
  - reflexivity.
  - apply answered_world_names.
  - discriminate.
  - eexists. reflexivity.
Defined.

End main_questions.

(** * The end of the input during the questions *)

Section raises_rules.
Import Py.
Context {A B : Type}.

Lemma raises_bind_now P (m : t A) (k : A → t B) E :
  raises P m E → raises P (bind m k) E.
Proof.
  intros Hm w Hw. destruct (Hm w Hw) as (e & w' & Hrun & He).
  exists e, w'. unfold bind. by rewrite Hrun.
Qed.

Lemma raises_bind_after P (m : t A) (k : A → t B) Q E :
  returns P m Q → (∀ a, raises (Q a) (k a) E) → raises P (bind m k) E.
Proof.
  intros Hm Hk w Hw. destruct (Hm w Hw) as (a & w1 & Hrun & Hq).
  destruct (Hk a w1 Hq) as (e & w2 & Hrun2 & He).
  exists e, w2. unfold bind. by rewrite Hrun.
Qed.

Lemma raises_pure P (φ : Prop) (m : t A) E :
  (φ → raises P m E) → raises (λ w, P w ∧ φ) m E.
Proof. intros H w [Hw Hφ]. by apply H. Qed.

End raises_rules.

Section main_eof.
Import Py Script.
Variable script : string.
Hypothesis script_name : is_name script = true.
Hypothesis script_not_src : script ≠ "src".
Hypothesis script_not_tests : script ≠ "tests".
Variable t0 : list event.
Implicit Types (w : world) (l : list string) (G : list event)
  (T : list event → Prop) (F : option entry → Prop).

Lemma poised_get_input_eof T F prompt dflt :
  raises (poised script [] T F) (get_input prompt dflt)
    (λ e w, e = EOFError ∧ poised script [] T F w).
Proof.
  intros w (Hin & Htool & Ht & Hf). rewrite get_input_eof by done.
  eexists _, _. split; [done|]. by split.
Qed.

(** The answers for the two directories are among the twelve first lines. *)
Lemma names_answered_prefix ins l l' w w' :
  length ins = length TEMPLATE_VARS →
  w_stdin w = ins ++ l → w_stdin w' = ins ++ l' →
  names_answered w → names_answered w'.
Proof.
  intros Hlen Hin Hin' Hnames i line Hi Hcase. apply (Hnames i line); [|done].
  rewrite Hin' in Hi. rewrite Hin.
  assert (i < length ins) as Hlt by (rewrite Hlen; simpl; destruct Hcase; subst; lia).
  rewrite lookup_app_l in Hi by done. by rewrite lookup_app_l.
Qed.

(** The prompts of [collect_variables], whatever follows the twelve
    answers. *)
Lemma poised_collect_variables_any ins l :
  length ins = length TEMPLATE_VARS →
  returns (λ w, (w_stdin w = ins ++ l ∧ names_answered w)
                ∧ poised script (ins ++ l) (λ t, t = t0) a_file w)
    collect_variables
    (λ vs w, poised script l (traced t0 []) a_file w ∧ configured vs).
Proof.
  intros Hlen w [[Hin Hnames] (_ & Htool & Ht & Hf)].
  set (w3 := set_stdin (ins ++ replicate 3 EmptyString) w).
  destruct (poised_collect_variables script t0 ins (replicate 3 EmptyString) Hlen
              (le_n 3) w3) as (vs & w3' & Hrun3 & _ & Hconf).
  { split; [split; [done|]|by repeat split].
    by apply (names_answered_prefix ins l (replicate 3 EmptyString) w). }
  destruct (collect_variables_answers ins (replicate 3 EmptyString) w3 eq_refl Hlen)
    as (w3'' & Hrun3' & _).
  rewrite Hrun3 in Hrun3'. injection Hrun3' as -> _.
  destruct (collect_variables_answers ins l w Hin Hlen)
    as (w' & Hrun & Hin' & Hfs' & Htool').
  exists (answers_of TEMPLATE_VARS ins []), w'. split; [done|]. split; [|done].
  split; [done|]. split; [by rewrite Htool'|]. split; [|by rewrite Hfs'].
  exists []. split; [|done]. rewrite !app_nil_r.
  pose proof (keeps_collect_variables (λ w1, w_trace w1 = t0)) as Hk.
  specialize (Hk (λ _ _ H, H) (λ _ _ H, H) w Ht). by rewrite Hrun in Hk.
Qed.

(** The run of [main] when the input ends during the three questions. *)
Lemma main_eof_steps ins l :
  length ins = length TEMPLATE_VARS → length l < 3 →
  raises (λ w, (w_stdin w = ins ++ l ∧ names_answered w)
               ∧ poised script (ins ++ l) (λ t, t = t0) a_file w)
    (main script)
    (λ e w, e = EOFError ∧ w_stdin w = [] ∧ a_file (w_fs w !! [script])).
Proof.
  intros Hlen Hl. unfold main.
  eapply raises_bind_after; [by apply poised_collect_variables_any|].
  intros values. cbv beta. apply raises_pure.
  intros ((sd & Hsd & Hsdn) & (td & Htd & Htdn) & [name Hname]).
  do 3 (eapply raises_bind_after; [apply poised_print|]; intros []; cbv beta).
  eapply raises_bind_after; [apply poised_process_files; by eexists|].
  intros count. cbv beta.
  eapply raises_bind_after; [by apply (poised_rename_step _ _ _ _ _ _ sd)|].
  intros []. cbv beta.
  eapply raises_bind_after; [by apply (poised_rename_step _ _ _ _ _ _ td)|].
  intros []. cbv beta.
  eapply raises_bind_after; [apply poised_print|]. intros []; cbv beta.
  assert (∀ T F (k : string → t Z) prompt dflt,
            raises (poised script [] T F) (bind (get_input prompt dflt) k)
              (λ e w, e = EOFError ∧ w_stdin w = [] ∧ F (w_fs w !! [script]))) as Hend.
  { intros T F k prompt dflt. apply raises_bind_now.
    intros w Hw. destruct (poised_get_input_eof T F prompt dflt w Hw)
      as (e & w' & Hrun & -> & Hin & _ & _ & Hf).
    by exists EOFError, w'. }
  destruct l as [|a l]; [apply Hend|].
  eapply raises_bind_after; [apply poised_get_input|]. intros init_git; cbv beta.
  apply raises_pure. intros ->. rewrite affirmative_answer.
  eapply (raises_bind_after _ _ _
    (λ _, poised script l
            (traced t0 ([] ++ (if consents a then [EvRun ["git"; "init"]] else [])))
            a_file)).
  { destruct (consents a).
    - eapply returns_bind; [apply poised_init_git_repo|].
      intros [|]; apply poised_print.
    - apply returns_ret. intros w. apply poised_conseq; [|done]. apply traced_none. }
  intros []. cbv beta.
  destruct l as [|b l]; [apply Hend|].
  eapply raises_bind_after; [apply poised_get_input|]. intros install_hooks; cbv beta.
  apply raises_pure. intros ->. rewrite affirmative_answer.
  eapply (raises_bind_after _ _ _
    (λ _, poised script l
            (traced t0 (([] ++ (if consents a then [EvRun ["git"; "init"]] else []))
                        ++ (if consents b then [EvRun ["pre-commit"; "install"]] else [])))
            a_file)).
  { destruct (consents b).
    - eapply returns_bind; [apply poised_install_pre_commit|].
      intros [|]; cbv beta; [apply poised_print|].
      eapply returns_bind; [apply poised_print|]. intros []. apply poised_print.
    - apply returns_ret. intros w. apply poised_conseq; [|done]. apply traced_none. }
  intros []. cbv beta.
  eapply raises_bind_after; [apply poised_print|]. intros []; cbv beta.
  destruct l as [|c l]; [apply Hend|]. simpl in Hl. lia.
Qed.

End main_eof.

Section main_eof_questions.
Import Py Script.

(** X17.  When the input ends during the three questions (twelve lines for the
    variables and fewer than three more, with plain directory names, no
    launch refused by the system and the script a regular file), [main]
    raises [EOFError] at the question for which no line is left: the input
    is used up and the running script has not been removed. *)
Theorem main_eof_in_questions script w ins l :
  is_name script = true → script ≠ "src" → script ≠ "tests" →
  w_stdin w = ins ++ l → length ins = length TEMPLATE_VARS → length l < 3 →
  names_answered w → (∀ cmd, w_tool w cmd ≠ ToolDenied) →
  (∃ f, w_fs w !! [script] = Some (EFile f)) →
  ∃ w', main script w = Raise EOFError w'
    ∧ w_stdin w' = []
    ∧ ∃ f, w_fs w' !! [script] = Some (EFile f).
Proof.
  intros Hname Hsrc Htests Hin Hlen Hl Hnames Htool Hf.
  destruct (main_eof_steps script Hsrc Htests (w_trace w) ins l Hlen Hl w)
    as (e & w' & Hrun & -> & Hin' & Hf').
  { split; [done|]. split; [done|]. split; [done|]. by split. }
  by exists w'.
Qed.

Lemma cut_short_world_names : names_answered cut_short_world.
Proof. intros i line Hi [->| ->]; injection Hi as <-; by left. Defined.

Lemma main_eof_in_questions_witness :
  ∃ w', main "setup_template.py" cut_short_world = Raise EOFError w'
    ∧ w_stdin w' = []
    ∧ ∃ f, w_fs w' !! ["setup_template.py"] = Some (EFile f).
Proof.
  apply (main_eof_in_questions "setup_template.py" cut_short_world
           (replicate 12 EmptyString) ["y"] eq_refl).
  - discriminate.
  - discriminate.
  - reflexivity.
  - reflexivity.
  - simpl. lia.
  - apply cut_short_world_names.
  - discriminate.
  - eexists. reflexivity.
Defined.

End main_eof_questions.

(** * The files that [main] leaves alone *)

Lemma keeps_for_acc_in {A S} (I : world → Prop) (l : list A) (body : S → A → Py.t S) :
  (∀ acc x, x ∈ l → keeps I (body acc x)) → ∀ acc, keeps I (Py.for_acc l acc body).
Proof.
  induction l as [|x l IH]; intros Hbody acc; [apply keeps_ret|].
  cbn [Py.for_acc]. apply keeps_bind; [apply Hbody, list_elem_of_here|].
  intros acc'. apply IH. intros ? y Hy. by apply Hbody, list_elem_of_further.
Qed.

Section main_frame.
Import Py Script.
Variable q : path.
Variable o : option entry.
Implicit Types (w : world) (p : path) (d values : dict).

Abbreviation I := (lies_at q o).

Lemma at_out s w : I w → I (add_stdout s w).
Proof. done. Qed.

Lemma at_in i w : I w → I (set_stdin i w).
Proof. done. Qed.

Lemma at_event e w : True → I w → I (add_event e w).
Proof. done. Qed.

Lemma at_write_text p s : p ≠ q → keeps I (Fs.write_text p s).
Proof.
  intros Hp w Hw. unfold Fs.write_text. cbn [w_fs add_event].
  destruct (Fs.entry_at (w_fs w) p) as [[f|]|].
  - destruct (f_writable f); [|done]. unfold I. simpl. by rewrite lookup_insert_ne.
  - done.
  - destruct (Fs.entry_at (w_fs w) (Fs.parent p)) as [[f|]|]; [done| |done].
    unfold I. simpl. by rewrite lookup_insert_ne.
Qed.

Lemma at_unlink p : p ≠ q → keeps I (Fs.unlink p).
Proof.
  intros Hp w Hw. unfold Fs.unlink.
  destruct (Fs.entry_at (w_fs w) p) as [[f|]|]; [|done..].
  unfold I. simpl. by rewrite lookup_delete_ne.
Qed.

Lemma at_replace_in_file p d : p ≠ q → keeps I (replace_in_file p d).
Proof.
  intros Hp. unfold replace_in_file. apply keeps_try_except.
  - apply keeps_bind; [by apply keeps_read_text|]. intros content. cbv zeta.
    case_bool_decide; [|apply keeps_ret].
    apply keeps_bind; [by apply at_write_text|]. intros _. apply keeps_ret.
  - intros e. apply keeps_bind; [by apply keeps_print|]. intros _. apply keeps_ret.
Qed.

Lemma prefix_drop (pre s : string) :
  String.prefix pre s = true → pre +:+ Str.drop (String.length pre) s = s.
Proof.
  revert s; induction pre as [|a pre IH]; intros s; [done|].
  destruct s as [|b s]; [done|]. simpl.
  destruct (ascii_dec a b) as [->|]; [|done]. intros Hp.
  rewrite str_app_cons. f_equal. by apply IH.
Qed.

(** With the default names the second try of a listed file is the first. *)
Lemma fallback_same (rel : string) :
  (if Str.startswith rel "src/" then ("src" +:+ "/") +:+ Str.drop 4 rel
   else if Str.startswith rel "tests/" then ("tests" +:+ "/") +:+ Str.drop 6 rel
   else rel) = rel.
Proof.
  destruct (Str.startswith rel "src/") eqn:Hs; [by apply (prefix_drop "src/")|].
  destruct (Str.startswith rel "tests/") eqn:Ht; [by apply (prefix_drop "tests/")|].
  done.
Qed.

Lemma at_process_target values n rel :
  dict_get values "SOURCE_DIR" = Some "src" → dict_get values "TEST_DIR" = Some "tests" →
  Fs.path_of rel ≠ q → keeps I (process_target values n rel).
Proof.
  intros Hsd Htd Hp.
  assert (∀ shown : string,
    keeps I (modified <- replace_in_file (Fs.path_of rel) values ;;
             if modified : bool then print ("  Updated: " +:+ shown) ;;; ret (n + 1)
             else ret n)) as Hrun.
  { intros shown. apply keeps_bind; [by apply at_replace_in_file|].
    intros [|]; [|apply keeps_ret].
    apply keeps_bind; [by apply keeps_print|]. intros _. apply keeps_ret. }
  intros w Hw. unfold process_target. unfold bind at 1. unfold Fs.exists_ at 1.
  destruct (Fs.entry_at (w_fs w) (Fs.path_of rel)) eqn:He; [by apply Hrun|].
  unfold bind at 1. rewrite (fallback_path_run values "src" "tests" rel w Hsd Htd).
  rewrite fallback_same. unfold bind at 1. unfold Fs.exists_ at 1. by rewrite He.
Qed.

Lemma at_rename_step values old key :
  dict_get values key = Some old → keeps I (rename_step values old key).
Proof.
  intros Hget w Hw. unfold rename_step, getitem. rewrite Hget.
  unfold bind, ret. by rewrite bool_decide_false by (by intros []).
Qed.

(** The run of [main] past the prompts, with the default names. *)
Lemma at_main_rest script w values w1 :
  collect_variables w = Ok values w1 →
  dict_get values "SOURCE_DIR" = Some "src" → dict_get values "TEST_DIR" = Some "tests" →
  q ∉ Fs.path_of <$> FILES_TO_PROCESS → q ≠ Fs.path_of script →
  I w1 → I (outcome_world (main script w)).
Proof.
  intros Hcv Hsd Htd Hq Hscript Hw1. unfold main. unfold bind at 1. rewrite Hcv.
  revert w1 Hw1 Hcv.
  match goal with
  | |- ∀ w1, _ → _ → I (outcome_world (?K w1)) =>
      assert (keeps I K) as HK; [|intros w1 Hw1 _; by apply HK]
  end.
  do 3 (apply keeps_bind; [by apply keeps_print|]; intros _).
  apply keeps_bind.
  { unfold process_files. apply keeps_bind.
    - apply keeps_for_acc_in. intros acc rel Hrel. apply at_process_target; [done..|].
      intros <-. apply Hq. apply list_elem_of_fmap. by exists rel.
    - intros n. apply keeps_bind; [by apply keeps_print|]. intros _. apply keeps_ret. }
  intros _.
  apply keeps_bind; [by apply at_rename_step|]. intros _.
  apply keeps_bind; [by apply at_rename_step|]. intros _.
  apply keeps_bind; [by apply keeps_print|]. intros _.
  apply keeps_bind; [by apply keeps_get_input|]. intros init_git.
  apply keeps_bind.
  { destruct (affirmative init_git); [|apply keeps_ret].
    apply keeps_bind; [by apply (keeps_init_git_repo I (λ _, True))|].
    intros [|]; by apply keeps_print. }
  intros _.
  apply keeps_bind; [by apply keeps_get_input|]. intros install_hooks.
  apply keeps_bind.
  { destruct (affirmative install_hooks); [|apply keeps_ret].
    apply keeps_bind; [by apply (keeps_install_pre_commit I (λ _, True))|].
    intros [|]; [by apply keeps_print|].
    apply keeps_bind; [by apply keeps_print|]. intros _. by apply keeps_print. }
  intros _.
  apply keeps_bind; [by apply keeps_print|]. intros _.
  apply keeps_bind; [by apply keeps_get_input|]. intros remove_script.
  apply keeps_bind.
  { destruct (affirmative remove_script); [|apply keeps_ret].
    apply keeps_bind; [by apply at_unlink|]. intros _. by apply keeps_print. }
  intros _.
  do 3 (apply keeps_bind; [by apply keeps_print|]; intros _).
  apply keeps_bind; [apply keeps_getitem|]. intros project_name.
  do 7 (apply keeps_bind; [by apply keeps_print|]; intros _).
  apply keeps_ret.
Qed.

End main_frame.

Section main_default_names.
Import Py Script.
Implicit Types (w : world).

Lemma collect_variables_eof w :
  length (w_stdin w) < length TEMPLATE_VARS →
  ∃ w', collect_variables w = Raise EOFError w'.
Proof.
  intros Hlen. unfold collect_variables.
  unfold bind at 1. unfold print at 1.
  unfold bind at 1. unfold print at 1. unfold bind at 1. unfold print at 1.
  unfold bind at 1. unfold print at 1. unfold bind at 1. unfold print at 1.
  edestruct (collect_loop_eof TEMPLATE_VARS []) as (w' & -> & _); [|by exists w'].
  done.
Qed.

(** Answers that leave the defaults of the two directories give the default
    names. *)
Lemma collect_variables_default_names w values w' :
  collect_variables w = Ok values w' →
  (∀ line, w_stdin w !! 8 = Some line → Str.strip line = EmptyString) →
  (∀ line, w_stdin w !! 9 = Some line → Str.strip line = EmptyString) →
  dict_get values "SOURCE_DIR" = Some "src" ∧ dict_get values "TEST_DIR" = Some "tests".
Proof.
  intros Hrun H8 H9.
  destruct (decide (length (w_stdin w) < length TEMPLATE_VARS)) as [Hlt|Hge].
  { destruct (collect_variables_eof w Hlt) as [w'' Hr]. congruence. }
  destruct (w_stdin w) as [|x0 l] eqn:Hin; [simpl in Hge; lia|].
  destruct l as [|x1 l]; [simpl in Hge; lia|].
  destruct l as [|x2 l]; [simpl in Hge; lia|].
  destruct l as [|x3 l]; [simpl in Hge; lia|].
  destruct l as [|x4 l]; [simpl in Hge; lia|].
  destruct l as [|x5 l]; [simpl in Hge; lia|].
  destruct l as [|x6 l]; [simpl in Hge; lia|].
  destruct l as [|x7 l]; [simpl in Hge; lia|].
  destruct l as [|x8 l]; [simpl in Hge; lia|].
  destruct l as [|x9 l]; [simpl in Hge; lia|].
  destruct l as [|x10 l]; [simpl in Hge; lia|].
  destruct l as [|x11 l]; [simpl in Hge; lia|].
  destruct (collect_variables_answers
              [x0; x1; x2; x3; x4; x5; x6; x7; x8; x9; x10; x11] l w Hin eq_refl)
    as (w'' & Hrun' & _).
  pose proof (H8 x8 eq_refl) as Hs8. pose proof (H9 x9 eq_refl) as Hs9.
  rewrite Hrun in Hrun'. injection Hrun' as -> _.
  split.
  - transitivity (Some (answer x8 "src")); [reflexivity|]. unfold answer. by rewrite Hs8.
  - transitivity (Some (answer x9 "tests")); [reflexivity|]. unfold answer. by rewrite Hs9.
Qed.

(** X18.  With the default names of the two directories, [main] changes only
    the listed files and itself: when the answers for [SOURCE_DIR] and
    [TEST_DIR] are empty once stripped, every entry whose path is not the
    path of a file of [FILES_TO_PROCESS] and not the running script is, at
    the end of the run, what it was at the start, whether the run returns
    or raises.  (What [git] and [pre-commit] do to the tree themselves is
    outside the model.) *)
Theorem main_default_names_frame script w q :
  (∀ line, w_stdin w !! 8 = Some line → Str.strip line = EmptyString) →
  (∀ line, w_stdin w !! 9 = Some line → Str.strip line = EmptyString) →
  q ∉ Fs.path_of <$> FILES_TO_PROCESS → q ≠ Fs.path_of script →
  (∀ code w', main script w = Ok code w' → w_fs w' !! q = w_fs w !! q)
  ∧ (∀ e w', main script w = Raise e w' → w_fs w' !! q = w_fs w !! q).
Proof.
  intros H8 H9 Hq Hscript.
  assert (w_fs (outcome_world (main script w)) !! q = w_fs w !! q) as H.
  { pose proof (keeps_collect_variables (lies_at q (w_fs w !! q))
                  (λ _ _ H, H) (λ _ _ H, H) w eq_refl) as Hcv.
    destruct (collect_variables w) as [values w1|e w1] eqn:Hrun.
    - destruct (collect_variables_default_names w values w1 Hrun H8 H9) as [Hsd Htd].
      by apply (at_main_rest q (w_fs w !! q) script w values w1).
    - unfold main. unfold bind at 1. by rewrite Hrun. }
  split; intros ? w' Hrun; by rewrite Hrun in H.
Qed.

Lemma main_default_names_frame_witness :
  (∀ code w', main "setup_template.py" licensed_world = Ok code w' →
     w_fs w' !! ["LICENSE"] = Some (text_file "Copyright {{GITHUB_OWNER}}"))
  ∧ (∀ e w', main "setup_template.py" licensed_world = Raise e w' →
     w_fs w' !! ["LICENSE"] = Some (text_file "Copyright {{GITHUB_OWNER}}")).
Proof.
  apply (main_default_names_frame "setup_template.py" licensed_world ["LICENSE"]).
  - intros line [= <-]. reflexivity.
  - intros line [= <-]. reflexivity.
  - apply (bool_decide_unpack _). vm_compute. reflexivity.
  - vm_compute. discriminate.
Defined.

(** The run of the witness: the listed files are filled in, the file that
    is not listed keeps its placeholder. *)
Example main_licensed_run :
  ∃ w', main "setup_template.py" licensed_world = Ok 0%Z w'
    ∧ w_fs w' !! ["README.md"] = Some (text_file "# my-python-project")
    ∧ w_fs w' !! ["LICENSE"] = Some (text_file "Copyright {{GITHUB_OWNER}}").
Proof.
  eexists. split; [vm_compute; reflexivity|]. split; vm_compute; reflexivity.
Qed.

End main_default_names.
